(** * PreViz: a shallow embedding of the plugin's Python sources

    The development follows the four source files:
    - [scene_parser.py]   : text prompt -> scene parameters (module [SceneParser]);
    - [cinematographer.py]: the image-generation HTTP client (module [Cinematographer]);
    - [director.py]       : scene-graph settings derived from the parameters (module [Director]);
    - [__init__.py]       : the operators of the panel (module [Addon]).

    Python values are the values [json.loads] produces.  A computation that may
    raise is a value of [res]; a computation that also talks to the network, the
    file system or the host is a value of [M]: the trace of its events together
    with its result.  Everything the code cannot decide by itself (HTTP responses,
    [json.loads], [str()], [tempfile.mkstemp]) is a field of the record [world],
    and every theorem quantifies over all worlds.  Calls to [logger] and [print]
    have no effect on results and are left out. *)

From Stdlib Require Import List String Ascii Bool Arith ZArith QArith Reals Lia Lra.
From Stdlib Require Import DecimalString.
Import ListNotations.
Set Warnings "-register-all".
Close Scope R_scope.
Close Scope Q_scope.
Open Scope string_scope.
Open Scope list_scope.

(* ================================================================= *)
(** ** Python values and exceptions *)

Module Py.

(** Exceptions the code can meet.  Every handler in the sources is
    [except Exception] (or a subclass listed before it with the same body), so
    the kind is kept for documentation only. *)
Inductive exc : Type :=
| TypeError | KeyError | IndexError | AttributeError | ValueError
| RequestException | JSONDecodeError
| PyException (msg : string).

Inductive res (A : Type) : Type :=
| Ret (a : A)
| Raise (e : exc).
Arguments Ret {A} a.
Arguments Raise {A} e.

Definition rbind {A B} (m : res A) (k : A -> res B) : res B :=
  match m with
  | Ret a => k a
  | Raise e => Raise e
  end.

(** Hashable values: what may be a dictionary key. *)
Inductive pykey : Type :=
| KNone
| KBool (b : bool)
| KNum (q : Q)
| KStr (s : string).

(** The values [json.loads] yields.  Numbers (int and float alike) are
    rationals: the code only ever tests them for truth. *)
Inductive pyval : Type :=
| PNone
| PBool (b : bool)
| PNum (q : Q)
| PStr (s : string)
| PList (l : list pyval)
| PDict (d : list (pykey * pyval)).

(** A dictionary keeps its insertion order. *)
Definition pydict : Type := list (pykey * pyval).

Definition key_num (k : pykey) : option Q :=
  match k with
  | KBool true => Some 1%Q
  | KBool false => Some 0%Q
  | KNum q => Some q
  | _ => None
  end.

(** Key equality is Python's [==] on hashable values: [True == 1 == 1.0]. *)
Definition key_eqb (a b : pykey) : bool :=
  match a, b with
  | KNone, KNone => true
  | KStr s, KStr t => String.eqb s t
  | _, _ =>
      match key_num a, key_num b with
      | Some x, Some y => Qeq_bool x y
      | _, _ => false
      end
  end.

Definition key_of (v : pyval) : option pykey :=
  match v with
  | PNone => Some KNone
  | PBool b => Some (KBool b)
  | PNum q => Some (KNum q)
  | PStr s => Some (KStr s)
  | PList _ | PDict _ => None          (* unhashable *)
  end.

Definition val_of_key (k : pykey) : pyval :=
  match k with
  | KNone => PNone
  | KBool b => PBool b
  | KNum q => PNum q
  | KStr s => PStr s
  end.

Fixpoint dict_lookup (k : pykey) (d : pydict) : option pyval :=
  match d with
  | [] => None
  | (k', v) :: d' => if key_eqb k k' then Some v else dict_lookup k d'
  end.

Definition dict_mem (k : pykey) (d : pydict) : bool :=
  match dict_lookup k d with Some _ => true | None => false end.

(** [d[k] = v]: an existing entry keeps its place (and its key object), a new
    one goes last. *)
Fixpoint dict_set (k : pykey) (v : pyval) (d : pydict) : pydict :=
  match d with
  | [] => [(k, v)]
  | (k', v') :: d' =>
      if key_eqb k k' then (k', v) :: d' else (k', v') :: dict_set k v d'
  end.

Definition dict_keys (d : pydict) : list pykey := map fst d.

(* ----------------------------------------------------------------- *)
(** *** Strings *)

(** A string of this development is a sequence of bytes.  It stands for the
    Python [str] with the same characters when the text is ASCII, and on
    such text the functions below ([lower], [strip], [in], [endswith],
    lengths and slices) are Python's.  Outside ASCII [str.lower()] and
    [str.strip()] know more letters and more white space than these
    functions do; a statement that would not hold of the code there is
    stated for ASCII text ([isascii]). *)

(** [s.isascii()] *)
Fixpoint isascii (s : string) : bool :=
  match s with
  | EmptyString => true
  | String c s' => (nat_of_ascii c <? 128)%nat && isascii s'
  end.

Definition is_upper (c : ascii) : bool :=
  let n := nat_of_ascii c in ((65 <=? n) && (n <=? 90))%nat.

Definition lower_ascii (c : ascii) : ascii :=
  if is_upper c then ascii_of_nat (nat_of_ascii c + 32) else c.

(** [str.lower()] on ASCII text: the letters A to Z. *)
Fixpoint lower (s : string) : string :=
  match s with
  | EmptyString => EmptyString
  | String c s' => String (lower_ascii c) (lower s')
  end.

(** [needle in hay] for two strings. *)
Fixpoint substring_of (needle hay : string) : bool :=
  String.prefix needle hay ||
  match hay with
  | EmptyString => false
  | String _ hay' => substring_of needle hay'
  end.

(** [s.endswith(suffix)]. *)
Fixpoint endswith (s suffix : string) : bool :=
  String.eqb s suffix ||
  match s with
  | EmptyString => false
  | String _ s' => endswith s' suffix
  end.

(** The characters [str.strip()] removes from ASCII text. *)
Definition is_space (c : ascii) : bool :=
  let n := nat_of_ascii c in
  (((9 <=? n) && (n <=? 13)) || ((28 <=? n) && (n <=? 32)))%nat.

(** [not s.strip()]: nothing is left once white space is stripped. *)
Fixpoint blank (s : string) : bool :=
  match s with
  | EmptyString => true
  | String c s' => is_space c && blank s'
  end.

(** [s.strip()] *)
Fixpoint lstrip (s : string) : string :=
  match s with
  | EmptyString => EmptyString
  | String c s' => if is_space c then lstrip s' else s
  end.

Fixpoint rstrip (s : string) : string :=
  match s with
  | EmptyString => EmptyString
  | String c s' =>
      let r := rstrip s' in
      if is_space c && String.eqb r "" then EmptyString else String c r
  end.

Definition strip (s : string) : string := rstrip (lstrip s).

Fixpoint join (sep : string) (l : list string) : string :=
  match l with
  | [] => ""
  | [x] => x
  | x :: l' => x ++ sep ++ join sep l'
  end.

(** [sep.join(parts)] where the parts are arbitrary values: a part that is
    not a string raises [TypeError]. *)
Fixpoint strings_of (l : list pyval) : res (list string) :=
  match l with
  | [] => Ret []
  | PStr s :: l' => rbind (strings_of l') (fun r => Ret (s :: r))
  | _ :: _ => Raise TypeError
  end.

Definition py_join (sep : string) (parts : list pyval) : res string :=
  rbind (strings_of parts) (fun l => Ret (join sep l)).

(* ----------------------------------------------------------------- *)
(** *** Operators on values *)

(** Truth value of an object ([if x], [not x], [x or y]). *)
Definition truthy (v : pyval) : bool :=
  match v with
  | PNone => false
  | PBool b => b
  | PNum q => negb (Qeq_bool q 0%Q)
  | PStr s => negb (String.eqb s "")
  | PList l => match l with [] => false | _ => true end
  | PDict d => match d with [] => false | _ => true end
  end.

(** [isinstance(v, dict)] *)
Definition is_dict (v : pyval) : bool := match v with PDict _ => true | _ => false end.

(** [v == "s"] *)
Definition eq_str (v : pyval) (s : string) : bool :=
  match v with PStr t => String.eqb t s | _ => false end.

(** ["k" in c]: key of a dict, element of a list, substring of a string;
    [TypeError] on anything else. *)
Definition py_in (k : string) (c : pyval) : res bool :=
  match c with
  | PDict d => Ret (dict_mem (KStr k) d)
  | PList l => Ret (existsb (fun x => eq_str x k) l)
  | PStr s => Ret (substring_of k s)
  | _ => Raise TypeError
  end.

(** [c["k"]] *)
Definition py_getitem (c : pyval) (k : string) : res pyval :=
  match c with
  | PDict d => match dict_lookup (KStr k) d with Some v => Ret v | None => Raise KeyError end
  | _ => Raise TypeError
  end.

(** [c[0]] *)
Definition py_first (c : pyval) : res pyval :=
  match c with
  | PList [] => Raise IndexError
  | PList (x :: _) => Ret x
  | PStr EmptyString => Raise IndexError
  | PStr (String a _) => Ret (PStr (String a EmptyString))
  | PDict d => match dict_lookup (KNum 0%Q) d with Some v => Ret v | None => Raise KeyError end
  | _ => Raise TypeError
  end.

(** [c.get("k", default)]: only a dict has [get]. *)
Definition py_get_or (c : pyval) (k : string) (default : pyval) : res pyval :=
  match c with
  | PDict d => Ret (match dict_lookup (KStr k) d with Some v => v | None => default end)
  | _ => Raise AttributeError
  end.

(** [c.get("k")] *)
Definition py_get (c : pyval) (k : string) : res pyval := py_get_or c k PNone.

(** [a and b], [b] evaluated only when [a] holds. *)
Definition py_and (a b : res bool) : res bool :=
  rbind a (fun x => if x then b else Ret false).

(** [a or b] on values, [b] evaluated only when [a] is false. *)
Definition py_or (a : pyval) (b : res pyval) : res pyval :=
  if truthy a then Ret a else b.

(* ----------------------------------------------------------------- *)
(** *** [dict.update] *)

(** One element of an iterable of pairs: a sequence of exactly two items, the
    first of them hashable.  A two-character string and a two-key dict are
    such sequences too.  (Strings being read as ASCII text, two characters
    are two bytes here.) *)
Definition pair_of (e : pyval) : res (pykey * pyval) :=
  match e with
  | PList [k; v] =>
      match key_of k with Some k' => Ret (k', v) | None => Raise TypeError end
  | PList _ => Raise ValueError
  | PStr (String a (String b EmptyString)) =>
      Ret (KStr (String a EmptyString), PStr (String b EmptyString))
  | PStr _ => Raise ValueError
  | PDict [(k1, _); (k2, _)] => Ret (k1, val_of_key k2)
  | PDict _ => Raise ValueError
  | _ => Raise TypeError
  end.

Fixpoint update_pairs (d : pydict) (l : list pyval) : res pydict :=
  match l with
  | [] => Ret d
  | e :: l' => rbind (pair_of e) (fun kv => update_pairs (dict_set (fst kv) (snd kv) d) l')
  end.

Definition update_items (d other : pydict) : pydict :=
  fold_left (fun acc kv => dict_set (fst kv) (snd kv) acc) other d.

Fixpoint chars (s : string) : list pyval :=
  match s with
  | EmptyString => []
  | String a s' => PStr (String a EmptyString) :: chars s'
  end.

(** [d.update(other)], the updated dictionary being the result. *)
Definition dict_update (d : pydict) (other : pyval) : res pydict :=
  match other with
  | PDict o => Ret (update_items d o)
  | PList l => update_pairs d l
  | PStr s => update_pairs d (chars s)
  | _ => Raise TypeError
  end.

End Py.

(* ================================================================= *)
(** ** The outside world and the effects of the code *)

Module Effects.
Import Py.

(** What [requests.post]/[requests.get] followed by [raise_for_status()] and
    [.json()] comes to: an exception, or the decoded body. *)
Inductive http_outcome : Type :=
| HttpRaises
| HttpJson (data : pyval).

(** What a streaming download into a fresh temporary file comes to. *)
Inductive fetch_outcome : Type :=
| FetchRaises        (* the request (or mkstemp) raised: no file was created *)
| CopyRaises         (* the file was created, copying the body raised *)
| Fetched.           (* the body is in the file *)

(** What writing the export comes to. *)
Inductive write_outcome : Type :=
| OpenRaises         (* [open] raised: nothing was written *)
| DumpRaises         (* the file was opened (and emptied), [json.dump] raised *)
| Written.

Record world : Type := {
  py_str : pyval -> string;                      (* str(x) inside an f-string *)
  json_loads : string -> option pyval;           (* None: JSONDecodeError *)
  json_dumps : pydict -> string;                 (* json.dumps(d, indent=2) *)
  http_post : string -> pydict -> http_outcome;  (* endpoint, JSON payload *)
  http_poll : string -> string -> nat -> http_outcome;
                       (* endpoint that queued the job, status URL, number of the poll *)
  http_fetch : string -> fetch_outcome;          (* image URL *)
  mkstemp : string -> string -> string;          (* suffix, prefix: the fresh path *)
  image_loads : string -> bool;                  (* bpy.data.images.load(path) succeeds *)
  write_json : string -> write_outcome           (* open(path, 'w') and json.dump *)
}.

(** Operations on the host application, as the operators and [director.py]
    issue them. *)
Inductive host_op : Type :=
| HCamera (lens location_z rotation_x_deg : Q)     (* director.apply_camera_settings *)
| HSun (rotation_deg : Q * Q * Q) (angle : Q)      (* director.apply_lighting_settings *)
| HSetStatus (text : string)            (* scene.previz_status = text *)
| HWorldBackground (image_path : string) (* director.setup_world_background *)
| HShadowCatcher                         (* director.create_shadow_catcher_plane *)
| HImageCard (image_path : string)       (* director.import_image_as_card *)
| HRenderedViewport.                     (* space.shading.type = 'RENDERED' *)

Inductive event : Type :=
| EvPost (endpoint : string) (payload : pydict)
| EvSleep (seconds : nat)
| EvPoll (status_url : pyval)
| EvFetch (url : pyval)
| EvMkstemp (path : string)
| EvRemove (path : string)               (* os.remove / os.unlink *)
| EvWrite (path : string)                (* open(path, 'w'): the file is opened for writing *)
| EvHost (op : host_op)                  (* a host operation done by the running thread *)
| EvTimer (run : list host_op) (again : option Q).
   (* bpy.app.timers.register(f): what [f] does when the main loop runs it,
      and what it returns (None: the timer is unregistered) *)

(** A computation: the events it caused, in order, and how it ended. *)
Definition M (A : Type) : Type := (list event * res A)%type.

Definition mret {A} (a : A) : M A := ([], Ret a).
Definition mraise {A} (e : exc) : M A := ([], Raise e).
Definition emit (e : event) : M unit := ([e], Ret tt).
Definition lift {A} (r : res A) : M A := ([], r).

Definition mbind {A B} (m : M A) (k : A -> M B) : M B :=
  match m with
  | (t, Ret a) => let (t', r) := k a in (t ++ t', r)
  | (t, Raise e) => (t, Raise e)
  end.

(** [try: m except Exception as e: handler] *)
Definition try_except {A} (m : M A) (handler : exc -> M A) : M A :=
  match m with
  | (t, Ret a) => (t, Ret a)
  | (t, Raise e) => let (t', r) := handler e in (t ++ t', r)
  end.

(** The three ways the body of a [for] loop can end. *)
Inductive ctl (B R : Type) : Type :=
| Continue
| Break (b : B)
| Return (r : R).
Arguments Continue {B R}.
Arguments Break {B R} b.
Arguments Return {B R} r.

(** [for i in range(lo, lo + n): body].  [Continue] as the result of the whole
    loop: the range was exhausted (the [else] clause of the loop runs). *)
Fixpoint for_range {B R} (n lo : nat) (body : nat -> M (ctl B R)) : M (ctl B R) :=
  match n with
  | O => mret Continue
  | S n' =>
      mbind (body lo) (fun c =>
        match c with
        | Continue => for_range n' (S lo) body
        | _ => mret c
        end)
  end.

Arguments for_range {B R} n lo body : simpl never.

Definition http_json (o : http_outcome) : res pyval :=
  match o with
  | HttpRaises => Raise RequestException
  | HttpJson data => Ret data
  end.

(** [requests.post(endpoint, headers=..., json=payload).json()] *)
Definition post (w : world) (endpoint : string) (payload : pydict) : M pyval :=
  mbind (emit (EvPost endpoint payload)) (fun _ =>
  lift (http_json (http_post w endpoint payload))).

(** [requests.get(status_url, headers=..., timeout=10).json()], for the
    [i]-th time, about a job queued by [endpoint].  Anything but a string is
    no URL: [requests] raises. *)
Definition poll (w : world) (endpoint : string) (status_url : pyval) (i : nat) : M pyval :=
  mbind (emit (EvPoll status_url)) (fun _ =>
  match status_url with
  | PStr u => lift (http_json (http_poll w endpoint u i))
  | _ => mraise RequestException
  end).

End Effects.

Declare Scope py_scope.
Delimit Scope py_scope with py.
Notation "x <- m ;; k" := (Py.rbind m (fun x => k))
  (at level 61, m at next level, right associativity) : py_scope.
Notation "x <~ m ;; k" := (Effects.mbind m (fun x => k))
  (at level 61, m at next level, right associativity) : py_scope.
Notation "m ;;; k" := (Effects.mbind m (fun _ => k))
  (at level 61, right associativity) : py_scope.
Open Scope py_scope.

(* ================================================================= *)
(** ** scene_parser.py *)

Module SceneParser.
Import Py Effects.

Definition BRIA_ENDPOINT : string :=
  "https://engine.prod.bria-api.com/v2/structured_prompt/generate".

Definition DEFAULT_PARAMETERS : pydict :=
  [ (KStr "camera_angle", PStr "Eye Level");
    (KStr "lighting", PStr "Natural");
    (KStr "composition", PStr "Wide Shot");
    (KStr "field_of_view", PStr "35mm") ].

(** [json.loads(x)] *)
Definition loads (w : world) (x : pyval) : res pyval :=
  match x with
  | PStr s => match json_loads w s with Some v => Ret v | None => Raise JSONDecodeError end
  | _ => Raise TypeError
  end.

(** ["result" not in data or "structured_prompt" not in data["result"]] *)
Definition lacks_structured_prompt (data : pyval) : res bool :=
  b <- py_in "result" data ;;
  if negb b then Ret true
  else r <- py_getitem data "result" ;;
       b' <- py_in "structured_prompt" r ;;
       Ret (negb b').

Definition prompt_payload (prompt : string) : pydict :=
  [ (KStr "prompt", PStr prompt); (KStr "sync", PBool true) ].

(** What [get_scene_parameters] makes of the decoded response. *)
Definition structured_parameters (w : world) (data : pyval) : res pydict :=
  bad <- lacks_structured_prompt data ;;
  if bad then Ret DEFAULT_PARAMETERS
  else
    result <- py_getitem data "result" ;;
    structured_prompt_str <- py_getitem result "structured_prompt" ;;
    match loads w structured_prompt_str with
    | Raise JSONDecodeError => Ret DEFAULT_PARAMETERS
    | Raise e => Raise e
    | Ret structured_params =>
        (* final_params = DEFAULT_PARAMETERS.copy(); final_params.update(...) *)
        dict_update DEFAULT_PARAMETERS structured_params
    end.

(** The body of the outer [try] of [get_scene_parameters]. *)
Definition get_scene_parameters_try (w : world) (text_prompt : string) : M pydict :=
  data <~ post w BRIA_ENDPOINT (prompt_payload text_prompt) ;;
  lift (structured_parameters w data).

Definition get_scene_parameters (w : world) (text_prompt : string) : M pydict :=
  try_except (get_scene_parameters_try w text_prompt)
             (fun _ => mret DEFAULT_PARAMETERS).

(** What a call that received the caller's dictionary leaves behind: the
    dictionary it returns and the caller's dictionary after the call.  The two
    differ from "a fresh value per use" because [dict.copy()] is shallow: a
    nested dictionary is one object in both. *)
Record refinement : Type := {
  returned : pydict;
  argument_after : pydict
}.

(** State of [_fallback_refinement]: [refined], the caller's [existing_params],
    and whether [refined["lighting"]] still is the caller's object. *)
Record fallback_state : Type := {
  refined : pydict;
  existing : pydict;
  shared : bool
}.

(** The recurring statement
<<
    if isinstance(refined.get("lighting"), dict):
        refined["lighting"][...] = ...          # in place
    else:
        refined["lighting"] = {"direction": refined.get("lighting", "natural"), ...}
>>
    [in_place] is the effect of the first branch on the nested dictionary,
    [fresh] the entries after "direction" of the literal in the second. *)
Definition set_lighting (in_place : pydict -> pydict) (fresh : pydict)
    (s : fallback_state) : fallback_state :=
  match dict_lookup (KStr "lighting") (refined s) with
  | Some (PDict l) =>
      let l' := PDict (in_place l) in
      {| refined := dict_set (KStr "lighting") l' (refined s);
         existing := if shared s then dict_set (KStr "lighting") l' (existing s)
                     else existing s;
         shared := shared s |}
  | o =>
      let direction := match o with Some v => v | None => PStr "natural" end in
      {| refined := dict_set (KStr "lighting")
                      (PDict ((KStr "direction", direction) :: fresh)) (refined s);
         existing := existing s;
         shared := false |}
  end.

Definition set_field (field value : string) (l : pydict) : pydict :=
  dict_set (KStr field) (PStr value) l.

(** [refined[key] = value] for a top-level string entry. *)
Definition set_top (key value : string) (s : fallback_state) : fallback_state :=
  {| refined := dict_set (KStr key) (PStr value) (refined s);
     existing := existing s;
     shared := shared s |}.

Definition warm_in_place (l : pydict) : pydict :=
  let l1 := set_field "temperature" "warm" l in
  dict_set (KStr "quality")
    (match dict_lookup (KStr "quality") l1 with Some v => v | None => PStr "soft" end) l1.

Section Fallback.
(** [word in request_lower] *)
Variable has : string -> bool.

(** Lighting temperature modifications *)
Definition temperature_step (s : fallback_state) : fallback_state :=
  if has "warm" then
    set_lighting warm_in_place [(KStr "temperature", PStr "warm")] s
  else if has "cool" || has "cold" then
    set_lighting (set_field "temperature" "cool") [(KStr "temperature", PStr "cool")] s
  else s.

(** Lighting intensity *)
Definition intensity_step (s : fallback_state) : fallback_state :=
  if has "bright" || has "brighter" then
    set_lighting (set_field "intensity" "bright") [(KStr "intensity", PStr "bright")] s
  else if has "dim" || has "darker" then
    set_lighting (set_field "intensity" "dim") [(KStr "intensity", PStr "dim")] s
  else s.

(** Camera angle modifications *)
Definition camera_angle_step (s : fallback_state) : fallback_state :=
  if has "low angle" || has "lower angle" then set_top "camera_angle" "Low Angle" s
  else if has "high angle" || has "higher angle" || has "overhead" then
    set_top "camera_angle" "High Angle" s
  else if has "eye level" then set_top "camera_angle" "Eye Level" s
  else s.

(** Shot type / FOV modifications *)
Definition field_of_view_step (s : fallback_state) : fallback_state :=
  if has "close" || has "closer" then set_top "field_of_view" "close up" s
  else if has "wide" || has "wider" then set_top "field_of_view" "wide" s
  else if has "medium" then set_top "field_of_view" "normal" s
  else s.

(** Soft/hard lighting *)
Definition quality_step (s : fallback_state) : fallback_state :=
  if has "soft" || has "softer" then
    set_lighting (set_field "quality" "soft") [(KStr "quality", PStr "soft")] s
  else if has "hard" || has "harsh" then
    set_lighting (set_field "quality" "hard") [(KStr "quality", PStr "hard")] s
  else s.

(** The five statements of [_fallback_refinement], in their order. *)
Definition fallback_steps (s : fallback_state) : fallback_state :=
  quality_step
    (field_of_view_step
      (camera_angle_step
        (intensity_step
          (temperature_step s)))).

End Fallback.

Definition _fallback_refinement (existing_params : pydict) (refinement_request : string)
    : refinement :=
  let request_lower := lower refinement_request in
  let s := fallback_steps (fun word => substring_of word request_lower)
             {| refined := existing_params; existing := existing_params; shared := true |} in
  {| returned := refined s; argument_after := existing s |}.

Definition dquote : string := String (ascii_of_nat 34) EmptyString.
Definition newline : string := String (ascii_of_nat 10) EmptyString.

Definition combined_prompt (w : world) (existing_params : pydict)
    (refinement_request : string) : string :=
  "Current scene settings:" ++ newline ++
  json_dumps w existing_params ++ newline ++ newline ++
  "Director's refinement request: " ++ dquote ++ refinement_request ++ dquote ++
  newline ++ newline ++
  "Please modify the scene settings based on the director's request, keeping all other settings unchanged.".

(** What [refine_scene_parameters] makes of the decoded response. *)
Definition refined_parameters (w : world) (existing_params : pydict)
    (refinement_request : string) (data : pyval) : res refinement :=
  bad <- lacks_structured_prompt data ;;
  if bad then Ret (_fallback_refinement existing_params refinement_request)
  else
    result <- py_getitem data "result" ;;
    structured_prompt_str <- py_getitem result "structured_prompt" ;;
    match loads w structured_prompt_str with
    | Raise JSONDecodeError => Ret (_fallback_refinement existing_params refinement_request)
    | Raise e => Raise e
    | Ret refined_params =>
        (* final_params = existing_params.copy(); final_params.update(refined_params) *)
        final_params <- dict_update existing_params refined_params ;;
        Ret {| returned := final_params; argument_after := existing_params |}
    end.

(** The body of the outer [try] of [refine_scene_parameters]. *)
Definition refine_scene_parameters_try (w : world) (existing_params : pydict)
    (refinement_request : string) : M refinement :=
  data <~ post w BRIA_ENDPOINT
            (prompt_payload (combined_prompt w existing_params refinement_request)) ;;
  lift (refined_parameters w existing_params refinement_request data).

Definition refine_scene_parameters (w : world) (existing_params : pydict)
    (refinement_request : string) : M refinement :=
  try_except (refine_scene_parameters_try w existing_params refinement_request)
             (fun _ => mret (_fallback_refinement existing_params refinement_request)).

End SceneParser.

(* ================================================================= *)
(** ** director.py *)

Module Director.
Import Py Effects.

(** [v.lower()]: only a string has it. *)
Definition py_lower (v : pyval) : res string :=
  match v with
  | PStr s => Ret (lower s)
  | _ => Raise AttributeError
  end.

(** What [apply_camera_settings] assigns: [camera.data.lens],
    [camera.location.z] and the x rotation in degrees. *)
Record camera_settings : Type := {
  lens : Q;
  location_z : Q;
  rotation_x_deg : Q
}.

Definition lens_map (fov_str : string) : Q :=
  if String.eqb fov_str "wide" then 24
  else if String.eqb fov_str "wide shot" then 24
  else if String.eqb fov_str "standard" then 50
  else if String.eqb fov_str "normal" then 50
  else if String.eqb fov_str "telephoto" then 85
  else if String.eqb fov_str "close up" then 85
  else 50.

Definition apply_camera_settings (json_data : pydict) : res camera_settings :=
  fov_str <- (v <- py_get_or (PDict json_data) "field_of_view" (PStr "normal") ;; py_lower v) ;;
  angle_str <- (v <- py_get_or (PDict json_data) "camera_angle" (PStr "eye level") ;; py_lower v) ;;
  let l := lens_map fov_str in
  if substring_of "low" angle_str then
    Ret {| lens := l; location_z := 1 # 2; rotation_x_deg := 80 |}
  else if substring_of "high" angle_str || substring_of "overhead" angle_str then
    Ret {| lens := l; location_z := 5; rotation_x_deg := 45 |}
  else
    Ret {| lens := l; location_z := 17 # 10; rotation_x_deg := 90 |}.

(** What [apply_lighting_settings] assigns: the sun's Euler rotation in
    degrees and [sun_light.data.angle]. *)
Record sun_settings : Type := {
  sun_rotation_deg : Q * Q * Q;
  sun_angle : Q
}.

Definition apply_lighting_settings (json_data : pydict) : res sun_settings :=
  lighting0 <- py_get_or (PDict json_data) "lighting" (PDict []) ;;
  let lighting :=
    match lighting0 with
    | PStr s => PDict [(KStr "direction", PStr s); (KStr "quality", PStr "soft")]
    | _ => lighting0
    end in
  direction_str <- (v <- py_get_or lighting "direction" (PStr "natural") ;; py_lower v) ;;
  quality_str <- (v <- py_get_or lighting "quality" (PStr "soft") ;; py_lower v) ;;
  let rotation :=
    if substring_of "left" direction_str then (45, 0, 90)%Q
    else if substring_of "right" direction_str then (45, 0, - (90))%Q
    else if substring_of "back" direction_str || substring_of "silhouette" direction_str
         then (- (45), 0, 0)%Q
    else (45, 10, 0)%Q in
  let angle :=
    if substring_of "hard" quality_str || substring_of "harsh" quality_str then 0%Q
    else if substring_of "soft" quality_str || substring_of "diffuse" quality_str then (1 # 2)%Q
    else (1 # 10)%Q in
  Ret {| sun_rotation_deg := rotation; sun_angle := angle |}.

End Director.

(* ================================================================= *)
(** ** cinematographer.py *)

Module Cinematographer.
Import Py Effects.

Definition BRIA_IMAGE_ENDPOINT : string :=
  "https://engine.prod.bria-api.com/v2/image/generate".
Definition BRIA_RMBG_ENDPOINT : string :=
  "https://engine.prod.bria-api.com/v2/image/edit/remove_background".

(** [{x}] inside an f-string. *)
Definition fmt (w : world) (v : pyval) : string :=
  match v with
  | PStr s => s
  | _ => py_str w v
  end.

Definition get_item_or (d : pydict) (k : string) (default : pyval) : pyval :=
  match dict_lookup (KStr k) d with Some v => v | None => default end.

(** 1. Base Description *)
Definition description_part (scene_data : pydict) : list pyval :=
  match dict_lookup (KStr "short_description") scene_data with
  | Some v => [v]
  | None =>
      match dict_lookup (KStr "prompt") scene_data with
      | Some v => [v]
      | None => []
      end
  end.

(** 2. Lighting *)
Definition lighting_part (w : world) (scene_data : pydict) : list pyval :=
  match dict_lookup (KStr "lighting") scene_data with
  | Some (PDict l) =>
      [PStr ("Lighting: " ++ fmt w (get_item_or l "direction" (PStr "")) ++ " "
                          ++ fmt w (get_item_or l "conditions" (PStr "")) ++ " "
                          ++ fmt w (get_item_or l "shadows" (PStr "")))]
  | Some (PStr l) => [PStr ("Lighting: " ++ l)]
  | _ => []
  end.

(** 3. Background *)
Definition background_part (w : world) (scene_data : pydict) : list pyval :=
  match dict_lookup (KStr "background_setting") scene_data with
  | Some v => [PStr ("Background: " ++ fmt w v)]
  | None =>
      match dict_lookup (KStr "background") scene_data with
      | Some v => [PStr ("Background: " ++ fmt w v)]
      | None => []
      end
  end.

(** [obj["description"]] of the objects that are dicts with that key. *)
Fixpoint descriptions (objs : list pyval) : list pyval :=
  match objs with
  | [] => []
  | PDict o :: objs' =>
      match dict_lookup (KStr "description") o with
      | Some v => v :: descriptions objs'
      | None => descriptions objs'
      end
  | _ :: objs' => descriptions objs'
  end.

(** 4. Key Objects: at most the first three. *)
Definition objects_part (scene_data : pydict) : res (list pyval) :=
  match dict_lookup (KStr "objects") scene_data with
  | Some (PList objs) =>
      match descriptions (firstn 3 objs) with
      | [] => Ret []
      | obj_descs => s <- py_join ", " obj_descs ;; Ret [PStr ("Objects: " ++ s)]
      end
  | _ => Ret []
  end.

(** The prompt built before the request; this part of [_make_api_call] stands
    before its [try]. *)
Definition final_prompt (w : world) (scene_data : pydict) : res string :=
  objs <- objects_part scene_data ;;
  let parts := description_part scene_data ++ lighting_part w scene_data
               ++ background_part w scene_data ++ objs in
  p <- py_join " " parts ;;
  Ret (if blank p then "A cinematic scene" else p).

Definition image_payload (prompt format : string) : pydict :=
  [ (KStr "prompt", PStr prompt); (KStr "format", PStr format) ].

(** [tempfile.mkstemp] and the copy of the body, after a download request
    that did not raise. *)
Definition download_to (w : world) (url : pyval) (suffix prefix : string)
    : M (option string) :=
  try_except
    (emit (EvFetch url) ;;;
     match url with
     | PStr u =>
         match http_fetch w u with
         | FetchRaises => mraise RequestException
         | CopyRaises =>
             emit (EvMkstemp (mkstemp w suffix prefix)) ;;; mraise (PyException "copyfileobj")
         | Fetched =>
             emit (EvMkstemp (mkstemp w suffix prefix)) ;;;
             mret (Some (mkstemp w suffix prefix))
         end
     | _ => mraise RequestException
     end)
    (fun _ => mret None).

Definition _download_image (w : world) (url : pyval) : M (option string) :=
  download_to w url ".exr" "previz_bg_".

Definition _download_image_as_png (w : world) (url : pyval) : M (option string) :=
  download_to w url ".png" "previz_foreground_".

(** ["result" in c and "k" in c["result"]] *)
Definition result_has (c : pyval) (k : string) : res bool :=
  py_and (py_in "result" c) (r <- py_getitem c "result" ;; py_in k r).

(** What [_make_api_call] does with one decoded status response. *)
Definition on_status (status_data : pyval) : res (ctl pyval (option string)) :=
  st <- py_get status_data "status" ;;
  if eq_str st "COMPLETED" then
    b1 <- result_has status_data "image_url" ;;
    if b1 then
      r <- py_getitem status_data "result" ;;
      image_url <- py_getitem r "image_url" ;;
      Ret (Break image_url)
    else
      b2 <- result_has status_data "urls" ;;
      if b2 then
        r <- py_getitem status_data "result" ;;
        urls <- py_getitem r "urls" ;;
        image_url <- py_first urls ;;
        Ret (Break image_url)
      else
        b3 <- py_in "image_url" status_data ;;
        if b3 then
          image_url <- py_getitem status_data "image_url" ;;
          Ret (Break image_url)
        else Ret (Return None)
  else if eq_str st "FAILED" then Ret (Return None)
  else Ret Continue.

(** One round of a polling loop: sleep a second, ask, and let [handle] look
    at the answer; whatever is raised after the sleep is logged and the loop
    goes on. *)
Definition poll_round {B R} (w : world) (endpoint : string) (status_url : pyval)
    (handle : pyval -> res (ctl B R)) (i : nat) : M (ctl B R) :=
  emit (EvSleep 1) ;;;
  try_except
    (status_data <~ poll w endpoint status_url i ;; lift (handle status_data))
    (fun _ => mret Continue).

Definition nonempty_list (v : pyval) : bool :=
  match v with PList (_ :: _) => true | _ => false end.

(** The synchronous branch of [_make_api_call]. *)
Definition sync_image_url (data : pyval) : res pyval :=
  b1 <- py_and (py_in "result" data)
          (r <- py_getitem data "result" ;; Ret (nonempty_list r)) ;;
  if b1 then r <- py_getitem data "result" ;; py_first r
  else
    b2 <- py_and (py_in "result" data)
            (r <- py_getitem data "result" ;; Ret (is_dict r)) ;;
    if b2 then
      r <- py_getitem data "result" ;;
      u <- py_get r "url" ;;
      py_or u (py_get r "image_url")
    else
      b3 <- py_in "image_url" data ;;
      if b3 then py_getitem data "image_url"
      else
        b4 <- py_in "urls" data ;;
        if b4 then urls <- py_getitem data "urls" ;; py_first urls
        else Ret PNone.

(** The end of [_make_api_call]: [if not image_url: return None], then the
    download. *)
Definition fetch_image (w : world) (image_url : pyval) : M (option string) :=
  if truthy image_url then _download_image w image_url else mret None.

(** Lines 99 to 144 of [_make_api_call]: with [Break image_url] the code goes
    on to [if not image_url], with [Return r] it has returned [r]. *)
Definition locate_image_url (w : world) (data : pyval) : M (ctl pyval (option string)) :=
  async <~ lift (py_in "status_url" data) ;;
  if async then
    status_url <~ lift (py_getitem data "status_url") ;;
    c <~ for_range 60 0 (poll_round w BRIA_IMAGE_ENDPOINT status_url on_status) ;;
    match c with
    | Continue => mret (Return None)   (* the loop's else: timed out *)
    | _ => mret c
    end
  else
    image_url <~ lift (sync_image_url data) ;;
    mret (Break image_url).

Definition make_api_call_try (w : world) (prompt : string) : M (option string) :=
  data <~ post w BRIA_IMAGE_ENDPOINT (image_payload prompt "exr") ;;
  c <~ locate_image_url w data ;;
  match c with
  | Break image_url => fetch_image w image_url
  | Return r => mret r
  | Continue => mret None
  end.

Definition _make_api_call (w : world) (scene_data : pydict) : M (option string) :=
  prompt <~ lift (final_prompt w scene_data) ;;
  try_except (make_api_call_try w prompt) (fun _ => mret None).

(** [generate_background_image]: the worker thread it starts.  A thread is
    its [daemon] flag and what running its target does. *)
Record thread : Type := {
  daemon : bool;
  run : list event
}.

Definition generate_background_image (w : world) (scene_data : pydict)
    (callback : option (option string -> list event)) : thread :=
  {| daemon := true;
     run :=
       match _make_api_call w scene_data with
       | (t, Ret image_path) =>
           t ++ match callback with Some cb => cb image_path | None => [] end
       | (t, Raise _) => t              (* the exception ends the thread *)
       end |}.

(** [result.get("urls", [None])[0] if result.get("urls") else None] *)
Definition first_url (c : pyval) : res pyval :=
  urls <- py_get c "urls" ;;
  if truthy urls then
    urls' <- py_get_or c "urls" (PList [PNone]) ;; py_first urls'
  else Ret PNone.

(** What [_poll_for_image_result] does with one decoded status response.
    Its loop has no [break]. *)
Definition on_status_foreground (status_data : pyval) : res (ctl Empty_set pyval) :=
  st <- py_get status_data "status" ;;
  if eq_str st "COMPLETED" then
    has_result <- py_in "result" status_data ;;
    let top := (v <- py_get status_data "image_url" ;; Ret (Return v)) in
    if has_result then
      result <- py_getitem status_data "result" ;;
      if is_dict result then
        u <- py_get result "image_url" ;;
        v <- py_or u (first_url result) ;;
        Ret (Return v)
      else if nonempty_list result then
        v <- py_first result ;; Ret (Return v)
      else top
    else top
  else if eq_str st "FAILED" then Ret (Return PNone)
  else Ret Continue.

(** The synchronous branch of [_poll_for_image_result]. *)
Definition sync_result_url (data : pyval) : res pyval :=
  has_result <- py_in "result" data ;;
  let top := (u <- py_get data "image_url" ;; py_or u (first_url data)) in
  if has_result then
    result <- py_getitem data "result" ;;
    if is_dict result then
      u <- py_get result "url" ;; py_or u (py_get result "image_url")
    else if nonempty_list result then py_first result
    else top
  else top.

Definition _poll_for_image_result (w : world) (data : pyval) : M pyval :=
  async <~ lift (py_in "status_url" data) ;;
  if async then
    status_url <~ lift (py_getitem data "status_url") ;;
    c <~ for_range 60 0 (poll_round w BRIA_IMAGE_ENDPOINT status_url on_status_foreground) ;;
    match c with
    | Return v => mret v
    | _ => mret PNone                  (* timed out *)
    end
  else lift (sync_result_url data).

(** [result.get("image_url") or result.get("result_url")] *)
Definition transparent_url_of (c : pyval) : res pyval :=
  u <- py_get c "image_url" ;; py_or u (py_get c "result_url").

(** The common end of both branches of [_remove_background]:
<<
    result = c.get("result", {})
    if isinstance(result, dict):
        return result.get("image_url") or result.get("result_url")
    return c.get("image_url") or c.get("result_url")
>> *)
Definition rmbg_result (c : pyval) : res pyval :=
  result <- py_get_or c "result" (PDict []) ;;
  if is_dict result then transparent_url_of result else transparent_url_of c.

Definition on_status_rmbg (status_data : pyval) : res (ctl Empty_set pyval) :=
  st <- py_get status_data "status" ;;
  if eq_str st "COMPLETED" then v <- rmbg_result status_data ;; Ret (Return v)
  else if eq_str st "FAILED" then Ret (Return PNone)
  else Ret Continue.

(** [image_url[:50]] in the message logged before the [try]: only a
    sequence can be sliced. *)
Definition preview (image_url : pyval) : res unit :=
  match image_url with
  | PStr _ | PList _ => Ret tt
  | _ => Raise TypeError
  end.

Definition remove_background_try (w : world) (image_url : pyval) : M pyval :=
  data <~ post w BRIA_RMBG_ENDPOINT [(KStr "image", image_url)] ;;
  async <~ lift (py_in "status_url" data) ;;
  if async then
    status_url <~ lift (py_getitem data "status_url") ;;
    c <~ for_range 30 0 (poll_round w BRIA_RMBG_ENDPOINT status_url on_status_rmbg) ;;
    match c with
    | Return v => mret v
    | _ => mret PNone                  (* timed out *)
    end
  else lift (rmbg_result data).

Definition _remove_background (w : world) (image_url : pyval) : M pyval :=
  lift (preview image_url) ;;;
  try_except (remove_background_try w image_url) (fun _ => mret PNone).

Definition foreground_prompt (description : string) : string :=
  description ++ ", isolated on pure white background, product photography style, high quality".

(** [_generate_foreground_sync]; its handler logs and raises again. *)
Definition _generate_foreground_sync (w : world) (description : string)
    : M (option string) :=
  data <~ post w BRIA_IMAGE_ENDPOINT (image_payload (foreground_prompt description) "png") ;;
  image_url <~ _poll_for_image_result w data ;;
  if negb (truthy image_url) then mraise (PyException "Failed to generate base image")
  else
    transparent_url <~ _remove_background w image_url ;;
    if negb (truthy transparent_url) then mraise (PyException "Failed to remove background")
    else _download_image_as_png w transparent_url.

(** [generate_foreground_element]: [callback(result_path, None)], or
    [callback(None, str(e))] when the generation raised. *)
Definition generate_foreground_element (w : world) (description : string)
    (callback : option (option string -> option exc -> list event)) : thread :=
  {| daemon := true;
     run :=
       match _generate_foreground_sync w description with
       | (t, Ret result_path) =>
           t ++ match callback with Some cb => cb result_path None | None => [] end
       | (t, Raise e) =>
           t ++ match callback with Some cb => cb None (Some e) | None => [] end
       end |}.

End Cinematographer.

(* ================================================================= *)
(** ** __init__.py: the operators *)

Module Addon.
Import Py Effects Cinematographer.

Inductive op_result : Type := FINISHED | CANCELLED | RUNNING_MODAL.

(** The properties the plugin registers on the host's scene; the text block
    is [None] until one is chosen or pasted. *)
Record scene : Type := {
  custom_script_text : option string;
  previz_refine_text : string;
  previz_foreground_text : string;
  previz_status : string
}.

(** The plugin's state: its one module-level variable and the scene. *)
Record addon : Type := {
  _last_scene_data : pydict;
  props : scene
}.

(** The state when the module has been loaded and registered. *)
Definition initial : addon :=
  {| _last_scene_data := [];
     props := {| custom_script_text := None;
                 previz_refine_text := "";
                 previz_foreground_text := "";
                 previz_status := "Ready" |} |}.

(** One execution of an operator: the state it leaves, what [execute]
    returned or raised, the events of the main thread and the threads started. *)
Record outcome : Type := {
  after : addon;
  result : res op_result;
  trace : list event;
  threads : list thread
}.

Definition done (st : addon) (r : res op_result) (t : list event) (ts : list thread)
    : outcome :=
  {| after := st; result := r; trace := t; threads := ts |}.

Definition with_data (d : pydict) (st : addon) : addon :=
  {| _last_scene_data := d; props := props st |}.

Definition with_props (p : scene) (st : addon) : addon :=
  {| _last_scene_data := _last_scene_data st; props := p |}.

Definition with_status (text : string) (sc : scene) : scene :=
  {| custom_script_text := custom_script_text sc;
     previz_refine_text := previz_refine_text sc;
     previz_foreground_text := previz_foreground_text sc;
     previz_status := text |}.

(** [SCENE_OT_paste_script.execute] *)
Definition paste_execute (clipboard : string) (st : addon) : outcome :=
  if String.eqb clipboard "" then done st (Ret CANCELLED) [] []
  else
    let sc := props st in
    done (with_props {| custom_script_text := Some clipboard;
                        previz_refine_text := previz_refine_text sc;
                        previz_foreground_text := previz_foreground_text sc;
                        previz_status := previz_status sc |} st)
         (Ret FINISHED) [] [].

Definition camera_op (c : Director.camera_settings) : event :=
  EvHost (HCamera (Director.lens c) (Director.location_z c) (Director.rotation_x_deg c)).

Definition sun_op (s : Director.sun_settings) : event :=
  EvHost (HSun (Director.sun_rotation_deg s) (Director.sun_angle s)).

(** [if path:] for a path or [None] *)
Definition some_path (path : option string) : option string :=
  match path with
  | Some p => if String.eqb p "" then None else Some p
  | None => None
  end.

(** [image_ready_callback] of Generate Scene, run by the worker thread, and
    the [update_scene] it registers as a timer. *)
Definition generate_update_scene (path : string) : list host_op :=
  [ HSetStatus "⏳ Loading image..."; HWorldBackground path; HShadowCatcher;
    HRenderedViewport; HSetStatus "✅ Ready" ].

Definition generate_image_ready (path : option string) : list event :=
  match some_path path with
  | Some p => [EvTimer (generate_update_scene p) None]
  | None => [EvHost (HSetStatus "❌ Generation failed")]
  end.

(** [SCENE_OT_generate_scene.execute].  The trace holds the host operations
    of the director calls that returned: what a call that raises had done
    before (a camera created, a lens assigned) is not recorded. *)
Definition generate_execute (w : world) (st : addon) : outcome :=
  match custom_script_text (props st) with
  | None => done st (Ret CANCELLED) [] []
  | Some script_content =>
      if blank script_content then done st (Ret CANCELLED) [] []
      else
        match SceneParser.get_scene_parameters w script_content with
        | (t, Raise e) => done st (Raise e) t []
        | (t, Ret scene_data) =>
            (* _last_scene_data = scene_data.copy() *)
            let st1 := with_data scene_data st in
            match Director.apply_camera_settings scene_data with
            | Raise e => done st1 (Raise e) t []
            | Ret cam =>
                match Director.apply_lighting_settings scene_data with
                | Raise e => done st1 (Raise e) (t ++ [camera_op cam]) []
                | Ret sun =>
                    let status := "⏳ Generating background..." in
                    done (with_props (with_status status (props st1)) st1)
                         (Ret FINISHED)
                         (t ++ [camera_op cam; sun_op sun; EvHost (HSetStatus status)])
                         [generate_background_image w scene_data (Some generate_image_ready)]
                end
            end
        end
  end.

(** [image_ready_callback] of Refine Scene and its [update_scene]. *)
Definition refine_update_scene (path : string) : list host_op :=
  [ HWorldBackground path; HRenderedViewport ].

Definition refine_image_ready (path : option string) : list event :=
  match some_path path with
  | Some p => [EvTimer (refine_update_scene p) None]
  | None => []
  end.

(** [SCENE_OT_refine_scene.execute]; the trace as for Generate Scene. *)
Definition refine_execute (w : world) (st : addon) : outcome :=
  match _last_scene_data st with
  | [] => done st (Ret CANCELLED) [] []
  | _ :: _ =>
      let refinement_text := previz_refine_text (props st) in
      if blank refinement_text then done st (Ret CANCELLED) [] []
      else
        match SceneParser.refine_scene_parameters w (_last_scene_data st) refinement_text with
        | (t, Raise e) => done st (Raise e) t []
        | (t, Ret r) =>
            let refined_data := SceneParser.returned r in
            (* _last_scene_data = refined_data.copy() *)
            let st1 := with_data refined_data st in
            match Director.apply_camera_settings refined_data with
            | Raise e => done st1 (Raise e) t []
            | Ret cam =>
                match Director.apply_lighting_settings refined_data with
                | Raise e => done st1 (Raise e) (t ++ [camera_op cam]) []
                | Ret sun =>
                    let sc := props st1 in
                    done (with_props {| custom_script_text := custom_script_text sc;
                                        previz_refine_text := "";
                                        previz_foreground_text := previz_foreground_text sc;
                                        previz_status := previz_status sc |} st1)
                         (Ret FINISHED)
                         (t ++ [camera_op cam; sun_op sun])
                         [generate_background_image w refined_data (Some refine_image_ready)]
                end
            end
        end
  end.

(** [SCENE_OT_export_to_set.invoke]: the path proposed in the file browser,
    [timestamp] being [datetime.now().strftime("%Y%m%d_%H%M%S")]. *)
Definition export_invoke (timestamp : string) : string * op_result :=
  (("previz_set_data_" ++ timestamp ++ ".json")%string, RUNNING_MODAL).

(** The path [SCENE_OT_export_to_set.execute] writes to. *)
Definition export_filepath (filepath : string) : string :=
  if negb (endswith (lower filepath) ".json") then filepath ++ ".json" else filepath.

(** [SCENE_OT_export_to_set.execute], [filepath] being [self.filepath]. *)
Definition export_execute (w : world) (filepath : string) (st : addon) : outcome :=
  let path := export_filepath filepath in
  match write_json w path with
  | Written => done st (Ret FINISHED) [EvWrite path] []
  | DumpRaises => done st (Ret CANCELLED) [EvWrite path] []
  | OpenRaises => done st (Ret CANCELLED) [] []
  end.

(** [str(e)]; the callback only tests whether it is empty. *)
Definition message (e : exc) : string :=
  match e with
  | PyException msg => msg
  | TypeError => "TypeError"
  | KeyError => "KeyError"
  | IndexError => "IndexError"
  | AttributeError => "AttributeError"
  | ValueError => "ValueError"
  | RequestException => "RequestException"
  | JSONDecodeError => "JSONDecodeError"
  end.

(** [import_card], the timer [on_complete] registers. *)
Definition import_card (w : world) (image_path : string) : list host_op :=
  HImageCard image_path :: if image_loads w image_path then [HRenderedViewport] else [].

(** [on_complete(image_path, error)] of Add Foreground Element. *)
Definition on_complete (w : world) (image_path : option string) (error : option exc)
    : list event :=
  match error with
  | Some e =>
      if negb (String.eqb (message e) "") then []
      else match some_path image_path with
           | Some p => [EvTimer (import_card w p) None]
           | None => []
           end
  | None =>
      match some_path image_path with
      | Some p => [EvTimer (import_card w p) None]
      | None => []
      end
  end.

(** [SCENE_OT_add_foreground.execute] *)
Definition add_foreground_execute (w : world) (st : addon) : outcome :=
  let description := strip (previz_foreground_text (props st)) in
  if String.eqb description "" then done st (Ret CANCELLED) [] []
  else
    let sc := props st in
    done (with_props {| custom_script_text := custom_script_text sc;
                        previz_refine_text := previz_refine_text sc;
                        previz_foreground_text := "";
                        previz_status := previz_status sc |} st)
         (Ret FINISHED) []
         [generate_foreground_element w description (Some (on_complete w))].

(** What can happen to the plugin between its registration and the end of
    the process: the five operators, and the user editing the scene's
    properties in the panel. *)
Inductive action : Type :=
| PasteScript (clipboard : string)
| GenerateScene
| RefineScene
| ExportToSet (filepath : string)
| AddForeground
| EditProperties (p : scene).

Definition step (w : world) (a : action) (st : addon) : outcome :=
  match a with
  | PasteScript clipboard => paste_execute clipboard st
  | GenerateScene => generate_execute w st
  | RefineScene => refine_execute w st
  | ExportToSet filepath => export_execute w filepath st
  | AddForeground => add_foreground_execute w st
  | EditProperties p => done (with_props p st) (Ret FINISHED) [] []
  end.

End Addon.

(* ================================================================= *)
(** ** __init__.py: the sun data of the export *)

Module SunExport.
Local Open Scope R_scope.

(** [rotation_euler] of a host object, in radians. *)
Record euler : Type := {
  x : R;
  y : R;
  z : R
}.

(** A scene object as [_get_sun_data] reads it. *)
Record scene_object : Type := {
  name : string;
  type : string;                (* obj.type *)
  data_type : string;           (* obj.data.type *)
  rotation_euler : euler;
  data_angle : R;               (* obj.data.angle *)
  data_energy : R               (* obj.data.energy *)
}.

(** [math.degrees] *)
Definition degrees (r : R) : R := r * (180 / PI).

Definition is_sun (obj : scene_object) : bool :=
  String.eqb (type obj) "LIGHT" && String.eqb (data_type obj) "SUN".

(** The three local variables [direction_x], [direction_y], [direction_z]. *)
Definition direction_x (e : euler) : R := - sin (z e) * cos (x e).
Definition direction_y (e : euler) : R := cos (z e) * cos (x e).
Definition direction_z (e : euler) : R := - sin (x e).

Definition norm (v : R * R * R) : R :=
  let '(a, b, c) := v in sqrt (a * a + b * b + c * c).

(** The dictionary [_get_sun_data] returns. *)
Inductive sun_data : Type :=
| SunError (error : string)
| SunData (sun_name : string)
          (elevation azimuth : R)              (* "angle" *)
          (rotation_deg : R * R * R)           (* "rotation_euler" *)
          (direction_vector : R * R * R)
          (angular_diameter strength : R).

Section Rounding.
(** Python's [round(value, ndigits)]. *)
Variable round : R -> nat -> R.

Definition _get_sun_data (objects : list scene_object) : sun_data :=
  match find is_sun objects with
  | None => SunError "No sun light found"
  | Some sun_light =>
      let e := rotation_euler sun_light in
      let rotation_deg := (degrees (x e), degrees (y e), degrees (z e)) in
      let '(rx, ry, rz) := rotation_deg in
      SunData (name sun_light)
              (round (90 - rx) 2) (round rz 2)
              (round rx 2, round ry 2, round rz 2)
              (round (direction_x e) 4, round (direction_y e) 4, round (direction_z e) 4)
              (round (degrees (data_angle sun_light)) 2)
              (round (data_energy sun_light) 2)
  end.

End Rounding.

(** The "direction_vector" of the exported dictionary. *)
Definition exported_direction (d : sun_data) : option (R * R * R) :=
  match d with
  | SunError _ => None
  | SunData _ _ _ _ direction_vector _ _ => Some direction_vector
  end.

(** What rounding to [ndigits] decimals does, however it breaks a tie: the
    result is a multiple of 10^-ndigits, at most half of 10^-ndigits away. *)
Definition nearest (round : R -> nat -> R) : Prop :=
  forall (v : R) (ndigits : nat),
    exists k : Z,
      round v ndigits = IZR k / 10 ^ ndigits /\
      Rabs (round v ndigits - v) <= / 2 / 10 ^ ndigits.

(** Rounding to the nearest, a tie going up.  Python's [round] sends a tie
    to the even neighbour; the two agree everywhere else. *)
Definition round_half_up (v : R) (ndigits : nat) : R :=
  IZR (up (v * 10 ^ ndigits - / 2)) / 10 ^ ndigits.

End SunExport.

(* ================================================================= *)
(** ** Notions the statements below are written in *)

Module Spec.
Import Py Effects.

(** [d'] has every key of [d], in the same places, and maybe more after them. *)
Definition extends (d d' : pydict) : Prop :=
  exists extra, dict_keys d' = dict_keys d ++ extra.

(** A response [data] holds [data.result.structured_prompt]: both levels are
    mappings and both keys are there. *)
Definition structured_prompt_of (data : pyval) : option pyval :=
  match data with
  | PDict d =>
      match dict_lookup (KStr "result") d with
      | Some (PDict r) => dict_lookup (KStr "structured_prompt") r
      | _ => None
      end
  | _ => None
  end.

(** *** Traces *)

Definition is_post (e : event) : bool := match e with EvPost _ _ => true | _ => false end.
Definition is_sleep (e : event) : bool := match e with EvSleep _ => true | _ => false end.
Definition is_poll (e : event) : bool := match e with EvPoll _ => true | _ => false end.

Definition count (p : event -> bool) (t : list event) : nat :=
  List.length (filter p t).

Definition posts : list event -> nat := count is_post.
Definition sleeps : list event -> nat := count is_sleep.
Definition polls : list event -> nat := count is_poll.

(** The POSTs sent to [endpoint]. *)
Definition is_post_to (endpoint : string) (e : event) : bool :=
  match e with EvPost ep _ => String.eqb ep endpoint | _ => false end.

Definition posts_to (endpoint : string) : list event -> nat := count (is_post_to endpoint).

(** The time slept, in seconds. *)
Fixpoint seconds (t : list event) : nat :=
  match t with
  | [] => 0
  | EvSleep n :: t' => n + seconds t'
  | _ :: t' => seconds t'
  end.

(** Every poll comes right after a sleep of one second; [slept] tells
    whether the event before [t] was one. *)
Fixpoint paced_from (slept : bool) (t : list event) : bool :=
  match t with
  | [] => true
  | EvSleep n :: t' => paced_from (n =? 1)%nat t'
  | EvPoll _ :: t' => slept && paced_from false t'
  | _ :: t' => paced_from false t'
  end.

Definition paced : list event -> bool := paced_from false.

(** What a trace with a polling loop of at most [n] rounds looks like. *)
Definition within (n : nat) (t : list event) : Prop :=
  posts t <= 1 /\ sleeps t <= n /\ polls t = sleeps t /\
  seconds t = sleeps t /\ paced t = true.

(** A trace without any event of a polling loop. *)
Definition quiet (t : list event) : Prop :=
  sleeps t = 0 /\ polls t = 0 /\ seconds t = 0 /\ paced t = true.

(** [k] rounds of a polling loop. *)
Fixpoint rounds (status_url : pyval) (k : nat) : list event :=
  match k with
  | O => []
  | S k' => EvSleep 1 :: EvPoll status_url :: rounds status_url k'
  end.
Arguments rounds status_url k : simpl never.

(** The events of the HTTP client: requests, sleeps and temporary files
    being created.  Removing a file, writing the export, touching the host
    and registering a timer are none of them. *)
Definition network (e : event) : bool :=
  match e with
  | EvPost _ _ | EvSleep _ | EvPoll _ | EvFetch _ | EvMkstemp _ => true
  | _ => false
  end.

Definition is_network (e : event) : Prop := network e = true.

(** Every event of a computation satisfies [P]. *)
Definition all {A} (P : event -> Prop) (m : M A) : Prop := Forall P (fst m).

Definition is_remove (e : event) : bool :=
  match e with EvRemove _ => true | _ => false end.

Definition never_removes (t : list event) : bool :=
  forallb (fun e => negb (is_remove e)) t.

(** The files there are after the events of [t], from the files [files]. *)
Fixpoint files_after (t : list event) (files : list string) : list string :=
  match t with
  | [] => files
  | EvMkstemp path :: t' => files_after t' (path :: files)
  | EvRemove path :: t' => files_after t' (List.remove string_dec path files)
  | _ :: t' => files_after t' files
  end.

(** The timers registered in [t]: what each does and what it returns. *)
Fixpoint timers (t : list event) : list (list host_op * option Q) :=
  match t with
  | [] => []
  | EvTimer run again :: t' => (run, again) :: timers t'
  | _ :: t' => timers t'
  end.

(** The host operations the thread running [t] does itself. *)
Fixpoint direct (t : list event) : list host_op :=
  match t with
  | [] => []
  | EvHost op :: t' => op :: direct t'
  | _ :: t' => direct t'
  end.

(** The image file [path] is loaded by a timer registered in [t]. *)
Definition consumed (path : string) (t : list event) : Prop :=
  exists run again,
    In (run, again) (timers t) /\
    (In (HWorldBackground path) run \/ In (HImageCard path) run).

(** *** Polled responses *)

(** The response to the [i]-th poll of [status_url], for a job queued by
    [endpoint]. *)
Definition response (w : world) (endpoint : string) (status_url : pyval) (i : nat)
    : http_outcome :=
  match status_url with
  | PStr u => http_poll w endpoint u i
  | _ => HttpRaises
  end.

(** The status a polled response carries, when it is a JSON object. *)
Definition status_of (o : http_outcome) : option pyval :=
  match o with
  | HttpJson (PDict d) =>
      Some (match dict_lookup (KStr "status") d with Some v => v | None => PNone end)
  | _ => None
  end.

Definition has_status (s : string) (o : http_outcome) : bool :=
  match status_of o with
  | Some v => eq_str v s
  | None => false
  end.

Definition terminal (o : http_outcome) : bool :=
  has_status "COMPLETED" o || has_status "FAILED" o.

(** The status URL of an asynchronous answer to the POST. *)
Definition status_url_of (data : pyval) : option pyval :=
  match data with
  | PDict d => dict_lookup (KStr "status_url") d
  | _ => None
  end.

(** How a round of a polling loop ends, given the response: an exception
    (of the request or of [handle]) is logged and the loop goes on. *)
Definition round_ctl {B R} (handle : pyval -> res (ctl B R)) (o : http_outcome)
    : ctl B R :=
  match o with
  | HttpRaises => Continue
  | HttpJson status_data =>
      match handle status_data with
      | Ret c => c
      | Raise _ => Continue
      end
  end.

(** A loop of at most [n] rounds, round [i] ending as [c i]: the number of
    rounds run, and how the loop ends. *)
Fixpoint loop_ctl {B R} (n lo : nat) (c : nat -> ctl B R) : nat * ctl B R :=
  match n with
  | O => (O, Continue)
  | S n' =>
      match c lo with
      | Continue => let (k, r) := loop_ctl n' (S lo) c in (S k, r)
      | r => (1, r)
      end
  end.
Arguments loop_ctl {B R} n lo c : simpl never.

(** The loop of [_make_api_call]: how round [i] ends. *)
Definition background_round (w : world) (status_url : pyval) (i : nat)
    : ctl pyval (option string) :=
  round_ctl Cinematographer.on_status
    (response w Cinematographer.BRIA_IMAGE_ENDPOINT status_url i).

(** [d.k1.k2], both levels being mappings. *)
Definition lookup2 (d : pydict) (k1 k2 : string) : option pyval :=
  match dict_lookup (KStr k1) d with
  | Some (PDict r) => dict_lookup (KStr k2) r
  | _ => None
  end.

(** The image URL of a COMPLETED response as the specification words it: the first
    that is there of result.image_url, result.urls[0] and the top-level
    image_url; [None] if none is. *)
Definition specified_url (status_data : pyval) : option pyval :=
  match status_data with
  | PDict d =>
      match lookup2 d "result" "image_url" with
      | Some u => Some u
      | None =>
          match lookup2 d "result" "urls" with
          | Some (PList (u :: _)) => Some u
          | _ => dict_lookup (KStr "image_url") d
          end
      end
  | _ => None
  end.

(** What [_make_api_call] does with a COMPLETED response [d] whose result is
    absent or a mapping: the choice goes by the presence of the keys. *)
Definition selection (d : pydict) : res (ctl pyval (option string)) :=
  match lookup2 d "result" "image_url" with
  | Some image_url => Ret (Break image_url)
  | None =>
      match lookup2 d "result" "urls" with
      | Some urls => image_url <- py_first urls ;; Ret (Break image_url)
      | None =>
          match dict_lookup (KStr "image_url") d with
          | Some image_url => Ret (Break image_url)
          | None => Ret (Return None)
          end
      end
  end.

Definition absent_or_mapping (o : option pyval) : bool :=
  match o with
  | None | Some (PDict _) => true
  | _ => false
  end.

(** The loop of [_poll_for_image_result]. *)
Definition foreground_round (w : world) (status_url : pyval) (i : nat)
    : ctl Empty_set pyval :=
  round_ctl Cinematographer.on_status_foreground
    (response w Cinematographer.BRIA_IMAGE_ENDPOINT status_url i).

(** The loop of [_remove_background]. *)
Definition rmbg_round (w : world) (status_url : pyval) (i : nat)
    : ctl Empty_set pyval :=
  round_ctl Cinematographer.on_status_rmbg
    (response w Cinematographer.BRIA_RMBG_ENDPOINT status_url i).

End Spec.

(* ================================================================= *)
(** ** Sample worlds *)

Module Samples.
Import Py Effects.

(** A world given by the answers to the POSTs, the answers to the polls and
    the outcome of downloads. *)
Definition world_of (answer : string -> http_outcome) (polled : nat -> http_outcome)
    (fetched : fetch_outcome) : world :=
  {| py_str := fun _ => "?";
     json_loads := fun _ => None;
     json_dumps := fun _ => "{}";
     http_post := fun endpoint _ => answer endpoint;
     http_poll := fun _ _ i => polled i;
     http_fetch := fun _ => fetched;
     mkstemp := fun suffix prefix => ("/tmp/" ++ prefix ++ "k3x9" ++ suffix)%string;
     image_loads := fun _ => true;
     write_json := fun _ => Written |}.

Definition status_url : pyval := PStr "https://api/status/1".

(** An asynchronous answer to a POST. *)
Definition queued : http_outcome := HttpJson (PDict [(KStr "status_url", status_url)]).

(** A polled response with a status and more fields. *)
Definition status (s : string) (fields : pydict) : pyval :=
  PDict ((KStr "status", PStr s) :: fields).

(** Every request fails. *)
Definition offline : world :=
  world_of (fun _ => HttpRaises) (fun _ => HttpRaises) FetchRaises.

(** The job is queued and stays pending for ever. *)
Definition pending : world :=
  world_of (fun _ => queued) (fun _ => HttpJson (status "PENDING" [])) Fetched.

(** The job is completed at the first poll, with result.image_url. *)
Definition ready : world :=
  world_of (fun _ => queued)
    (fun _ => HttpJson (status "COMPLETED"
                [(KStr "result", PDict [(KStr "image_url", PStr "https://cdn/a.exr")])]))
    Fetched.

(** The job fails at the third poll. *)
Definition failing : world :=
  world_of (fun _ => queued)
    (fun i => if (i <? 2)%nat then HttpJson (status "PENDING" [])
              else HttpJson (status "FAILED" [(KStr "error", PStr "nsfw")]))
    Fetched.

(** The first COMPLETED response has an empty result.urls, the second has
    result.image_url. *)
Definition empty_urls : pyval :=
  status "COMPLETED" [(KStr "result", PDict [(KStr "urls", PList [])])].

Definition completed_late : world :=
  world_of (fun _ => queued)
    (fun i => match i with
              | O => HttpJson empty_urls
              | _ => HttpJson (status "COMPLETED"
                       [(KStr "result", PDict [(KStr "image_url", PStr "https://cdn/a.exr")])])
              end)
    Fetched.

(** A COMPLETED response with an empty result and a top-level image_url. *)
Definition top_level_only : pyval :=
  status "COMPLETED" [(KStr "result", PDict []); (KStr "image_url", PStr "https://cdn/b.png")].

(** The objects of a scene: a camera, and a sun turned by 45, 10 and 90
    degrees. *)
Definition camera : SunExport.scene_object :=
  {| SunExport.name := "Camera"; SunExport.type := "CAMERA"; SunExport.data_type := "PERSP";
     SunExport.rotation_euler := {| SunExport.x := PI / 2; SunExport.y := 0; SunExport.z := 0 |}%R;
     SunExport.data_angle := 0%R; SunExport.data_energy := 0%R |}.

Definition sun : SunExport.scene_object :=
  {| SunExport.name := "Sun"; SunExport.type := "LIGHT"; SunExport.data_type := "SUN";
     SunExport.rotation_euler :=
       {| SunExport.x := PI / 4; SunExport.y := PI / 18; SunExport.z := PI / 2 |}%R;
     SunExport.data_angle := (1 / 2)%R; SunExport.data_energy := 1%R |}.

Definition objects : list SunExport.scene_object := [camera; sun].

(** A scene with a script chosen and both text fields filled in. *)
Definition scripted : Addon.addon :=
  Addon.with_props
    {| Addon.custom_script_text := Some "INT. WAREHOUSE - NIGHT";
       Addon.previz_refine_text := "make the lights warmer";
       Addon.previz_foreground_text := " burning car ";
       Addon.previz_status := "Ready" |}
    Addon.initial.

End Samples.

(* ================================================================= *)
(** ** __init__.py: the panel *)

Module Panel.
Import Py Effects Addon.

(** What [draw] puts into the layout, boxes flattened. *)
Inductive widget : Type :=
| Label (text : string)
| TemplateID (property : string)
| PropertyField (property : string)
| Operator (idname : string)
| Separator.

Definition is_newline (c : ascii) : bool := Ascii.eqb c (ascii_of_nat 10).

(** [s.split('\n')] *)
Fixpoint split_lines (s : string) : list string :=
  match s with
  | EmptyString => [EmptyString]
  | String c s' =>
      if is_newline c then EmptyString :: split_lines s'
      else
        match split_lines s' with
        | line :: lines => String c line :: lines
        | [] => [String c EmptyString]
        end
  end.

(** The label of one line of the script:
    [line[:40] + "..." if len(line) > 40 else line], and a space instead of
    a line that is blank.  [len] and the slice count characters; for ASCII
    text these are the bytes that [String.length] and [substring] count. *)
Definition preview_line (line : string) : string :=
  let display_line :=
    if (40 <? String.length line)%nat then (substring 0 40 line ++ "...")%string
    else line in
  if blank display_line then " " else display_line.

(** [str(n)] for a natural number. *)
Definition decimal (n : nat) : string := NilZero.string_of_uint (Nat.to_uint n).

(** The labels under "Script Preview:". *)
Definition script_preview (script_content : string) : list string :=
  if blank script_content then ["(empty)"]
  else
    let lines := split_lines script_content in
    map preview_line (firstn 5 lines) ++
    if (5 <? List.length lines)%nat
    then [("... (" ++ decimal (List.length lines - 5) ++ " more lines)")%string]
    else [].

(** [VIEW3D_PT_previz_panel.draw] *)
Definition draw (st : addon) : list widget :=
  [ Label "Script Input:"; TemplateID "custom_script_text";
    Operator "scene.paste_script" ] ++
  match custom_script_text (props st) with
  | Some script_content =>
      Label "Script Preview:" :: map Label (script_preview script_content)
  | None => []
  end ++
  [ Operator "scene.generate_scene"; Separator;
    Label "🎬 Director's Refinement:"; PropertyField "previz_refine_text";
    Operator "scene.refine_scene";
    Label match _last_scene_data st with
          | [] => "Generate a scene first"
          | _ :: _ => "e.g., 'make lights warmer'"
          end;
    Separator;
    Label "🎨 Add Foreground Element"; PropertyField "previz_foreground_text";
    Operator "scene.add_foreground";
    Label "e.g., 'burning car', 'fallen tree'";
    Separator;
    Label "📦 Export to Set"; Operator "scene.export_to_set";
    Label "Saves camera & sun data to JSON";
    Separator;
    Label ("Status: " ++ previz_status (props st))%string ].

End Panel.

(* ================================================================= *)
(** ** More notions and sample worlds *)

Module Facts.
Import Py Effects Addon.

(** No two entries of [d] have the same key: what [json.loads] yields. *)
Fixpoint distinct_keys (d : pydict) : bool :=
  match d with
  | [] => true
  | (k, _) :: d' => negb (dict_mem k d') && distinct_keys d'
  end.

(** What [o.get(key, default).lower()] needs of the entry under [key]: a
    string, or no entry. *)
Definition string_or_absent (o : option pyval) : bool :=
  match o with
  | None | Some (PStr _) => true
  | _ => false
  end.

(** The entry is a dictionary. *)
Definition mapping (o : option pyval) : bool :=
  match o with
  | Some (PDict _) => true
  | _ => false
  end.

(** [word in refinement_request.lower()] *)
Definition mentions (refinement_request word : string) : bool :=
  substring_of word (lower refinement_request).

(** The words [_fallback_refinement] looks for. *)
Definition keywords : list string :=
  [ "warm"; "cool"; "cold"; "bright"; "brighter"; "dim"; "darker";
    "low angle"; "lower angle"; "high angle"; "higher angle"; "overhead"; "eye level";
    "close"; "closer"; "wide"; "wider"; "medium";
    "soft"; "softer"; "hard"; "harsh" ].

(** A world whose parameter service answers every prompt with a structured
    prompt that parses to [parsed]; polls and downloads fail. *)
Definition answering (parsed : pyval) : world :=
  {| py_str := fun _ => "?";
     json_loads := fun _ => Some parsed;
     json_dumps := fun _ => "{}";
     http_post := fun _ _ =>
       HttpJson (PDict [(KStr "result", PDict [(KStr "structured_prompt", PStr "{}")])]);
     http_poll := fun _ _ _ => HttpRaises;
     http_fetch := fun _ => FetchRaises;
     mkstemp := fun suffix prefix => ("/tmp/" ++ prefix ++ "k3x9" ++ suffix)%string;
     image_loads := fun _ => true;
     write_json := fun _ => Written |}.

(** The plugin's state after a sequence of operator executions, each in the
    world of its moment.  An operator that raises leaves the state it had
    reached: the host reports the exception and goes on. *)
Fixpoint session (steps : list (world * action)) (st : addon) : addon :=
  match steps with
  | [] => st
  | (w, a) :: steps' => session steps' (after (step w a st))
  end.

Definition is_str (v : pyval) : bool := match v with PStr _ => true | _ => false end.

(** A JSON value [dict.update] cannot iterate over. *)
Definition scalar (v : pyval) : bool :=
  match v with
  | PNone | PBool _ | PNum _ => true
  | _ => false
  end.

(** The descriptions [_make_api_call] joins under "Objects: ". *)
Definition object_descriptions (scene_data : pydict) : list pyval :=
  match dict_lookup (KStr "objects") scene_data with
  | Some (PList objs) => Cinematographer.descriptions (firstn 3 objs)
  | _ => []
  end.

(** Every part [_make_api_call] joins without formatting it is a string. *)
Definition prompt_builds (scene_data : pydict) : bool :=
  forallb is_str (Cinematographer.description_part scene_data) &&
  forallb is_str (object_descriptions scene_data).

(** How the caller's dictionary [existing s] stands to the dictionary [d] it
    was when [_fallback_refinement] was called. *)
Definition tracks (d : pydict) (s : SceneParser.fallback_state) : Prop :=
  dict_keys (SceneParser.existing s) = dict_keys d /\
  (forall k, key_eqb k (KStr "lighting") = false ->
             dict_lookup k (SceneParser.existing s) = dict_lookup k d) /\
  (SceneParser.shared s = true ->
     dict_lookup (KStr "lighting") (SceneParser.existing s)
     = dict_lookup (KStr "lighting") (SceneParser.refined s)) /\
  (mapping (dict_lookup (KStr "lighting") d) = false -> SceneParser.existing s = d) /\
  (mapping (dict_lookup (KStr "lighting") d) = true ->
     SceneParser.shared s = true /\
     mapping (dict_lookup (KStr "lighting") (SceneParser.existing s)) = true).

(** The value [apply_lighting_settings] reads as the direction of the
    lighting entry [o], before it calls [.lower()] on it; [None] when the
    entry is neither a string nor a dictionary. *)
Definition direction_read (o : option pyval) : option pyval :=
  match o with
  | None => Some (PStr "natural")
  | Some (PStr s) => Some (PStr s)
  | Some (PDict l) =>
      Some match dict_lookup (KStr "direction") l with
           | Some v => v
           | None => PStr "natural"
           end
  | Some _ => None
  end.

(** What [apply_lighting_settings] needs of the lighting entry: none, a
    string, or a dictionary whose direction and quality are strings or not
    there. *)
Definition lighting_usable (o : option pyval) : bool :=
  match o with
  | None | Some (PStr _) => true
  | Some (PDict l) =>
      string_or_absent (dict_lookup (KStr "direction") l) &&
      string_or_absent (dict_lookup (KStr "quality") l)
  | _ => false
  end.

(** The events before a download: the POST and the rounds of polling. *)
Definition is_request (e : event) : bool :=
  match e with
  | EvPost _ _ | EvSleep _ | EvPoll _ => true
  | _ => false
  end.

Definition first_is_space (s : string) : bool :=
  match s with
  | EmptyString => false
  | String c _ => is_space c
  end.

Fixpoint last_is_space (s : string) : bool :=
  match s with
  | EmptyString => false
  | String c EmptyString => is_space c
  | String _ s' => last_is_space s'
  end.

Definition is_mkstemp (e : event) : bool :=
  match e with EvMkstemp _ => true | _ => false end.

Definition is_fetch (e : event) : bool :=
  match e with EvFetch _ => true | _ => false end.

End Facts.

(* ================================================================= *)
(** ** Dictionaries *)

Section Dictionaries.
Import Py Spec.

Lemma dict_mem_keys (k : pykey) (d : pydict) :
  dict_mem k d = existsb (key_eqb k) (dict_keys d).
Proof.
  unfold dict_mem.
  induction d as [|[k' v] d IH]; simpl; [reflexivity|].
  destruct (key_eqb k k'); simpl; [reflexivity | exact IH].
Qed.

Lemma extends_refl (d : pydict) : extends d d.
Proof. exists []. now rewrite app_nil_r. Qed.

Lemma extends_trans (a b c : pydict) : extends a b -> extends b c -> extends a c.
Proof.
  intros [x Hx] [y Hy]. exists (x ++ y).
  now rewrite Hy, Hx, app_assoc.
Qed.

Lemma extends_mem (d d' : pydict) (k : pykey) :
  extends d d' -> dict_mem k d = true -> dict_mem k d' = true.
Proof.
  intros [extra H]. rewrite !dict_mem_keys, H, existsb_app.
  intros ->. reflexivity.
Qed.

Lemma dict_set_extends (k : pykey) (v : pyval) (d : pydict) :
  extends d (dict_set k v d).
Proof.
  induction d as [|[k' v'] d [extra IH]]; simpl.
  - now exists [k].
  - destruct (key_eqb k k'); simpl.
    + exists []. now rewrite app_nil_r.
    + exists extra. unfold dict_keys in *. simpl. now rewrite IH.
Qed.

Lemma update_items_extends (other d : pydict) : extends d (update_items d other).
Proof.
  unfold update_items. revert d.
  induction other as [|[k v] o IH]; intros d; simpl.
  - apply extends_refl.
  - eapply extends_trans; [apply dict_set_extends | apply IH].
Qed.

Lemma update_pairs_extends (l : list pyval) (d d' : pydict) :
  update_pairs d l = Ret d' -> extends d d'.
Proof.
  revert d. induction l as [|e l IH]; intros d; simpl.
  - intros [= <-]. apply extends_refl.
  - destruct (pair_of e) as [[k v]|]; simpl; [|discriminate].
    intros H. eapply extends_trans; [apply dict_set_extends | apply IH, H].
Qed.

(** [dict.update] never drops a key. *)
Lemma dict_update_extends (d d' : pydict) (other : pyval) :
  dict_update d other = Ret d' -> extends d d'.
Proof.
  destruct other; simpl; try discriminate.
  - apply update_pairs_extends.
  - apply update_pairs_extends.
  - intros [= <-]. apply update_items_extends.
Qed.

End Dictionaries.

(* ================================================================= *)
(** ** scene_parser.py: results *)

Section SceneParserFacts.
Import Py Effects SceneParser Spec.

(** The result of [get_scene_parameters], by the outcome of the request. *)
Lemma get_scene_parameters_result (w : world) (text_prompt : string) :
  snd (get_scene_parameters w text_prompt) =
  match http_post w BRIA_ENDPOINT (prompt_payload text_prompt) with
  | HttpRaises => Ret DEFAULT_PARAMETERS
  | HttpJson data =>
      match structured_parameters w data with
      | Ret d => Ret d
      | Raise _ => Ret DEFAULT_PARAMETERS
      end
  end.
Proof.
  unfold get_scene_parameters, get_scene_parameters_try, post. simpl.
  destruct (http_post w BRIA_ENDPOINT (prompt_payload text_prompt)) as [|data]; simpl.
  - reflexivity.
  - destruct (structured_parameters w data); reflexivity.
Qed.

(** A response without [result.structured_prompt] never reaches [json.loads]. *)
Lemma structured_parameters_lacking (w : world) (data : pyval) (d : pydict) :
  structured_prompt_of data = None ->
  structured_parameters w data = Ret d -> d = DEFAULT_PARAMETERS.
Proof.
  unfold structured_parameters, lacks_structured_prompt, structured_prompt_of.
  destruct data as [| | | s | l | m]; simpl; try discriminate.
  - destruct (substring_of "result" s); simpl; [discriminate | now intros _ [= <-]].
  - destruct (existsb _ l); simpl; [discriminate | now intros _ [= <-]].
  - unfold dict_mem.
    destruct (dict_lookup (KStr "result") m) as [r|]; simpl; [|now intros _ [= <-]].
    destruct r as [| | | s | l | r]; simpl; try discriminate.
    + destruct (substring_of "structured_prompt" s); simpl; [discriminate | now intros _ [= <-]].
    + destruct (existsb _ l); simpl; [discriminate | now intros _ [= <-]].
    + unfold dict_mem. intros ->. simpl. now intros [= <-].
Qed.

(** With [result.structured_prompt] there, the result is decided by
    [json.loads] and [dict.update]. *)
Lemma structured_parameters_present (w : world) (data sp : pyval) :
  structured_prompt_of data = Some sp ->
  structured_parameters w data =
  match loads w sp with
  | Raise JSONDecodeError => Ret DEFAULT_PARAMETERS
  | Raise e => Raise e
  | Ret structured_params => dict_update DEFAULT_PARAMETERS structured_params
  end.
Proof.
  unfold structured_parameters, lacks_structured_prompt, structured_prompt_of.
  destruct data as [| | | | | m]; try discriminate. simpl. unfold dict_mem.
  destruct (dict_lookup (KStr "result") m) as [r|]; [|discriminate].
  destruct r as [| | | | | r]; try discriminate. simpl. unfold dict_mem.
  intros ->. reflexivity.
Qed.

Lemma structured_parameters_cases (w : world) (data : pyval) (d : pydict) :
  structured_parameters w data = Ret d ->
  d = DEFAULT_PARAMETERS \/
  exists structured_params, dict_update DEFAULT_PARAMETERS structured_params = Ret d.
Proof.
  destruct (structured_prompt_of data) as [sp|] eqn:E.
  - rewrite (structured_parameters_present w data sp E).
    destruct (loads w sp) as [v|e].
    + intros H. right. now exists v.
    + destruct e; try discriminate. intros [= <-]. now left.
  - intros H. left. eapply structured_parameters_lacking; eassumption.
Qed.

(** C8.  Whatever the prompt and whatever the API answers (a parsed prompt,
    a malformed response, a JSON decode error, a failed request),
    [get_scene_parameters] returns a dictionary, which is [DEFAULT_PARAMETERS]
    or [DEFAULT_PARAMETERS] updated with the parsed value; in both cases it
    has the four keys camera_angle, lighting, composition and field_of_view. *)
Theorem get_scene_parameters_default_keys (w : world) (text_prompt : string) :
  exists d,
    snd (get_scene_parameters w text_prompt) = Ret d /\
    (d = DEFAULT_PARAMETERS \/
     exists parsed, dict_update DEFAULT_PARAMETERS parsed = Ret d) /\
    dict_mem (KStr "camera_angle") d = true /\
    dict_mem (KStr "lighting") d = true /\
    dict_mem (KStr "composition") d = true /\
    dict_mem (KStr "field_of_view") d = true.
Proof.
  assert (K : forall d, extends DEFAULT_PARAMETERS d ->
            dict_mem (KStr "camera_angle") d = true /\
            dict_mem (KStr "lighting") d = true /\
            dict_mem (KStr "composition") d = true /\
            dict_mem (KStr "field_of_view") d = true).
  { intros d E. repeat split; apply (extends_mem _ _ _ E); reflexivity. }
  rewrite get_scene_parameters_result.
  destruct (http_post w BRIA_ENDPOINT (prompt_payload text_prompt)) as [|data].
  - exists DEFAULT_PARAMETERS. split; [reflexivity|]. split; [now left|].
    apply K, extends_refl.
  - destruct (structured_parameters w data) as [d|e] eqn:E.
    + exists d. split; [reflexivity|].
      destruct (structured_parameters_cases w data d E) as [->|[parsed U]].
      * split; [now left|]. apply K, extends_refl.
      * split; [right; now exists parsed|].
        apply K. eapply dict_update_extends, U.
    + exists DEFAULT_PARAMETERS. split; [reflexivity|]. split; [now left|].
      apply K, extends_refl.
Qed.

(** *** Refinement *)

Lemma set_lighting_extends (f : pydict -> pydict) (fresh : pydict) (s : fallback_state) :
  extends (refined s) (refined (set_lighting f fresh s)).
Proof.
  unfold set_lighting.
  destruct (dict_lookup (KStr "lighting") (refined s)) as [[| | | | |l]|];
    simpl; apply dict_set_extends.
Qed.

Lemma set_top_extends (key value : string) (s : fallback_state) :
  extends (refined s) (refined (set_top key value s)).
Proof. apply dict_set_extends. Qed.

Local Hint Resolve extends_refl set_lighting_extends set_top_extends : core.

Local Ltac by_cases :=
  repeat match goal with
         | |- context [if ?b then _ else _] => destruct b
         end; auto.

Lemma temperature_step_extends has s : extends (refined s) (refined (temperature_step has s)).
Proof. unfold temperature_step. by_cases. Qed.

Lemma intensity_step_extends has s : extends (refined s) (refined (intensity_step has s)).
Proof. unfold intensity_step. by_cases. Qed.

Lemma camera_angle_step_extends has s : extends (refined s) (refined (camera_angle_step has s)).
Proof. unfold camera_angle_step. by_cases. Qed.

Lemma field_of_view_step_extends has s :
  extends (refined s) (refined (field_of_view_step has s)).
Proof. unfold field_of_view_step. by_cases. Qed.

Lemma quality_step_extends has s : extends (refined s) (refined (quality_step has s)).
Proof. unfold quality_step. by_cases. Qed.

Lemma fallback_steps_extends has s : extends (refined s) (refined (fallback_steps has s)).
Proof.
  unfold fallback_steps.
  eapply extends_trans; [apply temperature_step_extends|].
  eapply extends_trans; [apply intensity_step_extends|].
  eapply extends_trans; [apply camera_angle_step_extends|].
  eapply extends_trans; [apply field_of_view_step_extends|].
  apply quality_step_extends.
Qed.

(** The fallback path: a copy, to which entries are added or in which they
    are overwritten. *)
Lemma fallback_refinement_extends (existing_params : pydict) (request : string) :
  extends existing_params (returned (_fallback_refinement existing_params request)).
Proof. unfold _fallback_refinement. simpl. apply (fallback_steps_extends _ (Build_fallback_state _ _ _)). Qed.

(** The API path: a copy, updated. *)
Lemma refined_parameters_extends (w : world) (existing_params : pydict)
    (request : string) (data : pyval) (r : refinement) :
  refined_parameters w existing_params request data = Ret r ->
  extends existing_params (returned r).
Proof.
  unfold refined_parameters.
  destruct (lacks_structured_prompt data) as [[|]|]; simpl; try discriminate.
  - intros [= <-]. apply fallback_refinement_extends.
  - destruct (py_getitem data "result") as [result|]; simpl; [|discriminate].
    destruct (py_getitem result "structured_prompt") as [sp|]; simpl; [|discriminate].
    destruct (loads w sp) as [v|e].
    + destruct (dict_update existing_params v) as [d|] eqn:U; simpl; [|discriminate].
      intros [= <-]. simpl. eapply dict_update_extends, U.
    + destruct e; try discriminate. intros [= <-]. apply fallback_refinement_extends.
Qed.

(** The result of [refine_scene_parameters], by the outcome of the request. *)
Lemma refine_scene_parameters_result (w : world) (existing_params : pydict)
    (request : string) :
  snd (refine_scene_parameters w existing_params request) =
  match http_post w BRIA_ENDPOINT
          (prompt_payload (combined_prompt w existing_params request)) with
  | HttpRaises => Ret (_fallback_refinement existing_params request)
  | HttpJson data =>
      match refined_parameters w existing_params request data with
      | Ret r => Ret r
      | Raise _ => Ret (_fallback_refinement existing_params request)
      end
  end.
Proof.
  unfold refine_scene_parameters, refine_scene_parameters_try, post. simpl.
  destruct (http_post w BRIA_ENDPOINT _) as [|data]; simpl.
  - reflexivity.
  - destruct (refined_parameters w existing_params request data); reflexivity.
Qed.

(** The copy made by the fallback is shallow: a lighting that is a dictionary
    is changed in the caller's [existing_params] as well. *)
Example fallback_changes_the_argument :
  argument_after
    (_fallback_refinement
       [(KStr "lighting", PDict [(KStr "direction", PStr "left")])] "Warmer, please")
  = [(KStr "lighting",
      PDict [(KStr "direction", PStr "left"); (KStr "temperature", PStr "warm");
             (KStr "quality", PStr "soft")])].
Proof. reflexivity. Qed.

(** C9.  For every [existing_params] and every refinement request,
    [refine_scene_parameters] returns a dictionary that has every key of
    [existing_params] (none is dropped: the keys of [existing_params] come
    first, in their order, whichever of the API path and the fallback path
    produced the result). *)
Theorem refine_scene_parameters_keeps_keys (w : world) (existing_params : pydict)
    (refinement_request : string) :
  exists r,
    snd (refine_scene_parameters w existing_params refinement_request) = Ret r /\
    extends existing_params (returned r) /\
    forall k, dict_mem k existing_params = true -> dict_mem k (returned r) = true.
Proof.
  assert (K : forall r, extends existing_params (returned r) ->
            extends existing_params (returned r) /\
            forall k, dict_mem k existing_params = true -> dict_mem k (returned r) = true).
  { intros r E. split; [exact E|]. intros k. apply extends_mem, E. }
  rewrite refine_scene_parameters_result.
  destruct (http_post w BRIA_ENDPOINT _) as [|data].
  - eexists. split; [reflexivity|]. apply K, fallback_refinement_extends.
  - destruct (refined_parameters w existing_params refinement_request data) as [r|e] eqn:E.
    + exists r. split; [reflexivity|]. eapply K, refined_parameters_extends, E.
    + eexists. split; [reflexivity|]. apply K, fallback_refinement_extends.
Qed.

End SceneParserFacts.

(* ================================================================= *)
(** ** Polling loops *)

Section PollingLoops.
Import Py Effects Cinematographer Spec.

Lemma Ret_inj {A} (a b : A) : Ret a = Ret b -> a = b.
Proof. now intros [= ->]. Qed.

Lemma mbind_lift {A B} (r : res A) (k : A -> M B) :
  mbind (lift r) k = match r with Ret a => k a | Raise e => ([], Raise e) end.
Proof. destruct r as [a|e]; simpl; [|reflexivity]. now destruct (k a). Qed.

Lemma fst_try_except {A} (m : M A) (x : A) :
  fst (try_except m (fun _ => mret x)) = fst m.
Proof. destruct m as [t [a|e]]; simpl; [reflexivity | apply app_nil_r]. Qed.

Lemma snd_try_except {A} (m : M A) (x : A) :
  snd (try_except m (fun _ => mret x)) =
  match snd m with Ret a => Ret a | Raise _ => Ret x end.
Proof. now destruct m as [t [a|e]]. Qed.

Lemma count_app (p : event -> bool) (a b : list event) :
  count p (a ++ b) = count p a + count p b.
Proof. unfold count. now rewrite filter_app, List.length_app. Qed.

Lemma count_nil (p : event -> bool) : count p [] = 0.
Proof. reflexivity. Qed.

Lemma seconds_app (a b : list event) : seconds (a ++ b) = seconds a + seconds b.
Proof.
  induction a as [|e a IH]; simpl; [reflexivity|].
  destruct e; simpl; rewrite IH; lia.
Qed.

Lemma paced_from_weaken (t : list event) (b : bool) :
  paced_from false t = true -> paced_from b t = true.
Proof. destruct t as [|e t]; simpl; [reflexivity|]. destruct e; simpl; auto; discriminate. Qed.

Lemma paced_from_app (a b : list event) (s : bool) :
  paced_from s a = true -> paced_from false b = true -> paced_from s (a ++ b) = true.
Proof.
  revert s. induction a as [|e a IH]; intros s Ha Hb; simpl in *.
  - now apply paced_from_weaken.
  - destruct e; simpl in *; auto.
    apply andb_true_iff in Ha as [-> Ha]. simpl. auto.
Qed.

Lemma paced_app (a b : list event) :
  paced a = true -> paced b = true -> paced (a ++ b) = true.
Proof. apply paced_from_app. Qed.

(** The measures of [k] rounds. *)
Lemma rounds_measures (status_url : pyval) (k : nat) :
  posts (rounds status_url k) = 0 /\ sleeps (rounds status_url k) = k /\
  polls (rounds status_url k) = k /\ seconds (rounds status_url k) = k /\
  paced (rounds status_url k) = true.
Proof.
  induction k as [|k (HP & HS & HL & HT & HC)].
  - repeat split.
  - change (rounds status_url (S k))
      with (EvSleep 1 :: EvPoll status_url :: rounds status_url k).
    unfold posts, sleeps, polls, count in *. simpl.
    repeat split; try lia. exact HC.
Qed.

(** A round of any of the three loops: its two events, and its end. *)
Lemma poll_round_eq {B R} (w : world) (endpoint : string) (status_url : pyval)
    (handle : pyval -> res (ctl B R)) (i : nat) :
  poll_round w endpoint status_url handle i =
  ([EvSleep 1; EvPoll status_url],
   Ret (round_ctl handle (response w endpoint status_url i))).
Proof.
  unfold poll_round, poll, response, round_ctl.
  destruct status_url as [| | | u | |]; simpl; try reflexivity.
  destruct (http_poll w endpoint u i) as [|sd]; simpl; [reflexivity|].
  destruct (handle sd); reflexivity.
Qed.

Lemma for_range_S {B R} (n lo : nat) (body : nat -> M (ctl B R)) :
  for_range (S n) lo body =
  mbind (body lo) (fun c =>
    match c with
    | Continue => for_range n (S lo) body
    | _ => mret c
    end).
Proof. reflexivity. Qed.

Lemma loop_ctl_S {B R} (n lo : nat) (c : nat -> ctl B R) :
  loop_ctl (S n) lo c =
  match c lo with
  | Continue => let (k, r) := loop_ctl n (S lo) c in (S k, r)
  | r => (1, r)
  end.
Proof. reflexivity. Qed.

(** A whole loop: the rounds it runs, and its end. *)
Lemma for_range_poll {B R} (w : world) (endpoint : string) (status_url : pyval)
    (handle : pyval -> res (ctl B R)) (n lo : nat) :
  for_range n lo (poll_round w endpoint status_url handle) =
  let (k, r) :=
    loop_ctl n lo (fun i => round_ctl handle (response w endpoint status_url i)) in
  (rounds status_url k, Ret r).
Proof.
  revert lo. induction n as [|n IH]; intros lo; [reflexivity|].
  rewrite for_range_S, loop_ctl_S, poll_round_eq. simpl.
  destruct (round_ctl handle (response w endpoint status_url lo)); simpl; try reflexivity.
  rewrite IH. destruct (loop_ctl n (S lo) _). reflexivity.
Qed.

Lemma loop_ctl_bound {B R} (n lo : nat) (c : nat -> ctl B R) :
  fst (loop_ctl n lo c) <= n.
Proof.
  revert lo. induction n as [|n IH]; intros lo; [cbv; lia|].
  rewrite loop_ctl_S.
  destruct (c lo); simpl; try lia.
  specialize (IH (S lo)). destruct (loop_ctl n (S lo) c). simpl in *. lia.
Qed.

(** A loop all of whose rounds go on runs them all. *)
Lemma loop_ctl_exhausted {B R} (n lo : nat) (c : nat -> ctl B R) :
  (forall i, lo <= i < lo + n -> c i = Continue) ->
  loop_ctl n lo c = (n, Continue).
Proof.
  revert lo. induction n as [|n IH]; intros lo H; [reflexivity|].
  rewrite loop_ctl_S, (H lo) by lia. rewrite IH; [reflexivity|].
  intros i Hi. apply H. lia.
Qed.

(** A loop that ends otherwise ends in its first round that does not go on. *)
Lemma loop_ctl_stops {B R} (n lo : nat) (c : nat -> ctl B R) (k : nat) (r : ctl B R) :
  loop_ctl n lo c = (k, r) -> r <> Continue ->
  exists i, lo <= i < lo + n /\ c i = r /\ k = S (i - lo) /\
            forall j, lo <= j < i -> c j = Continue.
Proof.
  revert lo k. induction n as [|n IH]; intros lo k.
  - intros [= <- <-] H. now elim H.
  - rewrite loop_ctl_S. destruct (c lo) eqn:E.
    + destruct (loop_ctl n (S lo) c) as [k' r'] eqn:L. intros [= <- <-] H.
      destruct (IH (S lo) k' L H) as (i & Hi & Hc & Hk & Hj).
      exists i. split; [lia|]. split; [exact Hc|]. split; [lia|].
      intros j Hjl. destruct (Nat.eq_dec j lo) as [->|]; [exact E|]. apply Hj. lia.
    + intros [= <- <-] _. exists lo. split; [lia|]. split; [exact E|]. split; [lia|].
      intros j Hj. lia.
    + intros [= <- <-] _. exists lo. split; [lia|]. split; [exact E|]. split; [lia|].
      intros j Hj. lia.
Qed.

(** The first round that does not go on ends the loop. *)
Lemma loop_ctl_first {B R} (n lo : nat) (c : nat -> ctl B R) (i : nat) :
  lo <= i < lo + n -> c i <> Continue ->
  (forall j, lo <= j < i -> c j = Continue) ->
  loop_ctl n lo c = (S (i - lo), c i).
Proof.
  revert lo. induction n as [|n IH]; intros lo Hi Hc Hj; [lia|].
  rewrite loop_ctl_S.
  destruct (Nat.eq_dec i lo) as [->|Hne].
  - rewrite Nat.sub_diag. destruct (c lo); [now elim Hc | reflexivity | reflexivity].
  - rewrite (Hj lo) by lia. rewrite (IH (S lo)); try lia; try assumption.
    + f_equal. lia.
    + intros j Hjl. apply Hj. lia.
Qed.

(** A request, at most [n] rounds, and what follows the loop. *)
Lemma within_shape (n k : nat) (pre tail : list event) (status_url : pyval) :
  posts pre + posts tail <= 1 -> quiet pre -> quiet tail -> k <= n ->
  within n (pre ++ rounds status_url k ++ tail).
Proof.
  intros HP (S1 & L1 & T1 & C1) (S2 & L2 & T2 & C2) Hk.
  destruct (rounds_measures status_url k) as (P & S & L & T & C).
  unfold within, posts, sleeps, polls in *.
  rewrite !count_app, !seconds_app, P, S, L, T, S1, L1, T1, S2, L2, T2.
  repeat split; try lia.
  apply paced_app; [exact C1|]. apply paced_app; assumption.
Qed.

Lemma quiet_nil : quiet [].
Proof. repeat split. Qed.

Lemma quiet_post (endpoint : string) (payload : pydict) : quiet [EvPost endpoint payload].
Proof. repeat split. Qed.

Lemma download_to_eq (w : world) (url : pyval) (suffix prefix : string) :
  download_to w url suffix prefix =
  match url with
  | PStr u =>
      match http_fetch w u with
      | FetchRaises => ([EvFetch url], Ret None)
      | CopyRaises => ([EvFetch url; EvMkstemp (mkstemp w suffix prefix)], Ret None)
      | Fetched =>
          ([EvFetch url; EvMkstemp (mkstemp w suffix prefix)],
           Ret (Some (mkstemp w suffix prefix)))
      end
  | _ => ([EvFetch url], Ret None)
  end.
Proof.
  unfold download_to. destruct url as [| | | u | |]; try reflexivity.
  simpl. destruct (http_fetch w u); reflexivity.
Qed.

(** A download never raises, and is no part of a loop. *)
Lemma download_to_quiet (w : world) (url : pyval) (suffix prefix : string) :
  posts (fst (download_to w url suffix prefix)) = 0 /\
  quiet (fst (download_to w url suffix prefix)) /\
  exists r, snd (download_to w url suffix prefix) = Ret r.
Proof.
  rewrite download_to_eq.
  destruct url as [| | | u | |]; try (repeat split; now eexists).
  destruct (http_fetch w u); repeat split; now eexists.
Qed.

Lemma fetch_image_quiet (w : world) (image_url : pyval) :
  posts (fst (fetch_image w image_url)) = 0 /\
  quiet (fst (fetch_image w image_url)) /\
  exists r, snd (fetch_image w image_url) = Ret r.
Proof.
  unfold fetch_image. destruct (truthy image_url).
  - apply download_to_quiet.
  - repeat split. now eexists.
Qed.

(** [_make_api_call], once the prompt is built, when the answer to the POST
    is asynchronous. *)
Lemma make_api_call_async (w : world) (scene_data : pydict) (prompt : string)
    (data status_url : pyval) :
  final_prompt w scene_data = Ret prompt ->
  http_post w BRIA_IMAGE_ENDPOINT (image_payload prompt "exr") = HttpJson data ->
  status_url_of data = Some status_url ->
  _make_api_call w scene_data =
  let (k, c) := loop_ctl 60 0 (background_round w status_url) in
  let (tail, r) :=
    match c with
    | Break image_url => fetch_image w image_url
    | Return r => mret r
    | Continue => mret None
    end in
  (EvPost BRIA_IMAGE_ENDPOINT (image_payload prompt "exr")
     :: rounds status_url k ++ tail,
   match r with Ret p => Ret p | Raise _ => Ret None end).
Proof.
  intros HP HD HU.
  unfold _make_api_call, make_api_call_try, locate_image_url, post.
  rewrite HP. simpl. rewrite HD. simpl.
  destruct data as [| | | | | d]; try discriminate. simpl in HU |- *.
  unfold dict_mem. rewrite HU. simpl.
  rewrite for_range_poll. fold (background_round w status_url).
  destruct (loop_ctl 60 0 (background_round w status_url)) as [k c]. simpl.
  destruct c as [|u|r]; simpl.
  - now rewrite ?app_nil_r.
  - destruct (fetch_image w u) as [tail [r|e]]; simpl; now rewrite ?app_nil_r.
  - now rewrite ?app_nil_r.
Qed.

Local Ltac shape :=
  simpl; rewrite ?app_nil_r; repeat split; try reflexivity; try (cbv; lia); auto.

(** The trace of [_make_api_call] in every case. *)
Lemma make_api_call_shape (w : world) (scene_data : pydict) :
  exists pre status_url k tail,
    fst (_make_api_call w scene_data) = pre ++ rounds status_url k ++ tail /\
    posts pre + posts tail <= 1 /\ quiet pre /\ quiet tail /\ k <= 60.
Proof.
  unfold _make_api_call. rewrite mbind_lift.
  destruct (final_prompt w scene_data) as [prompt|e].
  2: { exists [], PNone, 0, []. shape. }
  rewrite fst_try_except.
  unfold make_api_call_try, locate_image_url, post. simpl.
  set (p := EvPost BRIA_IMAGE_ENDPOINT (image_payload prompt "exr")).
  destruct (http_post w BRIA_IMAGE_ENDPOINT (image_payload prompt "exr")) as [|data]; simpl.
  { exists [p], PNone, 0, []. shape. }
  destruct (py_in "status_url" data) as [[|]|]; simpl.
  - destruct (py_getitem data "status_url") as [status_url|]; simpl.
    + rewrite for_range_poll.
      pose proof (loop_ctl_bound 60 0
        (fun i => round_ctl on_status (response w BRIA_IMAGE_ENDPOINT status_url i))) as Hk.
      destruct (loop_ctl 60 0 _) as [k c]. simpl in Hk |- *.
      destruct c as [|u|r]; simpl.
      * exists [p], status_url, k, []. shape.
      * destruct (fetch_image_quiet w u) as (P & Q & r & E).
        destruct (fetch_image w u) as [tail r']. simpl in *. subst r'. simpl.
        exists [p], status_url, k, tail. rewrite P.
        shape; apply Q.
      * exists [p], status_url, k, []. shape.
    + exists [p], PNone, 0, []. shape.
  - destruct (sync_image_url data) as [u|]; simpl.
    + destruct (fetch_image_quiet w u) as (P & Q & r & E).
      destruct (fetch_image w u) as [tail r']. simpl in *. subst r'. simpl.
      exists [p], PNone, 0, tail. rewrite P.
      shape; apply Q.
    + exists [p], PNone, 0, []. shape.
  - exists [p], PNone, 0, []. shape.
Qed.

(** [_make_api_call] raises only where it builds its prompt. *)
Lemma make_api_call_returns (w : world) (scene_data : pydict) (prompt : string) :
  final_prompt w scene_data = Ret prompt ->
  exists r, snd (_make_api_call w scene_data) = Ret r.
Proof.
  intros HP. unfold _make_api_call. rewrite mbind_lift, HP, snd_try_except.
  destruct (snd (make_api_call_try w prompt)); now eexists.
Qed.

(** [_poll_for_image_result] when the answer to the POST is asynchronous. *)
Lemma poll_for_image_result_async (w : world) (data status_url : pyval) :
  status_url_of data = Some status_url ->
  _poll_for_image_result w data =
  let (k, c) := loop_ctl 60 0 (foreground_round w status_url) in
  (rounds status_url k, Ret match c with Return v => v | _ => PNone end).
Proof.
  intros HU. unfold _poll_for_image_result.
  destruct data as [| | | | | d]; try discriminate. simpl in HU |- *.
  unfold dict_mem. rewrite HU. simpl.
  rewrite for_range_poll. fold (foreground_round w status_url).
  destruct (loop_ctl 60 0 (foreground_round w status_url)) as [k c]. simpl.
  destruct c; simpl; now rewrite app_nil_r.
Qed.

Lemma poll_for_image_result_shape (w : world) (data : pyval) :
  exists status_url k,
    fst (_poll_for_image_result w data) = [] ++ rounds status_url k ++ [] /\ k <= 60.
Proof.
  unfold _poll_for_image_result. rewrite mbind_lift.
  destruct (py_in "status_url" data) as [[|]|].
  - rewrite mbind_lift.
    destruct (py_getitem data "status_url") as [status_url|].
    + rewrite for_range_poll.
      pose proof (loop_ctl_bound 60 0
        (fun i => round_ctl on_status_foreground (response w BRIA_IMAGE_ENDPOINT status_url i))) as Hk.
      destruct (loop_ctl 60 0 _) as [k c]. simpl in Hk |- *.
      exists status_url, k. split; [|exact Hk]. now destruct c.
    + exists PNone, 0. shape.
  - exists PNone, 0. shape.
  - exists PNone, 0. shape.
Qed.

(** [_remove_background] when the answer to the POST is asynchronous. *)
Lemma remove_background_async (w : world) (image_url data status_url : pyval) :
  preview image_url = Ret tt ->
  http_post w BRIA_RMBG_ENDPOINT [(KStr "image", image_url)] = HttpJson data ->
  status_url_of data = Some status_url ->
  _remove_background w image_url =
  let (k, c) := loop_ctl 30 0 (rmbg_round w status_url) in
  (EvPost BRIA_RMBG_ENDPOINT [(KStr "image", image_url)] :: rounds status_url k,
   Ret match c with Return v => v | _ => PNone end).
Proof.
  intros HV HD HU.
  unfold _remove_background, remove_background_try, post. rewrite HV. simpl. rewrite HD. simpl.
  destruct data as [| | | | | d]; try discriminate. simpl in HU |- *.
  unfold dict_mem. rewrite HU. simpl.
  rewrite for_range_poll. fold (rmbg_round w status_url).
  destruct (loop_ctl 30 0 (rmbg_round w status_url)) as [k c]. simpl.
  destruct c; simpl; now rewrite app_nil_r.
Qed.

Lemma remove_background_shape (w : world) (image_url : pyval) :
  exists pre status_url k,
    fst (_remove_background w image_url) = pre ++ rounds status_url k ++ [] /\
    (pre = [] \/ pre = [EvPost BRIA_RMBG_ENDPOINT [(KStr "image", image_url)]]) /\
    k <= 30.
Proof.
  unfold _remove_background. rewrite mbind_lift.
  destruct (preview image_url) as [[]|e].
  2: { exists [], PNone, 0. shape. }
  rewrite fst_try_except.
  unfold remove_background_try, post. simpl.
  set (p := EvPost BRIA_RMBG_ENDPOINT [(KStr "image", image_url)]).
  destruct (http_post w BRIA_RMBG_ENDPOINT _) as [|data]; simpl.
  { exists [p], PNone, 0. shape. }
  destruct (py_in "status_url" data) as [[|]|]; simpl.
  - destruct (py_getitem data "status_url") as [status_url|]; simpl.
    + rewrite for_range_poll.
      pose proof (loop_ctl_bound 30 0
        (fun i => round_ctl on_status_rmbg (response w BRIA_RMBG_ENDPOINT status_url i))) as Hk.
      destruct (loop_ctl 30 0 _) as [k c]. simpl in Hk |- *.
      exists [p], status_url, k. destruct c; shape.
    + exists [p], PNone, 0. shape.
  - exists [p], PNone, 0. destruct (rmbg_result data); shape.
  - exists [p], PNone, 0. shape.
Qed.

(** *** The POSTs of a foreground generation *)

Lemma rounds_no_post (endpoint : string) (status_url : pyval) (k : nat) :
  posts_to endpoint (rounds status_url k) = 0.
Proof.
  induction k as [|k IH]; [reflexivity|].
  change (rounds status_url (S k))
    with (EvSleep 1 :: EvPoll status_url :: rounds status_url k).
  exact IH.
Qed.

Lemma poll_for_image_result_no_post (w : world) (data : pyval) (endpoint : string) :
  posts_to endpoint (fst (_poll_for_image_result w data)) = 0.
Proof.
  destruct (poll_for_image_result_shape w data) as (u & k & -> & _).
  simpl. rewrite app_nil_r. apply rounds_no_post.
Qed.

Lemma remove_background_posts (w : world) (image_url : pyval) :
  posts_to BRIA_IMAGE_ENDPOINT (fst (_remove_background w image_url)) = 0 /\
  posts_to BRIA_RMBG_ENDPOINT (fst (_remove_background w image_url)) <= 1.
Proof.
  destruct (remove_background_shape w image_url) as (pre & u & k & -> & HP & _).
  unfold posts_to in *. rewrite app_nil_r, !count_app.
  fold (posts_to BRIA_IMAGE_ENDPOINT (rounds u k)).
  fold (posts_to BRIA_RMBG_ENDPOINT (rounds u k)).
  rewrite !rounds_no_post.
  destruct HP as [-> | ->]; split; cbv; lia.
Qed.

Lemma download_to_no_post (w : world) (url : pyval) (suffix prefix endpoint : string) :
  posts_to endpoint (fst (download_to w url suffix prefix)) = 0.
Proof.
  rewrite download_to_eq.
  destruct url as [| | | u | |]; try reflexivity.
  destruct (http_fetch w u); reflexivity.
Qed.

(** A foreground generation sends one POST to the image endpoint and at
    most one to the background-removal endpoint. *)
Lemma generate_foreground_sync_posts (w : world) (description : string) :
  posts_to BRIA_IMAGE_ENDPOINT (fst (_generate_foreground_sync w description)) = 1 /\
  posts_to BRIA_RMBG_ENDPOINT (fst (_generate_foreground_sync w description)) <= 1.
Proof.
  assert (K : forall endpoint,
            exists image_url,
              posts_to endpoint (fst (_generate_foreground_sync w description)) =
              posts_to endpoint
                [EvPost BRIA_IMAGE_ENDPOINT (image_payload (foreground_prompt description) "png")]
              \/
              posts_to endpoint (fst (_generate_foreground_sync w description)) =
              posts_to endpoint
                [EvPost BRIA_IMAGE_ENDPOINT (image_payload (foreground_prompt description) "png")]
              + posts_to endpoint (fst (_remove_background w image_url))).
  { intros endpoint. unfold _generate_foreground_sync, post. simpl.
    set (p := EvPost BRIA_IMAGE_ENDPOINT (image_payload (foreground_prompt description) "png")).
    destruct (http_post w BRIA_IMAGE_ENDPOINT _) as [|data]; simpl.
    { exists PNone. now left. }
    pose proof (poll_for_image_result_no_post w data endpoint) as H1.
    destruct (_poll_for_image_result w data) as [t1 [image_url|e]]; simpl in *.
    2: { exists PNone. left. unfold posts_to in *. change (p :: t1) with ([p] ++ t1).
         rewrite count_app, H1. lia. }
    exists image_url.
    destruct (truthy image_url); simpl.
    2: { left. unfold posts_to in *. change (p :: t1 ++ []) with ([p] ++ t1 ++ []).
         rewrite !count_app, H1, count_nil. lia. }
    right.
    destruct (_remove_background w image_url) as [t2 [transparent_url|e]]; simpl.
    2: { unfold posts_to in *. change (p :: t1 ++ t2) with ([p] ++ t1 ++ t2).
         rewrite !count_app, H1. lia. }
    destruct (truthy transparent_url); simpl.
    2: { unfold posts_to in *. change (p :: t1 ++ t2 ++ []) with ([p] ++ t1 ++ t2 ++ []).
         rewrite !count_app, H1, count_nil. lia. }
    pose proof (download_to_no_post w transparent_url ".png" "previz_foreground_" endpoint)
      as H3.
    unfold _download_image_as_png.
    destruct (download_to w transparent_url ".png" "previz_foreground_") as [t3 r3].
    simpl in *. unfold posts_to in *.
    change (p :: t1 ++ t2 ++ t3) with ([p] ++ t1 ++ t2 ++ t3).
    rewrite !count_app, H1, H3. lia. }
  split.
  - destruct (K BRIA_IMAGE_ENDPOINT) as (u & [-> | ->]); [reflexivity|].
    destruct (remove_background_posts w u) as [-> _]. reflexivity.
  - destruct (K BRIA_RMBG_ENDPOINT) as (u & [-> | ->]); [cbv; lia|].
    destruct (remove_background_posts w u) as [_ H].
    change (posts_to BRIA_RMBG_ENDPOINT
              [EvPost BRIA_IMAGE_ENDPOINT (image_payload (foreground_prompt description) "png")])
      with 0.
    exact H.
Qed.

(** A response whose status is neither COMPLETED nor FAILED, or that is no
    JSON object, or that never arrived: the loop goes on. *)
Lemma pending_background (o : http_outcome) :
  terminal o = false -> round_ctl on_status o = Continue.
Proof.
  unfold terminal, has_status, status_of, round_ctl, on_status.
  destruct o as [|[| | | | |d]]; try reflexivity. simpl.
  intros H. apply orb_false_iff in H as [-> ->]. reflexivity.
Qed.

Lemma pending_foreground (o : http_outcome) :
  terminal o = false -> round_ctl on_status_foreground o = Continue.
Proof.
  unfold terminal, has_status, status_of, round_ctl, on_status_foreground.
  destruct o as [|[| | | | |d]]; try reflexivity. simpl.
  intros H. apply orb_false_iff in H as [-> ->]. reflexivity.
Qed.

Lemma pending_rmbg (o : http_outcome) :
  terminal o = false -> round_ctl on_status_rmbg o = Continue.
Proof.
  unfold terminal, has_status, status_of, round_ctl, on_status_rmbg.
  destruct o as [|[| | | | |d]]; try reflexivity. simpl.
  intros H. apply orb_false_iff in H as [-> ->]. reflexivity.
Qed.

Lemma sleeps_rounds (status_url : pyval) (k : nat) (pre : list event) :
  sleeps pre = 0 -> sleeps (pre ++ rounds status_url k) = k.
Proof.
  intros H. unfold sleeps in *. rewrite count_app, H.
  apply (rounds_measures status_url k).
Qed.

(** C2.  The three polling loops (of [_make_api_call], of
    [_poll_for_image_result], of [_remove_background]) sleep one second
    before each poll and never poll more than 60, 60 and 30 times; the POST
    that precedes a loop is sent once, never again (a foreground generation
    sends one POST to the image endpoint and at most one to the
    background-removal endpoint).  When no polled response (of the 60, 60,
    30) has the status COMPLETED or FAILED, the loop runs to its ceiling and
    the function returns None. *)
Theorem polling_is_bounded (w : world) :
  (forall scene_data, within 60 (fst (_make_api_call w scene_data))) /\
  (forall data, within 60 (fst (_poll_for_image_result w data))) /\
  (forall image_url, within 30 (fst (_remove_background w image_url))) /\
  (forall description,
      posts_to BRIA_IMAGE_ENDPOINT (fst (_generate_foreground_sync w description)) = 1 /\
      posts_to BRIA_RMBG_ENDPOINT (fst (_generate_foreground_sync w description)) <= 1) /\
  (forall scene_data prompt data status_url,
      final_prompt w scene_data = Ret prompt ->
      http_post w BRIA_IMAGE_ENDPOINT (image_payload prompt "exr") = HttpJson data ->
      status_url_of data = Some status_url ->
      (forall i, i < 60 -> terminal (response w BRIA_IMAGE_ENDPOINT status_url i) = false) ->
      snd (_make_api_call w scene_data) = Ret None /\
      sleeps (fst (_make_api_call w scene_data)) = 60) /\
  (forall data status_url,
      status_url_of data = Some status_url ->
      (forall i, i < 60 -> terminal (response w BRIA_IMAGE_ENDPOINT status_url i) = false) ->
      snd (_poll_for_image_result w data) = Ret PNone /\
      sleeps (fst (_poll_for_image_result w data)) = 60) /\
  (forall image_url data status_url,
      preview image_url = Ret tt ->
      http_post w BRIA_RMBG_ENDPOINT [(KStr "image", image_url)] = HttpJson data ->
      status_url_of data = Some status_url ->
      (forall i, i < 30 -> terminal (response w BRIA_RMBG_ENDPOINT status_url i) = false) ->
      snd (_remove_background w image_url) = Ret PNone /\
      sleeps (fst (_remove_background w image_url)) = 30).
Proof.
  repeat apply conj.
  - intros scene_data.
    destruct (make_api_call_shape w scene_data) as (pre & u & k & tail & -> & H).
    now apply within_shape.
  - intros data.
    destruct (poll_for_image_result_shape w data) as (u & k & -> & H).
    apply within_shape; auto using quiet_nil.
  - intros image_url.
    destruct (remove_background_shape w image_url) as (pre & u & k & -> & P & H).
    apply within_shape; auto using quiet_nil;
      destruct P as [-> | ->]; try (cbv; lia); repeat split.
  - apply generate_foreground_sync_posts.
  - intros scene_data prompt data status_url HP HD HU HT.
    rewrite (make_api_call_async w scene_data prompt data status_url HP HD HU).
    rewrite loop_ctl_exhausted.
    + unfold mret. cbn [fst snd]. split; [reflexivity|]. rewrite app_nil_r.
      apply (sleeps_rounds status_url 60 [_]). reflexivity.
    + intros i Hi. apply pending_background, HT. lia.
  - intros data status_url HU HT.
    rewrite (poll_for_image_result_async w data status_url HU).
    rewrite loop_ctl_exhausted.
    + cbn [fst snd]. split; [reflexivity|].
      apply (sleeps_rounds status_url 60 []). reflexivity.
    + intros i Hi. apply pending_foreground, HT. lia.
  - intros image_url data status_url HV HD HU HT.
    rewrite (remove_background_async w image_url data status_url HV HD HU).
    rewrite loop_ctl_exhausted.
    + cbn [fst snd]. split; [reflexivity|].
      apply (sleeps_rounds status_url 30 [_]). reflexivity.
    + intros i Hi. apply pending_rmbg, HT. lia.
Qed.

(** *** The image URL of a COMPLETED response *)

Lemma on_status_completed (d : pydict) :
  has_status "COMPLETED" (HttpJson (PDict d)) = true ->
  absent_or_mapping (dict_lookup (KStr "result") d) = true ->
  on_status (PDict d) = selection d.
Proof.
  unfold has_status, status_of, on_status, selection, lookup2, result_has.
  simpl. intros ->. unfold dict_mem.
  destruct (dict_lookup (KStr "result") d) as [[| | | | |r]|]; simpl; try discriminate;
    intros _.
  - unfold dict_mem.
    destruct (dict_lookup (KStr "image_url") r) as [u|]; simpl; [reflexivity|].
    destruct (dict_lookup (KStr "urls") r) as [urls|]; simpl; [reflexivity|].
    destruct (dict_lookup (KStr "image_url") d); reflexivity.
  - destruct (dict_lookup (KStr "image_url") d); reflexivity.
Qed.

(** Only a COMPLETED response ends the loop of [_make_api_call] with a URL,
    and the loop never returns anything but None. *)
Lemma on_status_ends (status_data : pyval) (c : ctl pyval (option string)) :
  on_status status_data = Ret c ->
  match c with
  | Continue => True
  | Break _ => has_status "COMPLETED" (HttpJson status_data) = true
  | Return r => r = None
  end.
Proof.
  unfold on_status, has_status, status_of.
  destruct status_data as [| | | | |d]; try discriminate. simpl.
  destruct (eq_str _ "COMPLETED").
  - intros H. destruct c; auto.
    repeat match type of H with
           | context [rbind ?m _] => destruct m; simpl in H; try discriminate
           | context [match ?x with _ => _ end] => destruct x; simpl in H; try discriminate
           | context [if ?b then _ else _] => destruct b; simpl in H; try discriminate
           end; congruence.
  - destruct (eq_str _ "FAILED"); intros [= <-]; auto.
Qed.

Lemma background_round_ends (w : world) (status_url : pyval) (i : nat) :
  match background_round w status_url i with
  | Continue => True
  | Break _ => has_status "COMPLETED" (response w BRIA_IMAGE_ENDPOINT status_url i) = true
  | Return r => r = None
  end.
Proof.
  unfold background_round, round_ctl.
  destruct (response w BRIA_IMAGE_ENDPOINT status_url i) as [|sd]; [exact I|].
  destruct (on_status sd) as [c|] eqn:E; [|exact I].
  apply on_status_ends, E.
Qed.

(** A FAILED response ends the loop of [_make_api_call] with None. *)
Lemma failed_background (o : http_outcome) :
  has_status "FAILED" o = true -> round_ctl on_status o = Return None.
Proof.
  unfold has_status, status_of, round_ctl, on_status.
  destruct o as [|[| | | | |d]]; try discriminate. simpl.
  destruct (match dict_lookup (KStr "status") d with Some v => v | None => PNone end)
    as [| | | s | |]; try discriminate. simpl.
  intros H. apply String.eqb_eq in H. subst s. reflexivity.
Qed.

Lemma polls_rounds (status_url : pyval) (k : nat) (pre : list event) :
  polls pre = 0 -> polls (pre ++ rounds status_url k) = k.
Proof.
  intros H. unfold polls in *. rewrite count_app, H.
  apply (rounds_measures status_url k).
Qed.

(** [_make_api_call] when round [i] is the first that does not go on. *)
Lemma make_api_call_first_end (w : world) (scene_data : pydict) (prompt : string)
    (data status_url : pyval) (i : nat) :
  final_prompt w scene_data = Ret prompt ->
  http_post w BRIA_IMAGE_ENDPOINT (image_payload prompt "exr") = HttpJson data ->
  status_url_of data = Some status_url ->
  i < 60 ->
  (forall j, j < i -> background_round w status_url j = Continue) ->
  background_round w status_url i <> Continue ->
  _make_api_call w scene_data =
  let (tail, r) :=
    match background_round w status_url i with
    | Break image_url => fetch_image w image_url
    | Return r => mret r
    | Continue => mret None
    end in
  (EvPost BRIA_IMAGE_ENDPOINT (image_payload prompt "exr")
     :: rounds status_url (S i) ++ tail,
   match r with Ret p => Ret p | Raise _ => Ret None end).
Proof.
  intros HP HD HU Hi Hj Hc.
  rewrite (make_api_call_async w scene_data prompt data status_url HP HD HU).
  rewrite (loop_ctl_first 60 0 (background_round w status_url) i); try assumption; try lia.
  - now rewrite Nat.sub_0_r.
  - intros j Hjl. apply Hj. lia.
Qed.

(** A path comes back only after a COMPLETED response. *)
Lemma make_api_call_path_completed (w : world) (scene_data : pydict) (prompt : string)
    (data status_url : pyval) (path : string) :
  final_prompt w scene_data = Ret prompt ->
  http_post w BRIA_IMAGE_ENDPOINT (image_payload prompt "exr") = HttpJson data ->
  status_url_of data = Some status_url ->
  snd (_make_api_call w scene_data) = Ret (Some path) ->
  exists i, i < 60 /\ has_status "COMPLETED" (response w BRIA_IMAGE_ENDPOINT status_url i) = true.
Proof.
  intros HP HD HU.
  rewrite (make_api_call_async w scene_data prompt data status_url HP HD HU).
  destruct (loop_ctl 60 0 (background_round w status_url)) as [k c] eqn:L.
  destruct c as [|u|r].
  - discriminate.
  - intros _.
    destruct (loop_ctl_stops 60 0 _ k (Break u) L) as (i & Hi & Hc & _); [discriminate|].
    exists i. split; [lia|].
    pose proof (background_round_ends w status_url i) as E. now rewrite Hc in E.
  - destruct (loop_ctl_stops 60 0 _ k (Return r) L) as (i & Hi & Hc & _); [discriminate|].
    pose proof (background_round_ends w status_url i) as E. rewrite Hc in E. subst r.
    discriminate.
Qed.

(** The foreground poller and a COMPLETED response whose result is a
    mapping: the top-level image_url plays no part. *)
Lemma on_status_foreground_mapping (d r : pydict) :
  has_status "COMPLETED" (HttpJson (PDict d)) = true ->
  dict_lookup (KStr "result") d = Some (PDict r) ->
  on_status_foreground (PDict d) =
  (v <- py_or (get_item_or r "image_url" PNone) (first_url (PDict r)) ;; Ret (Return v)).
Proof.
  unfold has_status, status_of, on_status_foreground. simpl. intros -> HR.
  unfold dict_mem. rewrite HR. reflexivity.
Qed.

(** The polled responses, as the code treats them.  In the asynchronous
    branch of [_make_api_call]:
    - a path is returned only if one of the (at most 60) polled responses has
      the status COMPLETED;
    - for a COMPLETED response whose result is absent or a mapping, the URL
      is chosen by the presence of the keys ([selection]): result.image_url
      if result has that key, else result.urls[0] if result has the key urls,
      else the top-level image_url if that key is there, else the call
      returns None;
    - a response on which that evaluation raises (result.urls is empty, say)
      is treated like a failed poll, and so is any response whose status is
      neither COMPLETED nor FAILED: the loop goes on;
    - the first round that does not go on decides: after a FAILED response
      the call returns None without polling again; with a URL chosen, the call
      returns None if the URL is falsy and the outcome of the download
      otherwise.
    The foreground poller [_poll_for_image_result] chooses differently: when
    result is a mapping it returns result.image_url if that is truthy, else
    result.urls[0] if result.urls is truthy, else None, and never looks at the
    top-level image_url. *)
Theorem image_url_by_key_presence (w : world) :
  (forall scene_data prompt data status_url path,
      final_prompt w scene_data = Ret prompt ->
      http_post w BRIA_IMAGE_ENDPOINT (image_payload prompt "exr") = HttpJson data ->
      status_url_of data = Some status_url ->
      snd (_make_api_call w scene_data) = Ret (Some path) ->
      exists i, i < 60 /\ has_status "COMPLETED" (response w BRIA_IMAGE_ENDPOINT status_url i) = true) /\
  (forall d,
      has_status "COMPLETED" (HttpJson (PDict d)) = true ->
      absent_or_mapping (dict_lookup (KStr "result") d) = true ->
      on_status (PDict d) = selection d) /\
  (forall status_data e,
      on_status status_data = Raise e ->
      round_ctl on_status (HttpJson status_data) = Continue) /\
  (forall o, terminal o = false -> round_ctl on_status o = Continue) /\
  (forall scene_data prompt data status_url i,
      final_prompt w scene_data = Ret prompt ->
      http_post w BRIA_IMAGE_ENDPOINT (image_payload prompt "exr") = HttpJson data ->
      status_url_of data = Some status_url ->
      i < 60 ->
      (forall j, j < i -> background_round w status_url j = Continue) ->
      (has_status "FAILED" (response w BRIA_IMAGE_ENDPOINT status_url i) = true ->
       snd (_make_api_call w scene_data) = Ret None /\
       polls (fst (_make_api_call w scene_data)) = S i) /\
      (forall image_url,
          background_round w status_url i = Break image_url ->
          snd (_make_api_call w scene_data) =
          if truthy image_url then snd (_download_image w image_url) else Ret None)) /\
  (forall d r,
      has_status "COMPLETED" (HttpJson (PDict d)) = true ->
      dict_lookup (KStr "result") d = Some (PDict r) ->
      on_status_foreground (PDict d) =
      (v <- py_or (get_item_or r "image_url" PNone) (first_url (PDict r)) ;;
       Ret (Return v))).
Proof.
  repeat apply conj.
  - apply make_api_call_path_completed.
  - apply on_status_completed.
  - intros status_data e H. unfold round_ctl. now rewrite H.
  - apply pending_background.
  - intros scene_data prompt data status_url i HP HD HU Hi Hj. split.
    + intros HF. apply failed_background in HF. fold (background_round w status_url i) in HF.
      rewrite (make_api_call_first_end w scene_data prompt data status_url i HP HD HU Hi Hj)
        by (rewrite HF; discriminate).
      rewrite HF. unfold mret. cbn [fst snd]. split; [reflexivity|].
      rewrite app_nil_r. apply (polls_rounds status_url (S i) [_]). reflexivity.
    + intros image_url HB.
      rewrite (make_api_call_first_end w scene_data prompt data status_url i HP HD HU Hi Hj)
        by (rewrite HB; discriminate).
      rewrite HB. destruct (fetch_image_quiet w image_url) as (_ & _ & r & E).
      unfold fetch_image in *.
      destruct (truthy image_url).
      * destruct (_download_image w image_url) as [tail r']. simpl in *. now subst r'.
      * reflexivity.
  - apply on_status_foreground_mapping.
Qed.

(** *** Failures *)

(** Inside its loop [_make_api_call] returns nothing but None. *)
Lemma locate_image_url_returns_none (w : world) (data : pyval) (r : option string) :
  snd (locate_image_url w data) = Ret (Return r) -> r = None.
Proof.
  unfold locate_image_url. rewrite mbind_lift.
  destruct (py_in "status_url" data) as [[|]|]; try discriminate.
  - rewrite mbind_lift.
    destruct (py_getitem data "status_url") as [status_url|]; try discriminate.
    rewrite for_range_poll. fold (background_round w status_url).
    destruct (loop_ctl 60 0 (background_round w status_url)) as [k c] eqn:L.
    destruct c as [|u|r']; simpl; try discriminate.
    + now intros [= <-].
    + intros [= <-].
      destruct (loop_ctl_stops 60 0 _ k (Return r') L) as (i & _ & Hc & _); [discriminate|].
      pose proof (background_round_ends w status_url i) as E. now rewrite Hc in E.
  - rewrite mbind_lift. destruct (sync_image_url data); discriminate.
Qed.

(** The result of [_make_api_call], by what [locate_image_url] finds. *)
Lemma make_api_call_located (w : world) (scene_data : pydict) (prompt : string)
    (data : pyval) :
  final_prompt w scene_data = Ret prompt ->
  http_post w BRIA_IMAGE_ENDPOINT (image_payload prompt "exr") = HttpJson data ->
  snd (_make_api_call w scene_data) =
  match snd (locate_image_url w data) with
  | Ret (Break image_url) =>
      if truthy image_url then snd (_download_image w image_url) else Ret None
  | _ => Ret None
  end.
Proof.
  intros HP HD. unfold _make_api_call. rewrite mbind_lift, HP, snd_try_except.
  unfold make_api_call_try, post. simpl. rewrite HD. simpl.
  pose proof (locate_image_url_returns_none w data) as HR.
  destruct (locate_image_url w data) as [t [[|u|r]|e]]; simpl in *; try reflexivity.
  - destruct (fetch_image_quiet w u) as (_ & _ & r & E). unfold fetch_image in *.
    destruct (truthy u); [|reflexivity].
    destruct (_download_image w u) as [t' r']. simpl in *. now subst r'.
  - now rewrite (HR r eq_refl).
Qed.

(** The failures that become a default or null result of the failing
    operation:
    [get_scene_parameters] returns (a copy of) [DEFAULT_PARAMETERS] when the
    request raises, when the answer lacks result.structured_prompt, and when
    the structured prompt is a string that is no valid JSON;
    [_make_api_call], once its request is prepared, never raises, and returns
    None when the request raises and when no image URL is found in the
    answers (the value the code then tests with [if not image_url] is falsy,
    or the code never gets that far). *)
Theorem failures_become_defaults (w : world) :
  (forall text_prompt,
      let answer := http_post w SceneParser.BRIA_ENDPOINT
                      (SceneParser.prompt_payload text_prompt) in
      answer = HttpRaises \/
      (exists data, answer = HttpJson data /\ structured_prompt_of data = None) \/
      (exists data s, answer = HttpJson data /\
          structured_prompt_of data = Some (PStr s) /\ json_loads w s = None) ->
      snd (SceneParser.get_scene_parameters w text_prompt)
      = Ret SceneParser.DEFAULT_PARAMETERS) /\
  (forall scene_data prompt,
      final_prompt w scene_data = Ret prompt ->
      let answer := http_post w BRIA_IMAGE_ENDPOINT (image_payload prompt "exr") in
      (exists r, snd (_make_api_call w scene_data) = Ret r) /\
      (answer = HttpRaises -> snd (_make_api_call w scene_data) = Ret None) /\
      (forall data,
          answer = HttpJson data ->
          (forall image_url,
              snd (locate_image_url w data) = Ret (Break image_url) ->
              truthy image_url = false) ->
          snd (_make_api_call w scene_data) = Ret None)).
Proof.
  split.
  - intros text_prompt answer H. subst answer.
    rewrite get_scene_parameters_result.
    destruct H as [-> | [(data & -> & L) | (data & s & -> & P & J)]].
    + reflexivity.
    + destruct (SceneParser.structured_parameters w data) as [d|] eqn:E; [|reflexivity].
      now rewrite (structured_parameters_lacking w data d L E).
    + rewrite (structured_parameters_present w data (PStr s) P). simpl. now rewrite J.
  - intros scene_data prompt HP answer. subst answer. repeat apply conj.
    + eapply make_api_call_returns, HP.
    + intros HD. unfold _make_api_call. rewrite mbind_lift, HP, snd_try_except.
      unfold make_api_call_try, post. simpl. now rewrite HD.
    + intros data HD HU.
      rewrite (make_api_call_located w scene_data prompt data HP HD).
      destruct (snd (locate_image_url w data)) as [[|u|r]|e]; try reflexivity.
      now rewrite (HU u eq_refl).
Qed.

(** The case in which every request fails. *)
Lemma failures_become_defaults_witness :
  snd (SceneParser.get_scene_parameters Samples.offline "INT. WAREHOUSE - NIGHT")
  = Ret SceneParser.DEFAULT_PARAMETERS /\
  snd (_make_api_call Samples.offline SceneParser.DEFAULT_PARAMETERS) = Ret None.
Proof.
  destruct (failures_become_defaults Samples.offline) as [G A]. split.
  - apply G. left. reflexivity.
  - destruct (A SceneParser.DEFAULT_PARAMETERS "Lighting: Natural" eq_refl) as (_ & R & _).
    apply R. reflexivity.
Defined.

(** C3, where the code departs from it.  The prompt is built before the
    [try] of [_make_api_call], and a description that is no string makes the
    join raise there: the exception leaves [_make_api_call].  Such scene data
    come from the service: when the structured prompt it returns has a
    numeric short_description, Generate Scene finishes and starts its worker,
    [_make_api_call] raises in it, and the thread ends without a request
    sent and without its callback called. *)
Example make_api_call_raises_before_request :
  _make_api_call Samples.ready [(KStr "short_description", PNum 5)] = ([], Raise TypeError) /\
  Addon.result
    (Addon.generate_execute
       (Facts.answering (PDict [(KStr "short_description", PNum 5)])) Samples.scripted)
  = Ret Addon.FINISHED /\
  dict_lookup (KStr "short_description")
    (Addon._last_scene_data
       (Addon.after
          (Addon.generate_execute
             (Facts.answering (PDict [(KStr "short_description", PNum 5)])) Samples.scripted)))
  = Some (PNum 5) /\
  snd (_make_api_call
         (Facts.answering (PDict [(KStr "short_description", PNum 5)]))
         (Addon._last_scene_data
            (Addon.after
               (Addon.generate_execute
                  (Facts.answering (PDict [(KStr "short_description", PNum 5)]))
                  Samples.scripted))))
  = Raise TypeError /\
  map run
    (Addon.threads
       (Addon.generate_execute
          (Facts.answering (PDict [(KStr "short_description", PNum 5)])) Samples.scripted))
  = [[]].
Proof. repeat split. Qed.

(** C1, where the code departs from it.  First, in [_make_api_call]: the
    first polled response is COMPLETED and holds none of result.image_url,
    result.urls[0] and image_url, yet the call does not return None: the
    lookup of urls[0] in the empty list raises, the poll counts as a failed
    one, and the call polls again and returns the path downloaded from the
    second response.  Second, in [_poll_for_image_result]: a COMPLETED
    response holds only the top-level image_url, which the wording and
    [_make_api_call] would choose, and the poller returns None. *)
Lemma completed_without_url_polls_again :
  response Samples.completed_late BRIA_IMAGE_ENDPOINT Samples.status_url 0
  = HttpJson Samples.empty_urls /\
  has_status "COMPLETED" (HttpJson Samples.empty_urls) = true /\
  specified_url Samples.empty_urls = None /\
  snd (_make_api_call Samples.completed_late []) = Ret (Some "/tmp/previz_bg_k3x9.exr") /\
  has_status "COMPLETED" (HttpJson Samples.top_level_only) = true /\
  specified_url Samples.top_level_only = Some (PStr "https://cdn/b.png") /\
  on_status_foreground Samples.top_level_only = Ret (Return PNone).
Proof. repeat split; vm_compute; reflexivity. Qed.

(** The job fails at the third poll, and no fourth poll is made. *)
Lemma image_url_by_key_presence_witness :
  snd (_make_api_call Samples.failing []) = Ret None /\
  polls (fst (_make_api_call Samples.failing [])) = 3.
Proof.
  destruct (image_url_by_key_presence Samples.failing) as (_ & _ & _ & _ & H & _).
  destruct (H [] "A cinematic scene"
              (PDict [(KStr "status_url", Samples.status_url)]) Samples.status_url 2)
    as [F _]; try reflexivity.
  - lia.
  - intros j Hj. destruct j as [|[|j]]; [reflexivity | reflexivity | lia].
  - apply F. reflexivity.
Defined.

(** A world in which the hypotheses of C2 hold: the job stays pending. *)
Lemma polling_is_bounded_witness :
  snd (_make_api_call Samples.pending []) = Ret None /\
  sleeps (fst (_make_api_call Samples.pending [])) = 60.
Proof.
  destruct (polling_is_bounded Samples.pending) as (_ & _ & _ & _ & H & _).
  apply (H [] "A cinematic scene"
           (PDict [(KStr "status_url", Samples.status_url)]) Samples.status_url);
    try reflexivity.
Defined.

End PollingLoops.

(* ================================================================= *)
(** ** What the worker threads do *)

Section Workers.
Import Py Effects Cinematographer Spec.

Section Invariant.
Variable P : event -> Prop.

Lemma all_mret {A} (a : A) : all P (mret a).
Proof. constructor. Qed.

Lemma all_mraise {A} (e : exc) : all P (@mraise A e).
Proof. constructor. Qed.

Lemma all_lift {A} (r : res A) : all P (lift r).
Proof. constructor. Qed.

Lemma all_emit (e : event) : P e -> all P (emit e).
Proof. intros H. repeat constructor. exact H. Qed.

Lemma all_mbind {A B} (m : M A) (k : A -> M B) :
  all P m -> (forall a, all P (k a)) -> all P (mbind m k).
Proof.
  unfold all. destruct m as [t [a|e]]; simpl; intros Hm Hk; [|exact Hm].
  specialize (Hk a). destruct (k a) as [t' r]. simpl in *.
  apply Forall_app. now split.
Qed.

Lemma all_try_except {A} (m : M A) (h : exc -> M A) :
  all P m -> (forall e, all P (h e)) -> all P (try_except m h).
Proof.
  unfold all. destruct m as [t [a|e]]; simpl; intros Hm Hh; [exact Hm|].
  specialize (Hh e). destruct (h e) as [t' r]. simpl in *.
  apply Forall_app. now split.
Qed.

Lemma all_for_range {B R} (n lo : nat) (body : nat -> M (ctl B R)) :
  (forall i, all P (body i)) -> all P (for_range n lo body).
Proof.
  intros H. revert lo. induction n as [|n IH]; intros lo.
  - apply all_mret.
  - rewrite for_range_S. apply all_mbind; [apply H|].
    intros [| |]; [apply IH | apply all_mret | apply all_mret].
Qed.

End Invariant.

Local Ltac network_events :=
  repeat first
    [ apply all_mret | apply all_mraise | apply all_lift
    | apply all_emit; reflexivity
    | apply all_for_range; intros ?
    | apply all_mbind; [|intros ?]
    | apply all_try_except; [|intros ?]
    | match goal with
      | |- all _ (if ?b then _ else _) => destruct b
      | |- all _ (match ?x with _ => _ end) => destruct x
      end ].

Lemma download_to_network (w : world) (url : pyval) (suffix prefix : string) :
  all is_network (download_to w url suffix prefix).
Proof. unfold download_to. network_events. Qed.

Lemma poll_round_network {B R} (w : world) (endpoint : string) (status_url : pyval)
    (handle : pyval -> res (ctl B R)) (i : nat) :
  all is_network (poll_round w endpoint status_url handle i).
Proof. unfold poll_round, poll. network_events. Qed.

Lemma make_api_call_network (w : world) (scene_data : pydict) :
  all is_network (_make_api_call w scene_data).
Proof.
  unfold _make_api_call, make_api_call_try, locate_image_url, fetch_image,
    _download_image, post.
  network_events; try apply poll_round_network; apply download_to_network.
Qed.

Lemma poll_for_image_result_network (w : world) (data : pyval) :
  all is_network (_poll_for_image_result w data).
Proof.
  unfold _poll_for_image_result.
  network_events; apply poll_round_network.
Qed.

Lemma remove_background_network (w : world) (image_url : pyval) :
  all is_network (_remove_background w image_url).
Proof.
  unfold _remove_background, remove_background_try, post.
  network_events; apply poll_round_network.
Qed.

Lemma generate_foreground_sync_network (w : world) (description : string) :
  all is_network (_generate_foreground_sync w description).
Proof.
  unfold _generate_foreground_sync, _download_image_as_png, post.
  network_events;
    first [ apply poll_for_image_result_network | apply remove_background_network
          | apply download_to_network ].
Qed.

(** *** Traces of network events *)


Lemma direct_app (a b : list event) : direct (a ++ b) = direct a ++ direct b.
Proof.
  induction a as [|e a IH]; simpl; [reflexivity|].
  destruct e; simpl; now rewrite IH.
Qed.

Lemma never_removes_app (a b : list event) :
  never_removes (a ++ b) = never_removes a && never_removes b.
Proof. apply forallb_app. Qed.

Lemma network_trace (t : list event) :
  Forall is_network t -> timers t = [] /\ direct t = [] /\ never_removes t = true.
Proof.
  induction 1 as [|e t He _ (T & D & R)]; [repeat split|].
  destruct e; try discriminate He; simpl; now rewrite ?T, ?D, ?R.
Qed.

(** Without a removal, the files there were and the files created are there. *)
Lemma files_after_keeps (t : list event) (files : list string) (path : string) :
  never_removes t = true ->
  In path files \/ In (EvMkstemp path) t ->
  In path (files_after t files).
Proof.
  revert files. induction t as [|e t IH]; intros files HR H; simpl in *.
  - destruct H as [H|[]]. exact H.
  - apply andb_true_iff in HR as [He HR].
    destruct e; try discriminate He; apply IH; try exact HR;
      destruct H as [H|[H|H]]; try discriminate H; auto.
    + left. now right.
    + injection H as ->. left. now left.
Qed.

(** *** The threads *)

Lemma background_thread (w : world) (scene_data : pydict)
    (callback : option string -> list event) :
  daemon (generate_background_image w scene_data (Some callback)) = true /\
  run (generate_background_image w scene_data (Some callback)) =
  fst (_make_api_call w scene_data) ++
  match snd (_make_api_call w scene_data) with
  | Ret image_path => callback image_path
  | Raise _ => []
  end.
Proof.
  unfold generate_background_image. simpl. split; [reflexivity|].
  destruct (_make_api_call w scene_data) as [t [r|e]]; simpl; now rewrite ?app_nil_r.
Qed.

Lemma foreground_thread (w : world) (description : string)
    (callback : option string -> option exc -> list event) :
  daemon (generate_foreground_element w description (Some callback)) = true /\
  run (generate_foreground_element w description (Some callback)) =
  fst (_generate_foreground_sync w description) ++
  match snd (_generate_foreground_sync w description) with
  | Ret result_path => callback result_path None
  | Raise e => callback None (Some e)
  end.
Proof.
  unfold generate_foreground_element. simpl. split; [reflexivity|].
  now destruct (_generate_foreground_sync w description) as [t [r|e]].
Qed.

End Workers.

(* ================================================================= *)
(** ** The operators *)

Section Operators.
Import Py Effects Cinematographer Addon Spec.

Lemma get_scene_parameters_trace (w : world) (text_prompt : string) :
  fst (SceneParser.get_scene_parameters w text_prompt) =
  [EvPost SceneParser.BRIA_ENDPOINT (SceneParser.prompt_payload text_prompt)].
Proof.
  unfold SceneParser.get_scene_parameters. rewrite fst_try_except.
  unfold SceneParser.get_scene_parameters_try, post. simpl.
  destruct (http_post w _ _); reflexivity.
Qed.

Lemma refine_scene_parameters_trace (w : world) (existing_params : pydict)
    (request : string) :
  fst (SceneParser.refine_scene_parameters w existing_params request) =
  [EvPost SceneParser.BRIA_ENDPOINT
     (SceneParser.prompt_payload (SceneParser.combined_prompt w existing_params request))].
Proof.
  unfold SceneParser.refine_scene_parameters. rewrite fst_try_except.
  unfold SceneParser.refine_scene_parameters_try, post. simpl.
  destruct (http_post w _ _); reflexivity.
Qed.

(** [get_scene_parameters] always returns, and returns the defaults
    extended. *)
Lemma get_scene_parameters_returns (w : world) (text_prompt : string) :
  exists d,
    snd (SceneParser.get_scene_parameters w text_prompt) = Ret d /\
    extends SceneParser.DEFAULT_PARAMETERS d.
Proof.
  rewrite get_scene_parameters_result.
  destruct (http_post w _ _) as [|data].
  - eexists. split; [reflexivity | apply extends_refl].
  - destruct (SceneParser.structured_parameters w data) as [d|e] eqn:E.
    + exists d. split; [reflexivity|].
      destruct (structured_parameters_cases w data d E) as [->|[parsed U]].
      * apply extends_refl.
      * eapply dict_update_extends, U.
    + eexists. split; [reflexivity | apply extends_refl].
Qed.

(** [refine_scene_parameters] always returns, and returns its argument
    extended. *)
Lemma refine_scene_parameters_returns (w : world) (existing_params : pydict)
    (request : string) :
  exists r,
    snd (SceneParser.refine_scene_parameters w existing_params request) = Ret r /\
    extends existing_params (SceneParser.returned r).
Proof.
  rewrite refine_scene_parameters_result.
  destruct (http_post w _ _) as [|data].
  - eexists. split; [reflexivity | apply fallback_refinement_extends].
  - destruct (SceneParser.refined_parameters w existing_params request data) as [r|e] eqn:E.
    + exists r. split; [reflexivity|]. eapply refined_parameters_extends, E.
    + eexists. split; [reflexivity | apply fallback_refinement_extends].
Qed.

(** What an execution of Generate Scene comes to. *)
Lemma generate_execute_cases (w : world) (st : addon) :
  (generate_execute w st = done st (Ret CANCELLED) [] []) \/
  exists script scene_data,
    custom_script_text (props st) = Some script /\
    snd (SceneParser.get_scene_parameters w script) = Ret scene_data /\
    _last_scene_data (after (generate_execute w st)) = scene_data /\
    never_removes (trace (generate_execute w st)) = true /\
    ((exists e, result (generate_execute w st) = Raise e /\
                threads (generate_execute w st) = []) \/
     (result (generate_execute w st) = Ret FINISHED /\
      threads (generate_execute w st) =
        [generate_background_image w scene_data (Some generate_image_ready)])).
Proof.
  unfold generate_execute.
  destruct (custom_script_text (props st)) as [script|]; [|now left].
  destruct (blank script); [now left|]. right.
  destruct (get_scene_parameters_returns w script) as (d & Hd & _).
  pose proof (get_scene_parameters_trace w script) as Ht.
  exists script, d. split; [reflexivity|]. split; [exact Hd|].
  destruct (SceneParser.get_scene_parameters w script) as [t r]. simpl in Hd, Ht. subst r t.
  destruct (Director.apply_camera_settings d) as [cam|e]; simpl.
  - destruct (Director.apply_lighting_settings d) as [sun|e]; simpl.
    + repeat split. now right.
    + repeat split. left. now exists e.
  - repeat split. left. now exists e.
Qed.

(** What an execution of Refine Scene comes to. *)
Lemma refine_execute_cases (w : world) (st : addon) :
  (refine_execute w st = done st (Ret CANCELLED) [] []) \/
  exists r,
    _last_scene_data st <> [] /\
    snd (SceneParser.refine_scene_parameters w (_last_scene_data st)
           (previz_refine_text (props st))) = Ret r /\
    _last_scene_data (after (refine_execute w st)) = SceneParser.returned r /\
    never_removes (trace (refine_execute w st)) = true /\
    ((exists e, result (refine_execute w st) = Raise e /\
                threads (refine_execute w st) = []) \/
     (result (refine_execute w st) = Ret FINISHED /\
      threads (refine_execute w st) =
        [generate_background_image w (SceneParser.returned r) (Some refine_image_ready)])).
Proof.
  unfold refine_execute.
  destruct (_last_scene_data st) as [|kv d0] eqn:HL; [now left|].
  destruct (blank (previz_refine_text (props st))); [now left|]. right.
  destruct (refine_scene_parameters_returns w (kv :: d0) (previz_refine_text (props st)))
    as (r & Hr & _).
  pose proof (refine_scene_parameters_trace w (kv :: d0) (previz_refine_text (props st)))
    as Ht.
  exists r. split; [discriminate|]. split; [exact Hr|].
  destruct (SceneParser.refine_scene_parameters w (kv :: d0) _) as [t r']. simpl in Hr, Ht.
  subst r' t.
  destruct (Director.apply_camera_settings (SceneParser.returned r)) as [cam|e]; simpl.
  - destruct (Director.apply_lighting_settings (SceneParser.returned r)) as [sun|e]; simpl.
    + repeat split. now right.
    + repeat split. left. now exists e.
  - repeat split. left. now exists e.
Qed.

(** An execution of Generate Scene with a script that is not blank is not
    cancelled. *)
Lemma generate_execute_runs (w : world) (st : addon) (script : string) :
  custom_script_text (props st) = Some script ->
  blank script = false ->
  result (generate_execute w st) <> Ret CANCELLED.
Proof.
  intros S B. unfold generate_execute. rewrite S, B.
  destruct (SceneParser.get_scene_parameters w script) as [t [d|e]]; [|discriminate].
  destruct (Director.apply_camera_settings d); [|discriminate].
  destruct (Director.apply_lighting_settings d); discriminate.
Qed.

(** An execution of Refine Scene with scene data and a request that is not
    blank is not cancelled. *)
Lemma refine_execute_runs (w : world) (st : addon) :
  _last_scene_data st <> [] ->
  blank (previz_refine_text (props st)) = false ->
  result (refine_execute w st) <> Ret CANCELLED.
Proof.
  intros D B. unfold refine_execute.
  destruct (_last_scene_data st) as [|kv d0]; [contradiction|]. rewrite B.
  destruct (SceneParser.refine_scene_parameters w (kv :: d0) _) as [t [r|e]]; [|discriminate].
  destruct (Director.apply_camera_settings _); [|discriminate].
  destruct (Director.apply_lighting_settings _); discriminate.
Qed.

(** C5.  The module-level [_last_scene_data] is empty at first.  A Generate
    Scene that is not cancelled, whether it finishes or raises while the
    settings are applied, leaves in it the scene data just parsed, and it is
    not cancelled when the script is ASCII text that is not blank; a Refine
    Scene that is not cancelled leaves in it the refined data, and it is not
    cancelled when there are scene data and the request is ASCII text that is
    not blank.  A Refine Scene started while it is empty is cancelled and
    changes nothing; no other operator, no edit of the scene's properties
    and no cancelled execution changes it. *)
Theorem last_scene_data_is_most_recent (w : world) :
  _last_scene_data initial = [] /\
  (forall st,
      result (generate_execute w st) <> Ret CANCELLED ->
      exists script,
        custom_script_text (props st) = Some script /\
        snd (SceneParser.get_scene_parameters w script)
        = Ret (_last_scene_data (after (generate_execute w st)))) /\
  (forall st script,
      custom_script_text (props st) = Some script ->
      isascii script = true -> blank script = false ->
      result (generate_execute w st) <> Ret CANCELLED) /\
  (forall st,
      result (refine_execute w st) <> Ret CANCELLED ->
      exists r,
        snd (SceneParser.refine_scene_parameters w (_last_scene_data st)
               (previz_refine_text (props st))) = Ret r /\
        _last_scene_data (after (refine_execute w st)) = SceneParser.returned r) /\
  (forall st,
      _last_scene_data st <> [] ->
      isascii (previz_refine_text (props st)) = true ->
      blank (previz_refine_text (props st)) = false ->
      result (refine_execute w st) <> Ret CANCELLED) /\
  (forall st,
      _last_scene_data st = [] ->
      result (refine_execute w st) = Ret CANCELLED /\ after (refine_execute w st) = st) /\
  (forall a st,
      a <> GenerateScene -> a <> RefineScene ->
      _last_scene_data (after (step w a st)) = _last_scene_data st) /\
  (forall a st,
      result (step w a st) = Ret CANCELLED ->
      _last_scene_data (after (step w a st)) = _last_scene_data st).
Proof.
  repeat apply conj.
  - reflexivity.
  - intros st H.
    destruct (generate_execute_cases w st) as [E | (script & d & HS & HD & HL & _)].
    + rewrite E in H. now contradiction H.
    + exists script. now rewrite HL.
  - intros st script S _ B. exact (generate_execute_runs w st script S B).
  - intros st H.
    destruct (refine_execute_cases w st) as [E | (r & _ & HR & HL & _)].
    + rewrite E in H. now contradiction H.
    + now exists r.
  - intros st D _ B. exact (refine_execute_runs w st D B).
  - intros st H. unfold refine_execute. now rewrite H.
  - intros a st HG HR. destruct a; simpl; try contradiction.
    + unfold paste_execute. now destruct (String.eqb clipboard "").
    + unfold export_execute. now destruct (write_json w _).
    + unfold add_foreground_execute. now destruct (String.eqb _ "").
    + reflexivity.
  - intros a st H. destruct a; simpl in *.
    + unfold paste_execute in *. now destruct (String.eqb clipboard "").
    + destruct (generate_execute_cases w st) as [E | (s' & d & _ & _ & _ & _ & R)].
      * now rewrite E.
      * destruct R as [(e & R & _) | (R & _)]; rewrite R in H; discriminate.
    + destruct (refine_execute_cases w st) as [E | (r & _ & _ & _ & _ & R)].
      * now rewrite E.
      * destruct R as [(e & R & _) | (R & _)]; rewrite R in H; discriminate.
    + unfold export_execute. now destruct (write_json w _).
    + unfold add_foreground_execute. now destruct (String.eqb _ "").
    + reflexivity.
Qed.

(** With the job completed at once, Generate Scene leaves the defaults, and
    the Refine Scene that follows it leaves what the refinement returned. *)
Lemma last_scene_data_is_most_recent_witness :
  _last_scene_data (after (generate_execute Samples.ready Samples.scripted))
  = SceneParser.DEFAULT_PARAMETERS /\
  exists r,
    snd (SceneParser.refine_scene_parameters Samples.ready SceneParser.DEFAULT_PARAMETERS
           "make the lights warmer") = Ret r /\
    _last_scene_data
      (after (refine_execute Samples.ready
                (after (generate_execute Samples.ready Samples.scripted))))
    = SceneParser.returned r.
Proof.
  destruct (last_scene_data_is_most_recent Samples.ready) as (_ & G & GR & R & RR & _).
  split.
  - destruct (G Samples.scripted (GR Samples.scripted _ eq_refl eq_refl eq_refl))
      as (script & HS & HD).
    cbv in HS. injection HS as <-.
    apply Ret_inj. rewrite <- HD. reflexivity.
  - apply (R (after (generate_execute Samples.ready Samples.scripted))).
    apply RR; [discriminate | reflexivity | reflexivity].
Defined.

(** C5, an execution that does not finish.  When the service answers with a
    numeric camera angle, Generate Scene raises while the camera settings
    are applied, and the scene data, empty before, have been replaced. *)
Lemma unfinished_generate_replaces_the_data :
  result (generate_execute (Facts.answering (PDict [(KStr "camera_angle", PNum 5)]))
            Samples.scripted) = Raise AttributeError /\
  _last_scene_data Samples.scripted = [] /\
  dict_lookup (KStr "camera_angle")
    (_last_scene_data
       (after (generate_execute (Facts.answering (PDict [(KStr "camera_angle", PNum 5)]))
                 Samples.scripted))) = Some (PNum 5).
Proof. repeat split. Qed.

(** *** Threads and timers *)








(** *** Temporary files *)

Lemma image_ready_never_removes (path : option string) :
  never_removes (generate_image_ready path) = true /\
  never_removes (refine_image_ready path) = true.
Proof.
  unfold generate_image_ready, refine_image_ready.
  now destruct (some_path path).
Qed.

Lemma on_complete_never_removes (w : world) (path : option string) (error : option exc) :
  never_removes (on_complete w path error) = true.
Proof.
  unfold on_complete.
  destruct error as [e|]; [destruct (negb _); [reflexivity|]|]; now destruct (some_path path).
Qed.

Lemma background_thread_never_removes (w : world) (scene_data : pydict)
    (callback : option string -> list event) :
  (forall path, never_removes (callback path) = true) ->
  never_removes (run (generate_background_image w scene_data (Some callback))) = true.
Proof.
  intros H. destruct (background_thread w scene_data callback) as [_ ->].
  rewrite never_removes_app.
  destruct (network_trace _ (make_api_call_network w scene_data)) as (_ & _ & ->).
  destruct (snd (_make_api_call w scene_data)); [apply H | reflexivity].
Qed.

Lemma foreground_thread_never_removes (w : world) (description : string) :
  never_removes (run (generate_foreground_element w description (Some (on_complete w))))
  = true.
Proof.
  destruct (foreground_thread w description (on_complete w)) as [_ ->].
  rewrite never_removes_app.
  destruct (network_trace _ (generate_foreground_sync_network w description)) as (_ & _ & ->).
  destruct (snd (_generate_foreground_sync w description)); apply on_complete_never_removes.
Qed.

(** C4, as the code has it.  Nothing the plugin does removes a file: no
    operator and no worker thread has a removal among its events (and a timer
    only acts on the host's scene).  So every temporary file a download
    helper creates is still there when the thread that created it ends,
    whatever was done with it. *)
Theorem temporary_files_persist (w : world) (a : action) (st : addon) :
  never_removes (trace (step w a st)) = true /\
  forall th,
    In th (threads (step w a st)) ->
    never_removes (run th) = true /\
    forall path files,
      In (EvMkstemp path) (run th) -> In path (files_after (run th) files).
Proof.
  assert (K : forall th, never_removes (run th) = true ->
            never_removes (run th) = true /\
            forall path files,
              In (EvMkstemp path) (run th) -> In path (files_after (run th) files)).
  { intros th H. split; [exact H|]. intros path files HI.
    apply files_after_keeps; [exact H | now right]. }
  destruct a; simpl.
  - unfold paste_execute. destruct (String.eqb clipboard ""); simpl; now split.
  - destruct (generate_execute_cases w st) as [E | (script & d & _ & _ & _ & HR & R)].
    { rewrite E. simpl. now split. }
    split; [exact HR|]. intros th HI.
    destruct R as [(e & _ & T) | (_ & T)]; rewrite T in HI; [destruct HI|].
    destruct HI as [<-|[]]. apply K, background_thread_never_removes.
    apply image_ready_never_removes.
  - destruct (refine_execute_cases w st) as [E | (r & _ & _ & _ & HR & R)].
    { rewrite E. simpl. now split. }
    split; [exact HR|]. intros th HI.
    destruct R as [(e & _ & T) | (_ & T)]; rewrite T in HI; [destruct HI|].
    destruct HI as [<-|[]]. apply K, background_thread_never_removes.
    apply image_ready_never_removes.
  - unfold export_execute. destruct (write_json w _); simpl; now split.
  - unfold add_foreground_execute. destruct (String.eqb _ ""); simpl; [now split|].
    split; [reflexivity|]. intros th [<-|[]]. apply K, foreground_thread_never_removes.
  - now split.
Qed.

(** C4, as worded, fails: the background image and the foreground image are
    downloaded into temporary files, each is loaded by the timer its worker
    registers, and each file is still there afterwards. *)
Lemma consumed_files_are_still_there :
  exists bg fg,
    threads (generate_execute Samples.ready Samples.scripted) = [bg] /\
    In (EvMkstemp "/tmp/previz_bg_k3x9.exr") (run bg) /\
    consumed "/tmp/previz_bg_k3x9.exr" (run bg) /\
    In "/tmp/previz_bg_k3x9.exr" (files_after (run bg) []) /\
    threads (add_foreground_execute Samples.ready Samples.scripted) = [fg] /\
    In (EvMkstemp "/tmp/previz_foreground_k3x9.png") (run fg) /\
    consumed "/tmp/previz_foreground_k3x9.png" (run fg) /\
    In "/tmp/previz_foreground_k3x9.png" (files_after (run fg) []).
Proof.
  do 2 eexists. repeat split.
  - vm_compute. tauto.
  - eexists _, _. split; [left; reflexivity|]. left. vm_compute. tauto.
  - vm_compute. tauto.
  - vm_compute. tauto.
  - eexists _, _. split; [left; reflexivity|]. right. vm_compute. tauto.
  - vm_compute. tauto.
Qed.

(** The files of C4 in a world where the job is completed at once. *)
Lemma temporary_files_persist_witness :
  In "/tmp/previz_bg_k3x9.exr"
     (files_after
        (run (generate_background_image Samples.ready SceneParser.DEFAULT_PARAMETERS
                (Some generate_image_ready))) []).
Proof.
  destruct (temporary_files_persist Samples.ready GenerateScene Samples.scripted) as (_ & T).
  destruct (T (generate_background_image Samples.ready SceneParser.DEFAULT_PARAMETERS
                 (Some generate_image_ready))) as (_ & F).
  - left. reflexivity.
  - apply F. vm_compute. tauto.
Defined.

End Operators.

(* ================================================================= *)
(** ** The export *)

Section ExportPath.
Import Py Effects Addon Spec.

Lemma append_assoc (a b c : string) : ((a ++ b) ++ c = a ++ (b ++ c))%string.
Proof. induction a as [|x a IH]; simpl; [reflexivity | now rewrite IH]. Qed.

Lemma lower_app (a b : string) : lower (a ++ b) = (lower a ++ lower b)%string.
Proof. induction a as [|c a IH]; simpl; [reflexivity | now rewrite IH]. Qed.

Lemma endswith_app (a b : string) : endswith (a ++ b) b = true.
Proof.
  induction a as [|c a IH]; simpl.
  - destruct b; simpl; [reflexivity|]. now rewrite Ascii.eqb_refl, String.eqb_refl.
  - rewrite IH. apply orb_true_r.
Qed.

(** C10.  Whatever path the user chose, Export to Set appends ".json" when
    the lowercased path does not end with ".json" and leaves the path alone
    when it does; the resulting path ends with ".json" once lowercased.  The
    operator opens that path for writing unless [open] itself raises, and it
    finishes exactly when the file has been written: then that path, and no
    other, has been written to. *)
Theorem export_path_ends_with_json (w : world) (filepath : string) (st : addon) :
  (endswith (lower filepath) ".json" = false ->
   export_filepath filepath = (filepath ++ ".json")%string) /\
  (endswith (lower filepath) ".json" = true -> export_filepath filepath = filepath) /\
  endswith (lower (export_filepath filepath)) ".json" = true /\
  (forall path,
      In (EvWrite path) (trace (export_execute w filepath st)) ->
      path = export_filepath filepath /\ endswith (lower path) ".json" = true) /\
  (write_json w (export_filepath filepath) <> OpenRaises ->
   trace (export_execute w filepath st) = [EvWrite (export_filepath filepath)]) /\
  (write_json w (export_filepath filepath) = OpenRaises ->
   export_execute w filepath st = done st (Ret CANCELLED) [] []) /\
  (result (export_execute w filepath st) = Ret FINISHED <->
   write_json w (export_filepath filepath) = Written) /\
  (result (export_execute w filepath st) = Ret FINISHED ->
   export_execute w filepath st
   = done st (Ret FINISHED) [EvWrite (export_filepath filepath)] []).
Proof.
  assert (E : endswith (lower (export_filepath filepath)) ".json" = true).
  { unfold export_filepath.
    destruct (endswith (lower filepath) ".json") eqn:H; simpl; [exact H|].
    rewrite lower_app. apply endswith_app. }
  repeat apply conj.
  - intros H. unfold export_filepath. now rewrite H.
  - intros H. unfold export_filepath. now rewrite H.
  - exact E.
  - unfold export_execute. intros path.
    destruct (write_json w (export_filepath filepath)); simpl; try tauto;
      intros [[= <-]|[]]; now split.
  - unfold export_execute.
    destruct (write_json w (export_filepath filepath)); simpl; [congruence | reflexivity..].
  - unfold export_execute. now intros ->.
  - unfold export_execute.
    destruct (write_json w (export_filepath filepath)); simpl; discriminate || reflexivity.
  - unfold export_execute.
    destruct (write_json w (export_filepath filepath)); simpl; discriminate || reflexivity.
  - unfold export_execute.
    destruct (write_json w (export_filepath filepath)); simpl; discriminate || reflexivity.
Qed.

(** The path proposed by [invoke] is written to as it is. *)
Lemma proposed_path_is_kept (timestamp : string) :
  export_filepath (fst (export_invoke timestamp)) = fst (export_invoke timestamp).
Proof.
  unfold export_invoke. cbn [fst].
  rewrite <- append_assoc. unfold export_filepath.
  now rewrite lower_app, endswith_app.
Qed.

(** Two paths of C10: an upper-case extension is kept, a missing one added,
    and the file is written under the resulting name. *)
Lemma export_path_ends_with_json_witness :
  export_filepath "shots/take1.JSON" = "shots/take1.JSON" /\
  export_filepath "shots/take1" = "shots/take1.json" /\
  export_execute Samples.ready "shots/take1" Samples.scripted
  = done Samples.scripted (Ret FINISHED) [EvWrite "shots/take1.json"] [].
Proof.
  repeat apply conj.
  - destruct (export_path_ends_with_json Samples.ready "shots/take1.JSON" Samples.scripted)
      as (_ & K & _).
    apply K. reflexivity.
  - destruct (export_path_ends_with_json Samples.ready "shots/take1" Samples.scripted)
      as (A & _).
    apply A. reflexivity.
  - destruct (export_path_ends_with_json Samples.ready "shots/take1" Samples.scripted)
      as (_ & _ & _ & _ & _ & _ & _ & F).
    apply F. reflexivity.
Defined.

End ExportPath.

(* ================================================================= *)
(** ** The sun data *)

Section SunData.
Import SunExport.
Local Open Scope R_scope.

Lemma direction_squares (e : euler) :
  direction_x e * direction_x e + direction_y e * direction_y e
  + direction_z e * direction_z e = 1.
Proof.
  unfold direction_x, direction_y, direction_z.
  pose proof (sin2_cos2 (x e)) as HX. pose proof (sin2_cos2 (z e)) as HZ.
  unfold Rsqr in HX, HZ.
  replace (- sin (z e) * cos (x e) * (- sin (z e) * cos (x e))
           + cos (z e) * cos (x e) * (cos (z e) * cos (x e))
           + - sin (x e) * - sin (x e))
    with ((sin (z e) * sin (z e) + cos (z e) * cos (z e)) * (cos (x e) * cos (x e))
          + sin (x e) * sin (x e)) by ring.
  rewrite HZ. lra.
Qed.

(** Rounding half up is a rounding to the nearest. *)
Lemma round_half_up_nearest : nearest round_half_up.
Proof.
  intros v n. unfold round_half_up.
  set (p := 10 ^ n). assert (P : 0 < p) by (apply pow_lt; lra).
  exists (up (v * p - / 2)). split; [reflexivity|].
  destruct (archimed (v * p - / 2)) as [A B].
  set (k := IZR (up (v * p - / 2))) in *.
  replace (k / p - v) with ((k - v * p) / p) by (field; lra).
  unfold Rdiv. rewrite Rabs_mult, (Rabs_pos_eq (/ p)) by (left; now apply Rinv_0_lt_compat).
  apply Rmult_le_compat_r; [left; now apply Rinv_0_lt_compat|].
  apply Rabs_le. lra.
Qed.

Lemma Rabs_bounds (a b : R) : Rabs a <= b -> - b <= a <= b.
Proof. unfold Rabs. destruct (Rcase_abs a); lra. Qed.

(** A unit vector whose components are moved by at most half of 10^-4. *)
Lemma rounded_unit_vector (a b c a' b' c' : R) :
  a * a + b * b + c * c = 1 ->
  Rabs (a' - a) <= / 2 / 10 ^ 4 ->
  Rabs (b' - b) <= / 2 / 10 ^ 4 ->
  Rabs (c' - c) <= / 2 / 10 ^ 4 ->
  1 - 2 / 10 ^ 4 <= sqrt (a' * a' + b' * b' + c' * c') <= 1 + 2 / 10 ^ 4.
Proof.
  intros U A B C.
  set (eps := / 2 / 10 ^ 4) in *.
  assert (E : eps = 5 / 100000) by (unfold eps; simpl; field).
  apply Rabs_bounds in A, B, C. 
  assert (a <= 1 /\ -1 <= a) by (split; nra).
  assert (b <= 1 /\ -1 <= b) by (split; nra).
  assert (c <= 1 /\ -1 <= c) by (split; nra).
  set (da := a' - a) in *. set (db := b' - b) in *. set (dc := c' - c) in *.
  assert (Sa : a' = a + da) by (unfold da; ring).
  assert (Sb : b' = b + db) by (unfold db; ring).
  assert (Sc : c' = c + dc) by (unfold dc; ring).
  rewrite Sa, Sb, Sc.
  assert (Pa : - eps <= a * da <= eps) by (split; nra).
  assert (Pb : - eps <= b * db <= eps) by (split; nra).
  assert (Pc : - eps <= c * dc <= eps) by (split; nra).
  assert (Qa : 0 <= da * da <= eps * eps) by (split; nra).
  assert (Qb : 0 <= db * db <= eps * eps) by (split; nra).
  assert (Qc : 0 <= dc * dc <= eps * eps) by (split; nra).
  set (S := (a + da) * (a + da) + (b + db) * (b + db) + (c + dc) * (c + dc)).
  assert (HS : S = 1 + 2 * (a * da + b * db + c * dc) + (da * da + db * db + dc * dc))
    by (unfold S; nra).
  assert (L : (1 - 2 / 10 ^ 4) * (1 - 2 / 10 ^ 4) <= S).
  { rewrite HS. simpl. nra. }
  assert (Up : S <= (1 + 2 / 10 ^ 4) * (1 + 2 / 10 ^ 4)).
  { rewrite HS. simpl. nra. }
  split.
  - rewrite <- (sqrt_square (1 - 2 / 10 ^ 4)) by (simpl; lra).
    apply sqrt_le_1; [simpl; nra | nra | exact L].
  - rewrite <- (sqrt_square (1 + 2 / 10 ^ 4)) by (simpl; lra).
    apply sqrt_le_1; [nra | simpl; nra | exact Up].
Qed.

Lemma inv_sqrt2_bounds : 70705 / 100000 < 1 / sqrt 2 < 70715 / 100000.
Proof.
  assert (P : 0 < sqrt 2) by (apply sqrt_lt_R0; lra).
  assert (Q : sqrt 2 * sqrt 2 = 2) by (apply sqrt_sqrt; lra).
  set (r := 1 / sqrt 2).
  assert (R0 : 0 < r) by (unfold r; apply Rdiv_lt_0_compat; lra).
  assert (R2 : r * r = 1 / 2) 
    by (unfold r; replace (1 / sqrt 2 * (1 / sqrt 2)) with (1 / (sqrt 2 * sqrt 2))
          by (field; lra); now rewrite Q).
  split; nra.
Qed.

Lemma round_half_up_at (v : R) (n : nat) (k : Z) :
  IZR k - / 2 <= v * 10 ^ n < IZR k + / 2 ->
  round_half_up v n = IZR k / 10 ^ n.
Proof.
  intros [L U]. unfold round_half_up.
  set (t := v * 10 ^ n) in *.
  replace (up (t - / 2)) with k; [reflexivity|].
  apply tech_up; lra.
Qed.

(** C6.  For the first sun light of the scene, the export derives, from its
    Euler rotation [(x, y, z)] in radians: the elevation 90 minus x in
    degrees and the azimuth z in degrees (each rounded to 2 digits), the
    three angles in degrees, and as direction vector the components of
    (-sin z cos x, cos z cos x, -sin x), each rounded to 4 digits.  Over the
    real numbers the vector before rounding has Euclidean norm 1 for every x
    and z and does not depend on y; the exported vector, whichever way
    [round] breaks a tie, has a norm between 0.9998 and 1.0002. *)
Theorem sun_direction_is_normalized (round : R -> nat -> R)
    (objects : list scene_object) (sun_light : scene_object) :
  find is_sun objects = Some sun_light ->
  let e := rotation_euler sun_light in
  let direction := (- sin (z e) * cos (x e), cos (z e) * cos (x e), - sin (x e)) in
  let exported := (round (- sin (z e) * cos (x e)) 4%nat,
                   round (cos (z e) * cos (x e)) 4%nat,
                   round (- sin (x e)) 4%nat) in
  _get_sun_data round objects =
    SunData (name sun_light)
            (round (90 - x e * (180 / PI)) 2%nat) (round (z e * (180 / PI)) 2%nat)
            (round (x e * (180 / PI)) 2%nat, round (y e * (180 / PI)) 2%nat,
             round (z e * (180 / PI)) 2%nat)
            exported
            (round (data_angle sun_light * (180 / PI)) 2%nat)
            (round (data_energy sun_light) 2%nat) /\
  exported_direction (_get_sun_data round objects) = Some exported /\
  norm direction = 1 /\
  (forall e', x e' = x e -> z e' = z e ->
              (direction_x e', direction_y e', direction_z e') = direction) /\
  (nearest round -> 1 - 2 / 10 ^ 4 <= norm exported <= 1 + 2 / 10 ^ 4).
Proof.
  intros H e direction exported.
  assert (G : _get_sun_data round objects =
    SunData (name sun_light)
            (round (90 - x e * (180 / PI)) 2%nat) (round (z e * (180 / PI)) 2%nat)
            (round (x e * (180 / PI)) 2%nat, round (y e * (180 / PI)) 2%nat,
             round (z e * (180 / PI)) 2%nat)
            exported
            (round (data_angle sun_light * (180 / PI)) 2%nat)
            (round (data_energy sun_light) 2%nat)).
  { unfold _get_sun_data. rewrite H. reflexivity. }
  repeat apply conj.
  - exact G.
  - now rewrite G.
  - unfold direction, norm.
    change (sqrt (direction_x e * direction_x e + direction_y e * direction_y e
                  + direction_z e * direction_z e) = 1).
    rewrite direction_squares. apply sqrt_1.
  - intros e' HX HZ. unfold direction, direction_x, direction_y, direction_z.
    now rewrite HX, HZ.
  - intros N. unfold exported, norm.
    destruct (N (- sin (z e) * cos (x e)) 4%nat) as (_ & _ & A).
    destruct (N (cos (z e) * cos (x e)) 4%nat) as (_ & _ & B).
    destruct (N (- sin (x e)) 4%nat) as (_ & _ & C).
    apply (rounded_unit_vector _ _ _ _ _ _ (direction_squares e) A B C).
Qed.

(** The sun of the sample scene, rounded half up. *)
Lemma sun_direction_is_normalized_witness :
  1 - 2 / 10 ^ 4
  <= norm (round_half_up (- sin (PI / 2) * cos (PI / 4)) 4,
           round_half_up (cos (PI / 2) * cos (PI / 4)) 4,
           round_half_up (- sin (PI / 4)) 4)
  <= 1 + 2 / 10 ^ 4.
Proof.
  destruct (sun_direction_is_normalized round_half_up Samples.objects Samples.sun eq_refl)
    as (_ & _ & _ & _ & N).
  exact (N round_half_up_nearest).
Defined.

(** C6, the exported vector.  With the sun of the sample scene, turned by 45
    and 90 degrees about x and z, the exported direction is
    (-0.7071, 0, -0.7071), whose norm is not 1. *)
Lemma exported_direction_is_rounded :
  exported_direction (_get_sun_data round_half_up Samples.objects)
  = Some (- (7071 / 10000), 0, - (7071 / 10000)) /\
  norm (- (7071 / 10000), 0, - (7071 / 10000)) <> 1.
Proof.
  pose proof inv_sqrt2_bounds as [L U].
  split.
  - unfold _get_sun_data, exported_direction. simpl find. cbv iota beta.
    unfold direction_x, direction_y, direction_z. simpl.
    rewrite sin_PI2, cos_PI2, sin_PI4, cos_PI4.
    rewrite (round_half_up_at _ 4 (-7071)), (round_half_up_at _ 4 0),
      (round_half_up_at _ 4 (-7071)); simpl; try lra.
    do 3 f_equal; field.
  - unfold norm. intros N.
    assert (S : 0 <= - (7071 / 10000) * - (7071 / 10000) + 0 * 0 + - (7071 / 10000) * - (7071 / 10000)) by lra.
    pose proof (sqrt_sqrt _ S) as Q. rewrite N in Q. lra.
Qed.

End SunData.

(* ================================================================= *)
(** ** Keys, lookup and assignment *)

Section Keys.
Import Py Facts.

Lemma Qeq_bool_sym (a b : Q) : Qeq_bool a b = Qeq_bool b a.
Proof.
  destruct (Qeq_bool a b) eqn:E, (Qeq_bool b a) eqn:F; try reflexivity.
  - apply Qeq_bool_iff, Qeq_sym, Qeq_bool_iff in E. congruence.
  - apply Qeq_bool_iff, Qeq_sym, Qeq_bool_iff in F. congruence.
Qed.

Lemma Qeq_bool_trans' (a b c : Q) :
  Qeq_bool a b = true -> Qeq_bool b c = true -> Qeq_bool a c = true.
Proof.
  intros H1 H2. apply Qeq_bool_iff in H1, H2. apply Qeq_bool_iff.
  now rewrite H1.
Qed.

(** Either both keys are numbers, or neither is and they are compared as
    [None] or as strings. *)
Lemma key_eqb_num (a b : pykey) :
  key_eqb a b =
  match key_num a, key_num b with
  | Some x, Some y => Qeq_bool x y
  | None, None =>
      match a, b with
      | KNone, KNone => true
      | KStr s, KStr t => String.eqb s t
      | _, _ => false
      end
  | _, _ => false
  end.
Proof. destruct a as [|[]| |], b as [|[]| |]; reflexivity. Qed.

Lemma key_eqb_refl (a : pykey) : key_eqb a a = true.
Proof.
  destruct a as [|[]|q|s]; try reflexivity; simpl.
  - apply Qeq_bool_iff. reflexivity.
  - apply String.eqb_refl.
Qed.

Lemma key_eqb_sym (a b : pykey) : key_eqb a b = key_eqb b a.
Proof.
  rewrite !key_eqb_num.
  destruct (key_num a), (key_num b); try reflexivity.
  - apply Qeq_bool_sym.
  - destruct a, b; try reflexivity. apply String.eqb_sym.
Qed.

Lemma key_eqb_trans (a b c : pykey) :
  key_eqb a b = true -> key_eqb b c = true -> key_eqb a c = true.
Proof.
  rewrite !key_eqb_num.
  destruct (key_num a) as [x|] eqn:A, (key_num b) as [y|] eqn:B,
           (key_num c) as [z|] eqn:C; try discriminate.
  - apply Qeq_bool_trans'.
  - destruct a, b, c; try discriminate; try reflexivity.
    intros H1 H2. apply String.eqb_eq in H1, H2. subst. apply String.eqb_refl.
Qed.

(** Equal keys look up the same entry. *)
Lemma dict_lookup_eqb (a b : pykey) (d : pydict) :
  key_eqb a b = true -> dict_lookup a d = dict_lookup b d.
Proof.
  intros H. induction d as [|[k v] d IH]; simpl; [reflexivity|].
  destruct (key_eqb a k) eqn:A, (key_eqb b k) eqn:B; try reflexivity; try exact IH.
  - rewrite key_eqb_sym in H. now rewrite (key_eqb_trans b a k H A) in B.
  - now rewrite (key_eqb_trans a b k H B) in A.
Qed.

(** [d[k'] = v; d.get(k)]: the value assigned under an equal key, the old
    entry under any other. *)
Lemma dict_lookup_set (k k' : pykey) (v : pyval) (d : pydict) :
  dict_lookup k (dict_set k' v d) =
  if key_eqb k k' then Some v else dict_lookup k d.
Proof.
  induction d as [|[k0 v0] d IH]; simpl.
  - reflexivity.
  - destruct (key_eqb k' k0) eqn:E; simpl.
    + destruct (key_eqb k k0) eqn:F, (key_eqb k k') eqn:G; try reflexivity.
      * rewrite key_eqb_sym in E. now rewrite (key_eqb_trans k k0 k' F E) in G.
      * now rewrite (key_eqb_trans k k' k0 G E) in F.
    + destruct (key_eqb k k0) eqn:F.
      * destruct (key_eqb k k') eqn:G; [|reflexivity].
        rewrite key_eqb_sym in G. now rewrite (key_eqb_trans k' k k0 G F) in E.
      * exact IH.
Qed.

(** Assigning under a key that is there keeps the list of keys. *)
Lemma dict_set_keys (k : pykey) (v : pyval) (d : pydict) :
  dict_mem k d = true -> dict_keys (dict_set k v d) = dict_keys d.
Proof.
  unfold dict_mem, dict_keys.
  induction d as [|[k0 v0] d IH]; simpl; [discriminate|].
  destruct (key_eqb k k0); simpl; [reflexivity|].
  intros H. now rewrite IH.
Qed.

(** [d.update(o)] for a mapping [o] without repeated keys: the entries of
    [o] win, the other entries of [d] stay. *)
Lemma update_items_lookup (o d : pydict) (k : pykey) :
  distinct_keys o = true ->
  dict_lookup k (update_items d o) =
  match dict_lookup k o with
  | Some v => Some v
  | None => dict_lookup k d
  end.
Proof.
  unfold update_items. revert d.
  induction o as [|[k0 v0] o IH]; intros d H; simpl in *; [reflexivity|].
  apply andb_true_iff in H as [H0 H].
  rewrite (IH _ H), dict_lookup_set.
  destruct (key_eqb k k0) eqn:E; [|reflexivity].
  apply negb_true_iff in H0. unfold dict_mem in H0.
  rewrite (dict_lookup_eqb k k0 o E).
  now destruct (dict_lookup k0 o).
Qed.

End Keys.

(* ================================================================= *)
(** ** scene_parser.py: what the parsed answer does to the result *)

Section Merging.
Import Py Effects SceneParser Spec Facts.

(** X1. When the service answers with a structured prompt that parses to a
    JSON object (no key twice, as in any dictionary), [get_scene_parameters]
    returns the defaults updated with it: under every key the parsed value if
    there is one, else the default. *)
Theorem get_scene_parameters_merges (w : world) (text_prompt s : string)
    (data : pyval) (parsed : pydict) :
  http_post w BRIA_ENDPOINT (prompt_payload text_prompt) = HttpJson data ->
  structured_prompt_of data = Some (PStr s) ->
  json_loads w s = Some (PDict parsed) ->
  distinct_keys parsed = true ->
  exists d,
    snd (get_scene_parameters w text_prompt) = Ret d /\
    forall k,
      dict_lookup k d =
      match dict_lookup k parsed with
      | Some v => Some v
      | None => dict_lookup k DEFAULT_PARAMETERS
      end.
Proof.
  intros HP HS HL HD. exists (update_items DEFAULT_PARAMETERS parsed). split.
  - rewrite get_scene_parameters_result, HP, (structured_parameters_present w data _ HS).
    simpl. now rewrite HL.
  - intros k. now apply update_items_lookup.
Qed.

Lemma get_scene_parameters_merges_witness :
  exists d,
    snd (get_scene_parameters
           (answering (PDict [(KStr "lighting", PStr "Moonlight"); (KStr "mood", PStr "tense")]))
           "EXT. HARBOUR - NIGHT") = Ret d /\
    dict_lookup (KStr "lighting") d = Some (PStr "Moonlight") /\
    dict_lookup (KStr "camera_angle") d = Some (PStr "Eye Level") /\
    dict_lookup (KStr "mood") d = Some (PStr "tense").
Proof.
  destruct (get_scene_parameters_merges
              (answering (PDict [(KStr "lighting", PStr "Moonlight"); (KStr "mood", PStr "tense")]))
              "EXT. HARBOUR - NIGHT" "{}"
              (PDict [(KStr "result", PDict [(KStr "structured_prompt", PStr "{}")])])
              [(KStr "lighting", PStr "Moonlight"); (KStr "mood", PStr "tense")]
              eq_refl eq_refl eq_refl eq_refl) as (d & Hd & L).
  exists d. split; [exact Hd|].
  rewrite !L. repeat split.
Defined.

(** X2. When the service answers a refinement with a structured prompt that
    parses to a JSON object (no key twice), [refine_scene_parameters] returns
    the existing parameters updated with it, entry by entry, and leaves the
    caller's dictionary as it was. *)
Theorem refine_scene_parameters_merges (w : world) (existing_params : pydict)
    (refinement_request s : string) (data : pyval) (parsed : pydict) :
  http_post w BRIA_ENDPOINT
    (prompt_payload (combined_prompt w existing_params refinement_request)) = HttpJson data ->
  structured_prompt_of data = Some (PStr s) ->
  json_loads w s = Some (PDict parsed) ->
  distinct_keys parsed = true ->
  exists r,
    snd (refine_scene_parameters w existing_params refinement_request) = Ret r /\
    argument_after r = existing_params /\
    forall k,
      dict_lookup k (returned r) =
      match dict_lookup k parsed with
      | Some v => Some v
      | None => dict_lookup k existing_params
      end.
Proof.
  intros HP HS HL HD.
  exists {| returned := update_items existing_params parsed;
            argument_after := existing_params |}.
  split; [|split].
  - rewrite refine_scene_parameters_result, HP.
    unfold refined_parameters.
    destruct data as [| | | | |dd]; try discriminate. simpl in HS.
    unfold lacks_structured_prompt, py_in, py_getitem, dict_mem. simpl.
    destruct (dict_lookup (KStr "result") dd) as [[| | | | |rr]|]; try discriminate.
    simpl. unfold dict_mem. rewrite HS. simpl. now rewrite HL.
  - reflexivity.
  - intros k. now apply update_items_lookup.
Qed.

Lemma refine_scene_parameters_merges_witness :
  exists r,
    snd (refine_scene_parameters
           (answering (PDict [(KStr "lighting", PStr "Moonlight")]))
           DEFAULT_PARAMETERS "moonlight, please") = Ret r /\
    argument_after r = DEFAULT_PARAMETERS /\
    dict_lookup (KStr "lighting") (returned r) = Some (PStr "Moonlight") /\
    dict_lookup (KStr "composition") (returned r) = Some (PStr "Wide Shot").
Proof.
  destruct (refine_scene_parameters_merges
              (answering (PDict [(KStr "lighting", PStr "Moonlight")]))
              DEFAULT_PARAMETERS "moonlight, please" "{}"
              (PDict [(KStr "result", PDict [(KStr "structured_prompt", PStr "{}")])])
              [(KStr "lighting", PStr "Moonlight")]
              eq_refl eq_refl eq_refl eq_refl) as (r & Hr & A & L).
  exists r. split; [exact Hr|]. split; [exact A|].
  rewrite !L. repeat split.
Defined.

End Merging.

(* ================================================================= *)
(** ** scene_parser.py: the keyword fallback *)

Section FallbackFacts.
Import Py Effects SceneParser Spec Facts.

Lemma refined_parameters_lacking (w : world) (existing_params : pydict)
    (request : string) (data : pyval) (r : refinement) :
  structured_prompt_of data = None ->
  refined_parameters w existing_params request data = Ret r ->
  r = _fallback_refinement existing_params request.
Proof.
  unfold refined_parameters, lacks_structured_prompt, structured_prompt_of.
  destruct data as [| | | s | l | m]; simpl; try discriminate.
  - destruct (substring_of "result" s); simpl; [discriminate | now intros _ [= <-]].
  - destruct (existsb _ l); simpl; [discriminate | now intros _ [= <-]].
  - unfold dict_mem.
    destruct (dict_lookup (KStr "result") m) as [x|]; simpl; [|now intros _ [= <-]].
    destruct x as [| | | s | l | x]; simpl; try discriminate.
    + destruct (substring_of "structured_prompt" s); simpl; [discriminate | now intros _ [= <-]].
    + destruct (existsb _ l); simpl; [discriminate | now intros _ [= <-]].
    + unfold dict_mem. intros ->. simpl. now intros [= <-].
Qed.

Lemma refined_parameters_present (w : world) (existing_params : pydict)
    (request : string) (data sp : pyval) :
  structured_prompt_of data = Some sp ->
  refined_parameters w existing_params request data =
  match loads w sp with
  | Raise JSONDecodeError => Ret (_fallback_refinement existing_params request)
  | Raise e => Raise e
  | Ret refined_params =>
      final_params <- dict_update existing_params refined_params ;;
      Ret {| returned := final_params; argument_after := existing_params |}
  end.
Proof.
  unfold refined_parameters, lacks_structured_prompt, structured_prompt_of.
  destruct data as [| | | | | m]; try discriminate. simpl. unfold dict_mem.
  destruct (dict_lookup (KStr "result") m) as [x|]; [|discriminate].
  destruct x as [| | | | | x]; try discriminate. simpl. unfold dict_mem.
  intros ->. reflexivity.
Qed.

Lemma dict_update_scalar (d : pydict) (v : pyval) :
  scalar v = true -> dict_update d v = Raise TypeError.
Proof. now destruct v. Qed.

(** X3. [refine_scene_parameters] answers with the keyword fallback whenever
    the request raises, the response has no result.structured_prompt, or the
    structured prompt cannot be parsed or parses to a value that is neither a
    dictionary nor a sequence. *)
Theorem refine_failures_fall_back (w : world) (existing_params : pydict)
    (refinement_request : string) :
  http_post w BRIA_ENDPOINT
    (prompt_payload (combined_prompt w existing_params refinement_request)) = HttpRaises \/
  (exists data,
      http_post w BRIA_ENDPOINT
        (prompt_payload (combined_prompt w existing_params refinement_request))
      = HttpJson data /\
      (structured_prompt_of data = None \/
       exists sp, structured_prompt_of data = Some sp /\
                  forall v, loads w sp = Ret v -> scalar v = true)) ->
  snd (refine_scene_parameters w existing_params refinement_request)
  = Ret (_fallback_refinement existing_params refinement_request).
Proof.
  rewrite refine_scene_parameters_result.
  intros [->|(data & -> & [L|(sp & S & V)])]; [reflexivity| |].
  - destruct (refined_parameters w existing_params refinement_request data) as [r|e] eqn:E;
      [|reflexivity].
    now rewrite (refined_parameters_lacking _ _ _ _ _ L E).
  - rewrite (refined_parameters_present _ _ _ _ _ S).
    destruct (loads w sp) as [v|e].
    + now rewrite (dict_update_scalar _ _ (V v eq_refl)).
    + now destruct e.
Qed.

Lemma refine_failures_fall_back_witness :
  snd (refine_scene_parameters Samples.offline DEFAULT_PARAMETERS "low angle, harsh light")
  = Ret {| returned :=
             [ (KStr "camera_angle", PStr "Low Angle");
               (KStr "lighting",
                PDict [(KStr "direction", PStr "Natural"); (KStr "quality", PStr "hard")]);
               (KStr "composition", PStr "Wide Shot");
               (KStr "field_of_view", PStr "35mm") ];
           argument_after := DEFAULT_PARAMETERS |}.
Proof.
  rewrite (refine_failures_fall_back Samples.offline DEFAULT_PARAMETERS
             "low angle, harsh light" (or_introl eq_refl)).
  reflexivity.
Defined.

(** *** Invariants of the five steps *)

Section Steps.
Variable I : fallback_state -> Prop.
Hypothesis I_warm :
  forall s, I s -> I (set_lighting warm_in_place [(KStr "temperature", PStr "warm")] s).
Hypothesis I_field :
  forall field value s,
    String.eqb "direction" field = false ->
    I s -> I (set_lighting (set_field field value) [(KStr field, PStr value)] s).
Hypothesis I_top :
  forall key value s,
    key_eqb (KStr "lighting") (KStr key) = false -> I s -> I (set_top key value s).

Lemma fallback_steps_invariant (has : string -> bool) (s : fallback_state) :
  I s -> I (fallback_steps has s).
Proof.
  intros H0. unfold fallback_steps.
  assert (H1 : I (temperature_step has s)).
  { unfold temperature_step.
    destruct (has "warm"); [now apply I_warm|].
    destruct (has "cool" || has "cold"); [now apply I_field | exact H0]. }
  set (s1 := temperature_step has s) in *.
  assert (H2 : I (intensity_step has s1)).
  { unfold intensity_step.
    destruct (has "bright" || has "brighter"); [now apply I_field|].
    destruct (has "dim" || has "darker"); [now apply I_field | exact H1]. }
  set (s2 := intensity_step has s1) in *.
  assert (H3 : I (camera_angle_step has s2)).
  { unfold camera_angle_step.
    destruct (has "low angle" || has "lower angle"); [now apply I_top|].
    destruct (has "high angle" || has "higher angle" || has "overhead"); [now apply I_top|].
    destruct (has "eye level"); [now apply I_top | exact H2]. }
  set (s3 := camera_angle_step has s2) in *.
  assert (H4 : I (field_of_view_step has s3)).
  { unfold field_of_view_step.
    destruct (has "close" || has "closer"); [now apply I_top|].
    destruct (has "wide" || has "wider"); [now apply I_top|].
    destruct (has "medium"); [now apply I_top | exact H3]. }
  set (s4 := field_of_view_step has s3) in *.
  unfold quality_step.
  destruct (has "soft" || has "softer"); [now apply I_field|].
  destruct (has "hard" || has "harsh"); [now apply I_field | exact H4].
Qed.

End Steps.

(** *** What the steps leave alone *)

Lemma set_lighting_lookup (f : pydict -> pydict) (fresh : pydict) (s : fallback_state)
    (k : pykey) :
  key_eqb k (KStr "lighting") = false ->
  dict_lookup k (refined (set_lighting f fresh s)) = dict_lookup k (refined s).
Proof.
  intros H. unfold set_lighting.
  destruct (dict_lookup (KStr "lighting") (refined s)) as [[| | | | |l]|]; simpl;
    now rewrite dict_lookup_set, H.
Qed.

Lemma set_top_lookup (key value : string) (s : fallback_state) (k : pykey) :
  dict_lookup k (refined (set_top key value s)) =
  if key_eqb k (KStr key) then Some (PStr value) else dict_lookup k (refined s).
Proof. apply dict_lookup_set. Qed.

Local Ltac steps :=
  repeat match goal with
         | |- context [if ?b then _ else _] => destruct b
         end;
  rewrite ?set_top_lookup; try reflexivity.

Lemma temperature_step_lookup has s k :
  key_eqb k (KStr "lighting") = false ->
  dict_lookup k (refined (temperature_step has s)) = dict_lookup k (refined s).
Proof. intros H. unfold temperature_step. steps; now apply set_lighting_lookup. Qed.

Lemma intensity_step_lookup has s k :
  key_eqb k (KStr "lighting") = false ->
  dict_lookup k (refined (intensity_step has s)) = dict_lookup k (refined s).
Proof. intros H. unfold intensity_step. steps; now apply set_lighting_lookup. Qed.

Lemma quality_step_lookup has s k :
  key_eqb k (KStr "lighting") = false ->
  dict_lookup k (refined (quality_step has s)) = dict_lookup k (refined s).
Proof. intros H. unfold quality_step. steps; now apply set_lighting_lookup. Qed.

Lemma camera_angle_step_lookup has s k :
  key_eqb k (KStr "camera_angle") = false ->
  dict_lookup k (refined (camera_angle_step has s)) = dict_lookup k (refined s).
Proof.
  intros H. unfold camera_angle_step.
  destruct (_ || _); [|destruct (_ || _); [|destruct (has "eye level")]];
    rewrite ?set_top_lookup, ?H; reflexivity.
Qed.

Lemma field_of_view_step_lookup has s k :
  key_eqb k (KStr "field_of_view") = false ->
  dict_lookup k (refined (field_of_view_step has s)) = dict_lookup k (refined s).
Proof.
  intros H. unfold field_of_view_step.
  destruct (_ || _); [|destruct (_ || _); [|destruct (has "medium")]];
    rewrite ?set_top_lookup, ?H; reflexivity.
Qed.

(** X4. The keyword fallback returns every entry other than lighting,
    camera_angle and field_of_view as it received it. *)
Theorem fallback_refinement_frame (existing_params : pydict) (refinement_request : string)
    (k : pykey) :
  key_eqb k (KStr "lighting") = false ->
  key_eqb k (KStr "camera_angle") = false ->
  key_eqb k (KStr "field_of_view") = false ->
  dict_lookup k (returned (_fallback_refinement existing_params refinement_request))
  = dict_lookup k existing_params.
Proof.
  intros L C F. unfold _fallback_refinement, fallback_steps. simpl.
  now rewrite quality_step_lookup, field_of_view_step_lookup, camera_angle_step_lookup,
              intensity_step_lookup, temperature_step_lookup.
Qed.

Lemma fallback_refinement_frame_witness :
  dict_lookup (KStr "composition")
    (returned (_fallback_refinement DEFAULT_PARAMETERS "Closer, warmer and from a low angle"))
  = Some (PStr "Wide Shot").
Proof.
  rewrite (fallback_refinement_frame DEFAULT_PARAMETERS
             "Closer, warmer and from a low angle" (KStr "composition")
             eq_refl eq_refl eq_refl).
  reflexivity.
Defined.

(** X5. A request in ASCII text that mentions none of the words the
    fallback looks for comes back unchanged: the fallback returns the
    parameters it received and leaves the caller's dictionary alone. *)
Theorem fallback_without_keywords (existing_params : pydict) (refinement_request : string) :
  isascii refinement_request = true ->
  forallb (fun word => negb (mentions refinement_request word)) keywords = true ->
  _fallback_refinement existing_params refinement_request
  = {| returned := existing_params; argument_after := existing_params |}.
Proof.
  intros _. unfold keywords. cbn [forallb]. unfold mentions. intros H.
  repeat (apply andb_true_iff in H as [?K H]).
  repeat match goal with K : negb _ = true |- _ => apply negb_true_iff in K end.
  unfold _fallback_refinement, fallback_steps, temperature_step, intensity_step,
    camera_angle_step, field_of_view_step, quality_step.
  repeat match goal with K : substring_of _ _ = false |- _ => rewrite K; clear K end.
  reflexivity.
Qed.

Lemma fallback_without_keywords_witness :
  _fallback_refinement DEFAULT_PARAMETERS "Add some fog"
  = {| returned := DEFAULT_PARAMETERS; argument_after := DEFAULT_PARAMETERS |}.
Proof.
  apply (fallback_without_keywords DEFAULT_PARAMETERS "Add some fog" eq_refl eq_refl).
Defined.

(** *** The caller's dictionary *)

Lemma tracks_set_top (d : pydict) (key value : string) (s : fallback_state) :
  key_eqb (KStr "lighting") (KStr key) = false ->
  tracks d s -> tracks d (set_top key value s).
Proof.
  intros K (T1 & T2 & T3 & T4 & T5).
  repeat apply conj; simpl; auto.
  intros H. rewrite (T3 H). symmetry.
  change (dict_set (KStr key) (PStr value) (refined s))
    with (refined (set_top key value s)).
  now rewrite set_top_lookup, K.
Qed.

Lemma tracks_set_lighting (d : pydict) (f : pydict -> pydict) (fresh : pydict)
    (s : fallback_state) :
  tracks d s -> tracks d (set_lighting f fresh s).
Proof.
  intros (T1 & T2 & T3 & T4 & T5). unfold set_lighting.
  destruct (dict_lookup (KStr "lighting") (refined s)) as [v|] eqn:L.
  2: { repeat apply conj; simpl; auto; try discriminate.
       intros M. destruct (T5 M) as [S M']. now rewrite (T3 S) in M'. }
  destruct v as [| | | | |l].
  6: { destruct (shared s) eqn:S.
       - specialize (T3 eq_refl).
         assert (E : dict_mem (KStr "lighting") (existing s) = true)
           by (unfold dict_mem; now rewrite T3).
         repeat apply conj; simpl.
         + now rewrite dict_set_keys.
         + intros k K. now rewrite dict_lookup_set, K, T2.
         + intros _. now rewrite !dict_lookup_set.
         + intros M. rewrite (T4 M) in T3. now rewrite T3 in M.
         + intros _. split; [reflexivity|]. now rewrite dict_lookup_set.
       - repeat apply conj; simpl; auto; discriminate. }
  all: repeat apply conj; simpl; auto; try discriminate;
       intros M; destruct (T5 M) as [S M']; now rewrite (T3 S) in M'.
Qed.

Lemma tracks_fallback_steps (d : pydict) (has : string -> bool) (s : fallback_state) :
  tracks d s -> tracks d (fallback_steps has s).
Proof.
  apply fallback_steps_invariant.
  - intros s'. apply tracks_set_lighting.
  - intros field value s' _. apply tracks_set_lighting.
  - intros key value s'. apply tracks_set_top.
Qed.

(** X6. What the keyword fallback does to the dictionary it was called
    with: it keeps its keys and every entry other than lighting; it leaves it
    as it was when lighting is no dictionary; and when lighting is a
    dictionary, that dictionary is changed in place, so that the caller sees
    the lighting the fallback returns. *)
Theorem fallback_refinement_argument (existing_params : pydict)
    (refinement_request : string) :
  dict_keys (argument_after (_fallback_refinement existing_params refinement_request))
  = dict_keys existing_params /\
  (forall k,
      key_eqb k (KStr "lighting") = false ->
      dict_lookup k (argument_after (_fallback_refinement existing_params refinement_request))
      = dict_lookup k existing_params) /\
  (mapping (dict_lookup (KStr "lighting") existing_params) = false ->
   argument_after (_fallback_refinement existing_params refinement_request)
   = existing_params) /\
  (mapping (dict_lookup (KStr "lighting") existing_params) = true ->
   dict_lookup (KStr "lighting")
     (argument_after (_fallback_refinement existing_params refinement_request))
   = dict_lookup (KStr "lighting")
       (returned (_fallback_refinement existing_params refinement_request))).
Proof.
  unfold _fallback_refinement. cbv zeta. cbn [returned argument_after].
  destruct (tracks_fallback_steps existing_params
              (fun word => substring_of word (lower refinement_request))
              {| refined := existing_params; existing := existing_params; shared := true |})
    as (T1 & T2 & T3 & T4 & T5).
  { repeat apply conj; simpl; auto. }
  repeat apply conj; auto.
  intros M. apply T3. now destruct (T5 M).
Qed.

Lemma fallback_refinement_argument_witness :
  dict_lookup (KStr "lighting")
    (argument_after
       (_fallback_refinement
          [(KStr "lighting", PDict [(KStr "direction", PStr "left")])] "Warmer, please"))
  = Some (PDict [ (KStr "direction", PStr "left"); (KStr "temperature", PStr "warm");
                  (KStr "quality", PStr "soft") ]).
Proof.
  rewrite (proj2 (proj2 (proj2
             (fallback_refinement_argument
                [(KStr "lighting", PDict [(KStr "direction", PStr "left")])]
                "Warmer, please"))) eq_refl).
  reflexivity.
Defined.

End FallbackFacts.

(* ================================================================= *)
(** ** director.py: when the settings can be applied, and to what *)

Section DirectorFacts.
Import Py Effects SceneParser Director Spec Facts.

Local Ltac branches :=
  repeat match goal with
         | |- context [if ?b then _ else _] => destruct b
         end.

(** X7. [apply_camera_settings] raises exactly when field_of_view or
    camera_angle is there and is no string, and then it is the
    [AttributeError] of [.lower()].  Otherwise the lens is 24, 50 or 85 and
    the camera is put at one of three heights, each with its tilt. *)
Theorem apply_camera_settings_cases (json_data : pydict) :
  (string_or_absent (dict_lookup (KStr "field_of_view") json_data) &&
   string_or_absent (dict_lookup (KStr "camera_angle") json_data) = true ->
   exists c,
     apply_camera_settings json_data = Ret c /\
     (lens c = 24%Q \/ lens c = 50%Q \/ lens c = 85%Q) /\
     ((location_z c = (1 # 2)%Q /\ rotation_x_deg c = 80%Q) \/
      (location_z c = 5%Q /\ rotation_x_deg c = 45%Q) \/
      (location_z c = (17 # 10)%Q /\ rotation_x_deg c = 90%Q))) /\
  (string_or_absent (dict_lookup (KStr "field_of_view") json_data) &&
   string_or_absent (dict_lookup (KStr "camera_angle") json_data) = false ->
   apply_camera_settings json_data = Raise AttributeError).
Proof.
  unfold apply_camera_settings, py_get_or, lens_map.
  destruct (dict_lookup (KStr "field_of_view") json_data) as [[| | |f| |]|],
           (dict_lookup (KStr "camera_angle") json_data) as [[| | |a| |]|];
    simpl; split; intros H; try discriminate; try reflexivity;
    branches; eexists; (split; [reflexivity|]); simpl; auto 10.
Qed.

Lemma apply_camera_settings_cases_witness :
  apply_camera_settings [(KStr "camera_angle", PNum 5)] = Raise AttributeError.
Proof.
  exact (proj2 (apply_camera_settings_cases [(KStr "camera_angle", PNum 5)]) eq_refl).
Defined.

(** X8. [apply_lighting_settings] raises exactly when lighting is neither
    absent, a string nor a dictionary whose direction and quality are strings
    or absent, and then it is an [AttributeError].  Otherwise the sun gets one
    of four rotations and one of three angles; a lighting given as a string
    always gives the soft angle 0.5, and no lighting at all gives the front
    rotation and the soft angle. *)
Theorem apply_lighting_settings_cases (json_data : pydict) :
  (lighting_usable (dict_lookup (KStr "lighting") json_data) = true ->
   exists s,
     apply_lighting_settings json_data = Ret s /\
     (sun_angle s = 0%Q \/ sun_angle s = (1 # 2)%Q \/ sun_angle s = (1 # 10)%Q) /\
     (sun_rotation_deg s = (45, 0, 90)%Q \/ sun_rotation_deg s = (45, 0, - (90))%Q \/
      sun_rotation_deg s = (- (45), 0, 0)%Q \/ sun_rotation_deg s = (45, 10, 0)%Q)) /\
  (lighting_usable (dict_lookup (KStr "lighting") json_data) = false ->
   apply_lighting_settings json_data = Raise AttributeError) /\
  (forall direction,
      dict_lookup (KStr "lighting") json_data = Some (PStr direction) ->
      exists s, apply_lighting_settings json_data = Ret s /\ sun_angle s = (1 # 2)%Q) /\
  (dict_lookup (KStr "lighting") json_data = None ->
   apply_lighting_settings json_data
   = Ret {| sun_rotation_deg := (45, 10, 0)%Q; sun_angle := (1 # 2)%Q |}).
Proof.
  unfold apply_lighting_settings, py_get_or.
  destruct (dict_lookup (KStr "lighting") json_data) as [[| | |s| |l]|]; simpl.
  6: destruct (dict_lookup (KStr "direction") l) as [[| | |x| |]|],
              (dict_lookup (KStr "quality") l) as [[| | |y| |]|]; simpl.
  all: repeat apply conj; try discriminate; try reflexivity;
       try (intros H; try discriminate H; branches; eexists;
            (split; [reflexivity|]); simpl; auto 10);
       try (intros ? H; try discriminate H; branches; eexists;
            (split; reflexivity)).
Qed.

Lemma apply_lighting_settings_cases_witness :
  apply_lighting_settings [(KStr "lighting", PList [PStr "left"])] = Raise AttributeError.
Proof.
  exact (proj1 (proj2 (apply_lighting_settings_cases [(KStr "lighting", PList [PStr "left"])]))
           eq_refl).
Defined.

(** *** From the keyword fallback to the camera and the sun *)

Lemma fallback_camera_angle (d : pydict) (request : string) :
  dict_lookup (KStr "camera_angle") (returned (_fallback_refinement d request)) =
  if mentions request "low angle" || mentions request "lower angle"
  then Some (PStr "Low Angle")
  else if mentions request "high angle" || mentions request "higher angle"
          || mentions request "overhead"
  then Some (PStr "High Angle")
  else if mentions request "eye level" then Some (PStr "Eye Level")
  else dict_lookup (KStr "camera_angle") d.
Proof.
  unfold _fallback_refinement, fallback_steps, mentions. cbn [returned].
  rewrite quality_step_lookup, field_of_view_step_lookup by reflexivity.
  unfold camera_angle_step.
  destruct (_ || _); [now rewrite set_top_lookup|].
  destruct (_ || _); [now rewrite set_top_lookup|].
  destruct (substring_of "eye level" _); [now rewrite set_top_lookup|].
  now rewrite intensity_step_lookup, temperature_step_lookup.
Qed.

Lemma fallback_field_of_view (d : pydict) (request : string) :
  dict_lookup (KStr "field_of_view") (returned (_fallback_refinement d request)) =
  if mentions request "close" || mentions request "closer" then Some (PStr "close up")
  else if mentions request "wide" || mentions request "wider" then Some (PStr "wide")
  else if mentions request "medium" then Some (PStr "normal")
  else dict_lookup (KStr "field_of_view") d.
Proof.
  unfold _fallback_refinement, fallback_steps, mentions. cbn [returned].
  rewrite quality_step_lookup by reflexivity.
  unfold field_of_view_step.
  destruct (_ || _); [now rewrite set_top_lookup|].
  destruct (_ || _); [now rewrite set_top_lookup|].
  destruct (substring_of "medium" _); [now rewrite set_top_lookup|].
  now rewrite camera_angle_step_lookup, intensity_step_lookup, temperature_step_lookup.
Qed.

Lemma camera_by_fields (json_data : pydict) (c : camera_settings) :
  apply_camera_settings json_data = Ret c ->
  exists fov angle,
    match dict_lookup (KStr "field_of_view") json_data with
    | Some v => v
    | None => PStr "normal"
    end = PStr fov /\
    match dict_lookup (KStr "camera_angle") json_data with
    | Some v => v
    | None => PStr "eye level"
    end = PStr angle /\
    lens c = lens_map (lower fov) /\
    (location_z c, rotation_x_deg c) =
      if substring_of "low" (lower angle) then ((1 # 2)%Q, 80%Q)
      else if substring_of "high" (lower angle) || substring_of "overhead" (lower angle)
      then (5%Q, 45%Q)
      else ((17 # 10)%Q, 90%Q).
Proof.
  unfold apply_camera_settings, py_get_or. cbn [rbind py_lower].
  destruct (match dict_lookup (KStr "field_of_view") json_data with
            | Some v => v
            | None => PStr "normal"
            end) as [| | |fov| |]; try discriminate.
  cbn [rbind py_lower].
  destruct (match dict_lookup (KStr "camera_angle") json_data with
            | Some v => v
            | None => PStr "eye level"
            end) as [| | |angle| |]; try discriminate.
  cbn [rbind py_lower]. intros H. exists fov, angle.
  split; [reflexivity|]. split; [reflexivity|]. revert H.
  destruct (substring_of "low" (lower angle)); [now intros [= <-]|].
  destruct (substring_of "high" (lower angle) || substring_of "overhead" (lower angle));
    now intros [= <-].
Qed.

(** X9. The camera after a fallback refinement, whenever
    [apply_camera_settings] accepts the refined parameters: a request for a
    low angle puts it at 0.5 tilted by 80 degrees, else one for a high angle
    or overhead at 5 tilted by 45, else one for eye level at 1.7 tilted by
    90; a request for a close shot gives the 85 mm lens, else one for a wide
    shot 24 mm, else one for a medium shot 50 mm. *)
Theorem refinement_reaches_camera (existing_params : pydict) (refinement_request : string)
    (c : camera_settings) :
  apply_camera_settings (returned (_fallback_refinement existing_params refinement_request))
  = Ret c ->
  (mentions refinement_request "low angle" || mentions refinement_request "lower angle"
   = true ->
   location_z c = (1 # 2)%Q /\ rotation_x_deg c = 80%Q) /\
  (mentions refinement_request "low angle" || mentions refinement_request "lower angle"
   = false ->
   mentions refinement_request "high angle" || mentions refinement_request "higher angle"
     || mentions refinement_request "overhead" = true ->
   location_z c = 5%Q /\ rotation_x_deg c = 45%Q) /\
  (mentions refinement_request "low angle" || mentions refinement_request "lower angle"
   = false ->
   mentions refinement_request "high angle" || mentions refinement_request "higher angle"
     || mentions refinement_request "overhead" = false ->
   mentions refinement_request "eye level" = true ->
   location_z c = (17 # 10)%Q /\ rotation_x_deg c = 90%Q) /\
  (mentions refinement_request "close" || mentions refinement_request "closer" = true ->
   lens c = 85%Q) /\
  (mentions refinement_request "close" || mentions refinement_request "closer" = false ->
   mentions refinement_request "wide" || mentions refinement_request "wider" = true ->
   lens c = 24%Q) /\
  (mentions refinement_request "close" || mentions refinement_request "closer" = false ->
   mentions refinement_request "wide" || mentions refinement_request "wider" = false ->
   mentions refinement_request "medium" = true ->
   lens c = 50%Q).
Proof.
  intros A. destruct (camera_by_fields _ _ A) as (fov & angle & F & G & L & Z).
  rewrite fallback_field_of_view in F. rewrite fallback_camera_angle in G.
  repeat apply conj.
  - intros M. rewrite M in G. injection G as <-. now injection Z.
  - intros M1 M2. rewrite M1, M2 in G. injection G as <-. now injection Z.
  - intros M1 M2 M3. rewrite M1, M2, M3 in G. injection G as <-. now injection Z.
  - intros M. rewrite M in F. injection F as <-. exact L.
  - intros M1 M2. rewrite M1, M2 in F. injection F as <-. exact L.
  - intros M1 M2 M3. rewrite M1, M2, M3 in F. injection F as <-. exact L.
Qed.

Lemma refinement_reaches_camera_witness :
  exists c,
    apply_camera_settings
      (returned (_fallback_refinement DEFAULT_PARAMETERS "Closer, from a LOW angle"))
    = Ret c /\
    location_z c = (1 # 2)%Q /\ rotation_x_deg c = 80%Q /\ lens c = 85%Q.
Proof.
  eexists. split; [reflexivity|].
  destruct (refinement_reaches_camera DEFAULT_PARAMETERS "Closer, from a LOW angle" _ eq_refl)
    as (L & _ & _ & C & _).
  destruct (L eq_refl) as [Z X]. split; [exact Z|]. split; [exact X|]. exact (C eq_refl).
Defined.

Lemma set_lighting_field (field value : string) (s : fallback_state) :
  String.eqb field "direction" = false ->
  exists l,
    dict_lookup (KStr "lighting")
      (refined (set_lighting (set_field field value) [(KStr field, PStr value)] s))
    = Some (PDict l) /\
    dict_lookup (KStr field) l = Some (PStr value).
Proof.
  intros F. unfold set_lighting, set_field.
  destruct (dict_lookup (KStr "lighting") (refined s)) as [[| | | | |l]|]; simpl;
    rewrite dict_lookup_set; simpl; eexists; (split; [reflexivity|]);
    rewrite ?dict_lookup_set; simpl; rewrite ?F, String.eqb_refl; reflexivity.
Qed.

Lemma fallback_quality (d : pydict) (request : string) :
  (mentions request "soft" || mentions request "softer" = true ->
   exists l,
     dict_lookup (KStr "lighting") (returned (_fallback_refinement d request))
     = Some (PDict l) /\
     dict_lookup (KStr "quality") l = Some (PStr "soft")) /\
  (mentions request "soft" || mentions request "softer" = false ->
   mentions request "hard" || mentions request "harsh" = true ->
   exists l,
     dict_lookup (KStr "lighting") (returned (_fallback_refinement d request))
     = Some (PDict l) /\
     dict_lookup (KStr "quality") l = Some (PStr "hard")).
Proof.
  unfold _fallback_refinement, fallback_steps, mentions. cbn [returned].
  unfold quality_step.
  split.
  - intros ->. now apply set_lighting_field.
  - intros -> ->. now apply set_lighting_field.
Qed.

(** The direction the director reads is none of the fallback's business. *)
Lemma set_lighting_direction (f : pydict -> pydict) (fresh : pydict) (s : fallback_state) :
  (forall l, dict_lookup (KStr "direction") (f l) = dict_lookup (KStr "direction") l) ->
  direction_read (dict_lookup (KStr "lighting") (refined s)) <> None ->
  direction_read (dict_lookup (KStr "lighting") (refined (set_lighting f fresh s)))
  = direction_read (dict_lookup (KStr "lighting") (refined s)).
Proof.
  intros F N. unfold set_lighting.
  destruct (dict_lookup (KStr "lighting") (refined s)) as [[| | | | |l]|]; simpl in *;
    try congruence; rewrite dict_lookup_set; simpl; try reflexivity.
  now rewrite F.
Qed.

Lemma set_field_direction (field value : string) (l : pydict) :
  String.eqb "direction" field = false ->
  dict_lookup (KStr "direction") (set_field field value l)
  = dict_lookup (KStr "direction") l.
Proof.
  intros F. unfold set_field. rewrite dict_lookup_set.
  change (key_eqb (KStr "direction") (KStr field)) with (String.eqb "direction" field).
  now rewrite F.
Qed.

Lemma warm_in_place_direction (l : pydict) :
  dict_lookup (KStr "direction") (warm_in_place l) = dict_lookup (KStr "direction") l.
Proof.
  unfold warm_in_place. rewrite dict_lookup_set. simpl.
  now apply set_field_direction.
Qed.

Lemma fallback_steps_direction (has : string -> bool) (s : fallback_state) :
  direction_read (dict_lookup (KStr "lighting") (refined s)) <> None ->
  direction_read (dict_lookup (KStr "lighting") (refined (fallback_steps has s)))
  = direction_read (dict_lookup (KStr "lighting") (refined s)).
Proof.
  intros N.
  apply (fallback_steps_invariant
           (fun s' => direction_read (dict_lookup (KStr "lighting") (refined s'))
                      = direction_read (dict_lookup (KStr "lighting") (refined s)))).
  - intros s' E. rewrite set_lighting_direction; [exact E| |now rewrite E].
    apply warm_in_place_direction.
  - intros field value s' F E. rewrite set_lighting_direction; [exact E| |now rewrite E].
    intros l. now apply set_field_direction.
  - intros key value s' K E. now rewrite set_top_lookup, K.
  - reflexivity.
Qed.

Lemma rotation_by_direction (json_data : pydict) (s : sun_settings) :
  apply_lighting_settings json_data = Ret s ->
  exists direction,
    direction_read (dict_lookup (KStr "lighting") json_data) = Some (PStr direction) /\
    sun_rotation_deg s =
      if substring_of "left" (lower direction) then (45, 0, 90)%Q
      else if substring_of "right" (lower direction) then (45, 0, - (90))%Q
      else if substring_of "back" (lower direction)
              || substring_of "silhouette" (lower direction) then (- (45), 0, 0)%Q
      else (45, 10, 0)%Q.
Proof.
  unfold apply_lighting_settings, py_get_or.
  destruct (dict_lookup (KStr "lighting") json_data) as [[| | |x| |l]|]; simpl;
    try discriminate.
  - intros [= <-]. now exists x.
  - destruct (dict_lookup (KStr "direction") l) as [[| | |x| |]|]; simpl; try discriminate;
      (destruct (dict_lookup (KStr "quality") l) as [[| | |y| |]|]; simpl; try discriminate);
      intros [= <-]; eexists; split; reflexivity.
  - intros [= <-]. now exists "natural".
Qed.

(** X10. The sun after a fallback refinement, whenever
    [apply_lighting_settings] accepts the refined parameters: a request for
    soft light gives the angle 0.5, else one for hard or harsh light the
    angle 0; and whatever the request, the sun keeps the rotation the
    parameters gave it before the refinement. *)
Theorem refinement_reaches_sun (existing_params : pydict) (refinement_request : string)
    (s : sun_settings) :
  apply_lighting_settings (returned (_fallback_refinement existing_params refinement_request))
  = Ret s ->
  (mentions refinement_request "soft" || mentions refinement_request "softer" = true ->
   sun_angle s = (1 # 2)%Q) /\
  (mentions refinement_request "soft" || mentions refinement_request "softer" = false ->
   mentions refinement_request "hard" || mentions refinement_request "harsh" = true ->
   sun_angle s = 0%Q) /\
  (forall s0,
      apply_lighting_settings existing_params = Ret s0 ->
      sun_rotation_deg s = sun_rotation_deg s0).
Proof.
  intros A. destruct (fallback_quality existing_params refinement_request) as [S H].
  repeat apply conj.
  - intros M. destruct (S M) as (l & L & Q). revert A.
    unfold apply_lighting_settings, py_get_or. rewrite L. simpl. rewrite Q.
    destruct (dict_lookup (KStr "direction") l) as [[| | |x| |]|]; simpl; try discriminate;
      now intros [= <-].
  - intros M M'. destruct (H M M') as (l & L & Q). revert A.
    unfold apply_lighting_settings, py_get_or. rewrite L. simpl. rewrite Q.
    destruct (dict_lookup (KStr "direction") l) as [[| | |x| |]|]; simpl; try discriminate;
      now intros [= <-].
  - intros s0 A0.
    destruct (rotation_by_direction _ _ A) as (x & X & ->).
    destruct (rotation_by_direction _ _ A0) as (x0 & X0 & ->).
    unfold _fallback_refinement in X. cbn [returned] in X.
    rewrite fallback_steps_direction in X; cbn [refined] in *; [|congruence].
    rewrite X0 in X. now injection X as <-.
Qed.

Lemma refinement_reaches_sun_witness :
  exists s,
    apply_lighting_settings
      (returned (_fallback_refinement
                   [(KStr "lighting", PStr "Backlit by the window")] "harsher, colder"))
    = Ret s /\
    sun_angle s = 0%Q /\ sun_rotation_deg s = (- (45), 0, 0)%Q.
Proof.
  eexists. split; [reflexivity|].
  destruct (refinement_reaches_sun
              [(KStr "lighting", PStr "Backlit by the window")] "harsher, colder" _ eq_refl)
    as (_ & H & R).
  split; [exact (H eq_refl eq_refl)|].
  exact (R {| sun_rotation_deg := (- (45), 0, 0)%Q; sun_angle := (1 # 2)%Q |} eq_refl).
Defined.

(** *** The fallback never makes parameters unusable *)

Lemma camera_applicable (json_data : pydict) :
  (exists c, apply_camera_settings json_data = Ret c) <->
  string_or_absent (dict_lookup (KStr "field_of_view") json_data) &&
  string_or_absent (dict_lookup (KStr "camera_angle") json_data) = true.
Proof.
  unfold apply_camera_settings, py_get_or.
  destruct (dict_lookup (KStr "field_of_view") json_data) as [[| | |f| |]|],
           (dict_lookup (KStr "camera_angle") json_data) as [[| | |a| |]|];
    simpl; split; try discriminate; try (now intros [c H]);
    intros _; branches; eexists; reflexivity.
Qed.

Lemma lighting_applicable (json_data : pydict) :
  (exists s, apply_lighting_settings json_data = Ret s) <->
  lighting_usable (dict_lookup (KStr "lighting") json_data) = true.
Proof.
  unfold apply_lighting_settings, py_get_or.
  destruct (dict_lookup (KStr "lighting") json_data) as [[| | |x| |l]|]; simpl.
  6: destruct (dict_lookup (KStr "direction") l) as [[| | |dx| |]|],
              (dict_lookup (KStr "quality") l) as [[| | |qx| |]|]; simpl.
  all: split; try discriminate; try (now intros [c H]);
       intros _; eexists; reflexivity.
Qed.

Lemma set_lighting_usable (f : pydict -> pydict) (fresh : pydict) (s : fallback_state) :
  (forall l k, string_or_absent (dict_lookup k l) = true ->
               string_or_absent (dict_lookup k (f l)) = true) ->
  (forall k, string_or_absent (dict_lookup k fresh) = true) ->
  lighting_usable (dict_lookup (KStr "lighting") (refined s)) = true ->
  lighting_usable (dict_lookup (KStr "lighting") (refined (set_lighting f fresh s))) = true.
Proof.
  intros F G. unfold set_lighting.
  destruct (dict_lookup (KStr "lighting") (refined s)) as [[| | |x| |l]|]; simpl;
    try discriminate; intros U; rewrite dict_lookup_set; simpl; try apply G.
  apply andb_true_iff in U as [U1 U2]. now rewrite !F.
Qed.

Lemma set_field_usable (field value : string) (l : pydict) (k : pykey) :
  string_or_absent (dict_lookup k l) = true ->
  string_or_absent (dict_lookup k (set_field field value l)) = true.
Proof.
  intros H. unfold set_field. rewrite dict_lookup_set. now destruct (key_eqb _ _).
Qed.

Lemma warm_in_place_usable (l : pydict) (k : pykey) :
  string_or_absent (dict_lookup k l) = true ->
  string_or_absent (dict_lookup k (warm_in_place l)) = true.
Proof.
  intros H. unfold warm_in_place. rewrite dict_lookup_set.
  destruct (key_eqb k (KStr "quality")) eqn:K; [|now apply set_field_usable].
  rewrite <- (dict_lookup_eqb _ _ _ K).
  pose proof (set_field_usable "temperature" "warm" l k H) as H'.
  now destruct (dict_lookup k (set_field "temperature" "warm" l)) as [[]|].
Qed.

Lemma set_top_lighting (key value : string) (s : fallback_state) :
  key_eqb (KStr "lighting") (KStr key) = false ->
  dict_lookup (KStr "lighting") (refined (set_top key value s))
  = dict_lookup (KStr "lighting") (refined s).
Proof. intros K. now rewrite set_top_lookup, K. Qed.

Lemma fallback_steps_usable (has : string -> bool) (s : fallback_state) :
  lighting_usable (dict_lookup (KStr "lighting") (refined s)) = true ->
  lighting_usable (dict_lookup (KStr "lighting") (refined (fallback_steps has s))) = true.
Proof.
  apply (fallback_steps_invariant
           (fun s' => lighting_usable (dict_lookup (KStr "lighting") (refined s')) = true)).
  - intros s' U. apply set_lighting_usable; [apply warm_in_place_usable| |exact U].
    intros k. simpl. now destruct (key_eqb k _).
  - intros field value s' _ U.
    apply set_lighting_usable; [intros l k; apply set_field_usable| |exact U].
    intros k. simpl. now destruct (key_eqb k _).
  - intros key value s' K U. now rewrite set_top_lighting.
Qed.

(** X11. The keyword fallback never makes parameters unusable: when
    [apply_camera_settings] and [apply_lighting_settings] accept the
    parameters, they accept what the fallback returns for them. *)
Theorem fallback_keeps_settings_applicable (existing_params : pydict)
    (refinement_request : string) (c0 : camera_settings) (s0 : sun_settings) :
  apply_camera_settings existing_params = Ret c0 ->
  apply_lighting_settings existing_params = Ret s0 ->
  exists c s,
    apply_camera_settings
      (returned (_fallback_refinement existing_params refinement_request)) = Ret c /\
    apply_lighting_settings
      (returned (_fallback_refinement existing_params refinement_request)) = Ret s.
Proof.
  intros C S.
  assert (C' : exists c, apply_camera_settings existing_params = Ret c) by now exists c0.
  assert (S' : exists s, apply_lighting_settings existing_params = Ret s) by now exists s0.
  apply camera_applicable in C'. apply lighting_applicable in S'.
  apply andb_true_iff in C' as [F A].
  destruct (proj2 (camera_applicable
                     (returned (_fallback_refinement existing_params refinement_request))))
    as [c Hc].
  { rewrite fallback_camera_angle, fallback_field_of_view.
    branches; simpl; rewrite ?F, ?A; reflexivity. }
  destruct (proj2 (lighting_applicable
                     (returned (_fallback_refinement existing_params refinement_request))))
    as [s Hs].
  { unfold _fallback_refinement. cbn [returned]. now apply fallback_steps_usable. }
  now exists c, s.
Qed.

Lemma fallback_keeps_settings_applicable_witness :
  exists c s,
    apply_camera_settings
      (returned (_fallback_refinement DEFAULT_PARAMETERS "warmer and wider")) = Ret c /\
    apply_lighting_settings
      (returned (_fallback_refinement DEFAULT_PARAMETERS "warmer and wider")) = Ret s.
Proof.
  exact (fallback_keeps_settings_applicable DEFAULT_PARAMETERS "warmer and wider"
           _ _ eq_refl eq_refl).
Defined.

End DirectorFacts.

(* ================================================================= *)
(** ** cinematographer.py: prompts, downloads and what comes back *)

Section CinematographerFacts.
Import Py Effects Cinematographer Spec Facts.

(** *** The prompt of [_make_api_call] *)

Lemma strings_of_cases (l : list pyval) :
  if forallb is_str l then exists ss, strings_of l = Ret ss
  else strings_of l = Raise TypeError.
Proof.
  induction l as [|v l IH]; simpl; [now exists []|].
  destruct v; simpl; try reflexivity.
  destruct (forallb is_str l).
  - destruct IH as [ss ->]. simpl. now eexists.
  - now rewrite IH.
Qed.

Lemma objects_part_cases (scene_data : pydict) :
  if forallb is_str (object_descriptions scene_data)
  then exists l, objects_part scene_data = Ret l /\ forallb is_str l = true
  else objects_part scene_data = Raise TypeError.
Proof.
  unfold objects_part, object_descriptions.
  destruct (dict_lookup (KStr "objects") scene_data) as [[| | | |objs|]|]; cbv beta iota;
    try (simpl; now exists []).
  destruct (descriptions (firstn 3 objs)) as [|x ds]; [simpl; now exists []|].
  unfold py_join. pose proof (strings_of_cases (x :: ds)) as H.
  destruct (forallb is_str (x :: ds)).
  - destruct H as [ss ->]. simpl. now eexists.
  - now rewrite H.
Qed.

Lemma lighting_part_strings (w : world) (scene_data : pydict) :
  forallb is_str (lighting_part w scene_data) = true.
Proof.
  unfold lighting_part.
  now destruct (dict_lookup (KStr "lighting") scene_data) as [[| | | | |]|].
Qed.

Lemma background_part_strings (w : world) (scene_data : pydict) :
  forallb is_str (background_part w scene_data) = true.
Proof.
  unfold background_part.
  destruct (dict_lookup (KStr "background_setting") scene_data); [reflexivity|].
  now destruct (dict_lookup (KStr "background") scene_data).
Qed.

Lemma prompt_cases (w : world) (scene_data : pydict) :
  if prompt_builds scene_data
  then exists prompt, final_prompt w scene_data = Ret prompt /\ blank prompt = false
  else final_prompt w scene_data = Raise TypeError.
Proof.
  unfold prompt_builds, final_prompt.
  pose proof (objects_part_cases scene_data) as O.
  destruct (forallb is_str (object_descriptions scene_data)).
  2: { now rewrite O, andb_false_r. }
  destruct O as (l & -> & L). rewrite andb_true_r. cbn [rbind]. unfold py_join.
  pose proof (strings_of_cases
                (description_part scene_data ++ lighting_part w scene_data
                 ++ background_part w scene_data ++ l)) as S.
  rewrite !forallb_app, lighting_part_strings, background_part_strings, L, !andb_true_r in S.
  destruct (forallb is_str (description_part scene_data)).
  - destruct S as [ss ->]. cbn [rbind]. eexists. split; [reflexivity|].
    now destruct (blank (join " " ss)) eqn:B.
  - now rewrite S.
Qed.

(** X12. [_make_api_call] can build its prompt exactly when the description
    (short_description, else prompt) and the descriptions of the first three
    objects are strings; otherwise joining the parts raises [TypeError],
    before any request.  A prompt that is built is never blank. *)
Theorem final_prompt_cases (w : world) (scene_data : pydict) :
  (prompt_builds scene_data = true ->
   exists prompt, final_prompt w scene_data = Ret prompt /\ blank prompt = false) /\
  (prompt_builds scene_data = false ->
   final_prompt w scene_data = Raise TypeError /\
   _make_api_call w scene_data = ([], Raise TypeError)).
Proof.
  pose proof (prompt_cases w scene_data) as P. unfold _make_api_call.
  destruct (prompt_builds scene_data).
  - split; [now intros _ | discriminate].
  - split; [discriminate|]. intros _. now rewrite P.
Qed.

Lemma final_prompt_cases_witness :
  _make_api_call Samples.ready
    [(KStr "objects", PList [PDict [(KStr "description", PNum 5)]])]
  = ([], Raise TypeError).
Proof.
  exact (proj2 (proj2 (final_prompt_cases Samples.ready
                         [(KStr "objects", PList [PDict [(KStr "description", PNum 5)]])])
                  eq_refl)).
Defined.

(** *** Traces and results *)

Lemma mbind_eq {A B} (m : M A) (k : A -> M B) :
  mbind m k =
  match snd m with
  | Ret a => (fst m ++ fst (k a), snd (k a))
  | Raise e => (fst m, Raise e)
  end.
Proof. destruct m as [t [a|e]]; simpl; [|reflexivity]. now destruct (k a). Qed.

Lemma try_except_eq {A} (m : M A) (x : A) :
  try_except m (fun _ => mret x) =
  (fst m, match snd m with Ret a => Ret a | Raise _ => Ret x end).
Proof. destruct m as [t [a|e]]; simpl; [reflexivity | now rewrite app_nil_r]. Qed.

Local Ltac request_events :=
  repeat first
    [ apply all_mret | apply all_mraise | apply all_lift
    | apply all_emit; reflexivity
    | apply all_for_range; intros ?
    | apply all_mbind; [|intros ?]
    | apply all_try_except; [|intros ?]
    | match goal with
      | |- all _ (if ?b then _ else _) => destruct b
      | |- all _ (match ?x with _ => _ end) => destruct x
      end ].

Lemma poll_round_requests {B R} (w : world) (endpoint : string) (status_url : pyval)
    (handle : pyval -> res (ctl B R)) (i : nat) :
  all (fun e => is_request e = true) (poll_round w endpoint status_url handle i).
Proof. unfold poll_round, poll. request_events. Qed.

Lemma locate_image_url_requests (w : world) (data : pyval) :
  all (fun e => is_request e = true) (locate_image_url w data).
Proof. unfold locate_image_url. request_events; try apply poll_round_requests. Qed.

Lemma poll_for_image_result_requests (w : world) (data : pyval) :
  all (fun e => is_request e = true) (_poll_for_image_result w data).
Proof. unfold _poll_for_image_result. request_events; try apply poll_round_requests. Qed.

Lemma remove_background_requests (w : world) (image_url : pyval) :
  all (fun e => is_request e = true) (_remove_background w image_url).
Proof.
  unfold _remove_background, remove_background_try, post.
  request_events; try apply poll_round_requests.
Qed.

Lemma requests_download_nothing (t : list event) :
  Forall (fun e => is_request e = true) t ->
  count is_fetch t = 0 /\ count is_mkstemp t = 0.
Proof.
  induction 1 as [|e t E _ [IH1 IH2]]; [now split|].
  unfold count in *. simpl. now destruct e.
Qed.

Lemma rounds_posts (t : list event) :
  Forall (fun e => is_sleep e || is_poll e = true) t -> posts t = 0.
Proof.
  induction 1 as [|e t E _ IH]; [reflexivity|].
  unfold posts, count in *. simpl. now destruct e.
Qed.

Lemma locate_image_url_posts (w : world) (data : pyval) :
  posts (fst (locate_image_url w data)) = 0.
Proof.
  apply rounds_posts.
  change (all (fun e => is_sleep e || is_poll e = true) (locate_image_url w data)).
  unfold locate_image_url. request_events.
  all: unfold poll_round, poll; request_events.
Qed.

(** How a call of [_make_api_call] ends: after the requests [pre], either
    without a download and without a path, or with the download of one URL,
    whose result is the result of the call. *)
Lemma make_api_call_ends (w : world) (scene_data : pydict) :
  exists pre,
    Forall (fun e => is_request e = true) pre /\
    (forall prompt, final_prompt w scene_data = Ret prompt -> posts pre = 1) /\
    ((fst (_make_api_call w scene_data) = pre /\
      (snd (_make_api_call w scene_data) = Ret None \/
       exists e, snd (_make_api_call w scene_data) = Raise e)) \/
     (exists image_url,
        fst (_make_api_call w scene_data) = pre ++ fst (_download_image w image_url) /\
        snd (_make_api_call w scene_data) = snd (_download_image w image_url) /\
        truthy image_url = true)).
Proof.
  unfold _make_api_call. rewrite mbind_lift.
  destruct (final_prompt w scene_data) as [prompt|e].
  2: { exists []. split; [constructor|]. split; [discriminate|]. left. simpl. eauto. }
  rewrite try_except_eq. unfold make_api_call_try, post. simpl.
  set (p := EvPost BRIA_IMAGE_ENDPOINT (image_payload prompt "exr")).
  destruct (http_post w BRIA_IMAGE_ENDPOINT _) as [|data]; simpl.
  { exists [p]. split; [now repeat constructor|]. split; [reflexivity|]. left. eauto. }
  pose proof (locate_image_url_requests w data) as HA.
  pose proof (locate_image_url_posts w data) as HP.
  pose proof (locate_image_url_returns_none w data) as HR.
  unfold all in HA.
  destruct (locate_image_url w data) as [t [[|u|r]|e]]; simpl in *.
  - exists (p :: t ++ []). rewrite app_nil_r.
    split; [now constructor|]. split; [intros _ _; unfold posts, count in *; simpl; lia|].
    left. eauto.
  - unfold fetch_image. destruct (truthy u) eqn:T.
    + exists (p :: t).
      split; [now constructor|]. split; [intros _ _; unfold posts, count in *; simpl; lia|].
      right. exists u.
      destruct (_download_image w u) as [t' r'] eqn:D. simpl.
      pose proof (download_to_quiet w u ".exr" "previz_bg_") as (_ & _ & r & E).
      unfold _download_image in D. rewrite D in E. simpl in E. subst r'.
      now repeat split.
    + simpl. exists (p :: t ++ []). rewrite app_nil_r.
      split; [now constructor|]. split; [intros _ _; unfold posts, count in *; simpl; lia|].
      left. eauto.
  - exists (p :: t ++ []). rewrite app_nil_r.
    split; [now constructor|]. split; [intros _ _; unfold posts, count in *; simpl; lia|].
    left. rewrite (HR r eq_refl). eauto.
  - exists (p :: t).
    split; [now constructor|]. split; [intros _ _; unfold posts, count in *; simpl; lia|].
    left. eauto.
Qed.

Lemma download_to_counts (w : world) (url : pyval) (suffix prefix : string) :
  count is_fetch (fst (download_to w url suffix prefix)) = 1 /\
  count is_mkstemp (fst (download_to w url suffix prefix)) <= 1.
Proof.
  rewrite download_to_eq.
  destruct url as [| | |u| |]; try (split; cbv; lia).
  destruct (http_fetch w u); split; cbv; lia.
Qed.

Lemma download_to_path (w : world) (url : pyval) (suffix prefix path : string) :
  snd (download_to w url suffix prefix) = Ret (Some path) ->
  path = mkstemp w suffix prefix /\
  exists u,
    fst (download_to w url suffix prefix) = [EvFetch (PStr u); EvMkstemp path] /\
    http_fetch w u = Fetched.
Proof.
  rewrite download_to_eq.
  destruct url as [| | |u| |]; try discriminate.
  destruct (http_fetch w u) eqn:F; try discriminate.
  intros [= <-]. split; [reflexivity|]. now exists u.
Qed.

(** X13. One call of [_make_api_call] downloads at most once and creates at
    most one temporary file.  When it returns a path, that path is the file
    [mkstemp] made with the suffix .exr and the prefix previz_bg_, and the
    call ended with the download of one URL into it, nothing having been
    downloaded or created before. *)
Theorem make_api_call_downloads (w : world) (scene_data : pydict) :
  count is_fetch (fst (_make_api_call w scene_data)) <= 1 /\
  count is_mkstemp (fst (_make_api_call w scene_data)) <= 1 /\
  forall path,
    snd (_make_api_call w scene_data) = Ret (Some path) ->
    path = mkstemp w ".exr" "previz_bg_" /\
    exists pre u,
      fst (_make_api_call w scene_data) = pre ++ [EvFetch (PStr u); EvMkstemp path] /\
      http_fetch w u = Fetched /\
      count is_fetch pre = 0 /\ count is_mkstemp pre = 0.
Proof.
  destruct (make_api_call_ends w scene_data) as (pre & R & _ & E).
  destruct (requests_download_nothing pre R) as [F K].
  destruct E as [[-> S]|(u & -> & -> & _)].
  - rewrite F, K. repeat split; try lia.
    all: destruct S as [S|[e S]]; rewrite S in *; discriminate.
  - unfold _download_image.
    destruct (download_to_counts w u ".exr" "previz_bg_") as [C1 C2].
    rewrite !count_app, F, K. repeat split; try lia.
    + now apply download_to_path in H.
    + apply download_to_path in H as (_ & u' & -> & H). now exists pre, u'.
Qed.

Lemma make_api_call_downloads_witness :
  snd (_make_api_call Samples.ready []) = Ret (Some "/tmp/previz_bg_k3x9.exr") /\
  exists pre u,
    fst (_make_api_call Samples.ready [])
    = pre ++ [EvFetch (PStr u); EvMkstemp "/tmp/previz_bg_k3x9.exr"] /\
    count is_mkstemp pre = 0.
Proof.
  split; [reflexivity|].
  destruct (make_api_call_downloads Samples.ready []) as (_ & _ & H).
  destruct (H "/tmp/previz_bg_k3x9.exr" eq_refl) as (_ & pre & u & E & _ & _ & K).
  now exists pre, u.
Defined.

(** X14. The thread of [generate_background_image] calls its callback once,
    with the result of [_make_api_call], after exactly one POST, whenever the
    prompt can be built.  When it cannot, the exception ends the thread at
    once: no request is made and the callback is never called. *)
Theorem background_thread_cases (w : world) (scene_data : pydict)
    (callback : option string -> list event) :
  (prompt_builds scene_data = true ->
   exists image_path,
     snd (_make_api_call w scene_data) = Ret image_path /\
     posts (fst (_make_api_call w scene_data)) = 1 /\
     run (generate_background_image w scene_data (Some callback))
     = fst (_make_api_call w scene_data) ++ callback image_path) /\
  (prompt_builds scene_data = false ->
   run (generate_background_image w scene_data (Some callback)) = []).
Proof.
  unfold generate_background_image. cbn [run].
  pose proof (prompt_cases w scene_data) as P.
  split; intros B; rewrite B in P.
  - destruct P as (prompt & P & _).
    destruct (make_api_call_returns w scene_data prompt P) as [r Hr].
    destruct (make_api_call_ends w scene_data) as (pre & R & N & E).
    specialize (N prompt P).
    assert (C : posts (fst (_make_api_call w scene_data)) = 1).
    { destruct E as [[-> _]|(u & -> & _ & _)]; [exact N|].
      unfold posts in *. rewrite count_app, N.
      destruct (download_to_quiet w u ".exr" "previz_bg_") as (Z & _).
      unfold _download_image, posts in *. rewrite Z. reflexivity. }
    exists r. destruct (_make_api_call w scene_data) as [t x]. simpl in *. now subst x.
  - unfold _make_api_call. now rewrite P.
Qed.

Lemma background_thread_cases_witness :
  run (generate_background_image Samples.ready [(KStr "short_description", PNum 5)]
         (Some Addon.generate_image_ready)) = [].
Proof.
  exact (proj2 (background_thread_cases Samples.ready [(KStr "short_description", PNum 5)]
                  Addon.generate_image_ready) eq_refl).
Defined.

(** *** A foreground generation *)

Lemma remove_background_posted (w : world) (image_url v : pyval) :
  snd (_remove_background w image_url) = Ret v ->
  posts_to BRIA_RMBG_ENDPOINT (fst (_remove_background w image_url)) = 1.
Proof.
  intros S. pose proof (remove_background_posts w image_url) as [_ H]. revert S H.
  unfold _remove_background. rewrite mbind_lift.
  destruct (preview image_url) as [[]|e]; [|discriminate].
  intros _. rewrite try_except_eq. cbn [fst]. unfold remove_background_try, post. simpl.
  destruct (http_post w BRIA_RMBG_ENDPOINT _) as [|data]; simpl; [reflexivity|].
  match goal with |- context [let (_, _) := ?m in _] => destruct m as [t r] end.
  unfold posts_to, count. simpl. lia.
Qed.

(** How a call of [_generate_foreground_sync] ends: after the requests
    [pre], either by raising, or with the download of the transparent image,
    whose result is the result of the call. *)
Lemma generate_foreground_sync_ends (w : world) (description : string) :
  exists pre,
    Forall (fun e => is_request e = true) pre /\
    ((fst (_generate_foreground_sync w description) = pre /\
      exists e, snd (_generate_foreground_sync w description) = Raise e) \/
     (exists transparent_url,
        fst (_generate_foreground_sync w description)
        = pre ++ fst (_download_image_as_png w transparent_url) /\
        snd (_generate_foreground_sync w description)
        = snd (_download_image_as_png w transparent_url) /\
        posts_to BRIA_RMBG_ENDPOINT pre = 1)).
Proof.
  unfold _generate_foreground_sync, post. simpl.
  set (p := EvPost BRIA_IMAGE_ENDPOINT (image_payload (foreground_prompt description) "png")).
  destruct (http_post w BRIA_IMAGE_ENDPOINT _) as [|data]; simpl.
  { exists [p]. split; [now repeat constructor|]. left. eauto. }
  pose proof (poll_for_image_result_requests w data) as A1.
  pose proof (poll_for_image_result_no_post w data BRIA_RMBG_ENDPOINT) as N1.
  unfold all in A1.
  destruct (_poll_for_image_result w data) as [t1 [u|e]]; simpl in *.
  2: { exists (p :: t1). split; [now constructor|]. left. eauto. }
  destruct (truthy u); simpl.
  2: { exists (p :: t1 ++ []). rewrite app_nil_r. split; [now constructor|]. left. eauto. }
  pose proof (remove_background_requests w u) as A2.
  pose proof (remove_background_posted w u) as N2.
  unfold all in A2.
  destruct (_remove_background w u) as [t2 [tu|e]]; simpl in *.
  2: { exists (p :: t1 ++ t2). split; [constructor; [reflexivity|now apply Forall_app]|].
       left. eauto. }
  destruct (truthy tu); simpl.
  2: { exists (p :: t1 ++ t2 ++ []). rewrite app_nil_r.
       split; [constructor; [reflexivity|now apply Forall_app]|]. left. eauto. }
  exists (p :: t1 ++ t2). split; [constructor; [reflexivity|now apply Forall_app]|].
  right. exists tu.
  destruct (_download_image_as_png w tu) as [t3 r3]. simpl.
  split; [now rewrite <- app_assoc|]. split; [reflexivity|].
  specialize (N2 tu eq_refl). unfold posts_to in *.
  change (p :: t1 ++ t2) with ([p] ++ t1 ++ t2). rewrite !count_app, N1, N2. reflexivity.
Qed.

(** X15. A foreground generation returns only after it has asked the
    background-removal service once and tried one download; a path it
    returns is the file [mkstemp] made with the suffix .png and the prefix
    previz_foreground_, filled by that download.  When it raises, nothing
    has been downloaded and no file has been created; and when the image
    service yields no URL, it raises "Failed to generate base image" without
    asking for a background removal. *)
Theorem generate_foreground_sync_cases (w : world) (description : string) :
  (forall r,
      snd (_generate_foreground_sync w description) = Ret r ->
      posts_to BRIA_RMBG_ENDPOINT (fst (_generate_foreground_sync w description)) = 1 /\
      count is_fetch (fst (_generate_foreground_sync w description)) = 1) /\
  (forall path,
      snd (_generate_foreground_sync w description) = Ret (Some path) ->
      path = mkstemp w ".png" "previz_foreground_" /\
      exists pre u,
        fst (_generate_foreground_sync w description)
        = pre ++ [EvFetch (PStr u); EvMkstemp path] /\
        http_fetch w u = Fetched /\ count is_mkstemp pre = 0) /\
  (forall e,
      snd (_generate_foreground_sync w description) = Raise e ->
      count is_fetch (fst (_generate_foreground_sync w description)) = 0 /\
      count is_mkstemp (fst (_generate_foreground_sync w description)) = 0) /\
  (forall data image_url,
      http_post w BRIA_IMAGE_ENDPOINT (image_payload (foreground_prompt description) "png")
      = HttpJson data ->
      snd (_poll_for_image_result w data) = Ret image_url ->
      truthy image_url = false ->
      snd (_generate_foreground_sync w description)
      = Raise (PyException "Failed to generate base image") /\
      posts_to BRIA_RMBG_ENDPOINT (fst (_generate_foreground_sync w description)) = 0).
Proof.
  destruct (generate_foreground_sync_ends w description) as (pre & R & E).
  destruct (requests_download_nothing pre R) as [F K].
  repeat apply conj.
  - intros r S. destruct E as [[_ [e E]]|(u & -> & _ & N)]; [congruence|].
    unfold posts_to in *. rewrite !count_app, N, F.
    unfold _download_image_as_png.
    destruct (download_to_counts w u ".png" "previz_foreground_") as [-> _].
    fold (posts_to BRIA_RMBG_ENDPOINT (fst (download_to w u ".png" "previz_foreground_"))).
    now rewrite download_to_no_post.
  - intros path S. destruct E as [[_ [e E]]|(u & -> & E & _)]; [congruence|].
    rewrite E in S. unfold _download_image_as_png in *.
    apply download_to_path in S as (-> & u' & -> & H).
    split; [reflexivity|]. now exists pre, u'.
  - intros e S. destruct E as [[-> _]|(u & _ & E & _)]; [now split|].
    rewrite E in S. unfold _download_image_as_png in S.
    destruct (download_to_quiet w u ".png" "previz_foreground_") as (_ & _ & r & D).
    congruence.
  - intros data image_url P S T. revert S.
    pose proof (poll_for_image_result_no_post w data BRIA_RMBG_ENDPOINT) as N.
    unfold _generate_foreground_sync, post. simpl. rewrite P. simpl.
    destruct (_poll_for_image_result w data) as [t1 x]. simpl in *. intros ->.
    rewrite T. simpl. split; [reflexivity|].
    rewrite app_nil_r. unfold posts_to, count in *. simpl. exact N.
Qed.

Lemma generate_foreground_sync_cases_witness :
  snd (_generate_foreground_sync Samples.ready "burning car")
  = Ret (Some "/tmp/previz_foreground_k3x9.png") /\
  posts_to BRIA_RMBG_ENDPOINT (fst (_generate_foreground_sync Samples.ready "burning car")) = 1 /\
  snd (_generate_foreground_sync Samples.offline "burning car") = Raise RequestException /\
  count is_mkstemp (fst (_generate_foreground_sync Samples.offline "burning car")) = 0.
Proof.
  assert (S : snd (_generate_foreground_sync Samples.ready "burning car")
              = Ret (Some "/tmp/previz_foreground_k3x9.png"))
    by (vm_compute; reflexivity).
  split; [exact S|].
  destruct (generate_foreground_sync_cases Samples.ready "burning car") as (H & _).
  split; [exact (proj1 (H _ S))|].
  split; [reflexivity|].
  destruct (generate_foreground_sync_cases Samples.offline "burning car") as (_ & _ & K & _).
  exact (proj2 (K RequestException eq_refl)).
Defined.

(** *** Answers without a status URL *)

Lemma locate_image_url_sync (w : world) (d r : pydict) :
  dict_lookup (KStr "status_url") d = None ->
  dict_lookup (KStr "result") d = Some (PDict r) ->
  locate_image_url w (PDict d) =
  ([], Ret (Break (if truthy (get_item_or r "url" PNone) then get_item_or r "url" PNone
                   else get_item_or r "image_url" PNone))).
Proof.
  intros S R. unfold locate_image_url, sync_image_url, py_in, py_getitem, py_and, py_get,
    py_get_or, py_or, get_item_or, dict_mem.
  rewrite S, R. simpl.
  now destruct (truthy match dict_lookup (KStr "url") r with Some v => v | None => PNone end).
Qed.

(** X16. An answer of the image service that comes without a status URL and
    whose result is a JSON object is never polled, and only that object is
    searched for the image: its url, else its image_url.  When neither is
    there (or both are empty), [_make_api_call] returns None after its one
    request, whatever image_url or urls the answer has at its top level. *)
Theorem synchronous_answer (w : world) (scene_data : pydict) (prompt : string)
    (d r : pydict) :
  final_prompt w scene_data = Ret prompt ->
  http_post w BRIA_IMAGE_ENDPOINT (image_payload prompt "exr") = HttpJson (PDict d) ->
  dict_lookup (KStr "status_url") d = None ->
  dict_lookup (KStr "result") d = Some (PDict r) ->
  polls (fst (_make_api_call w scene_data)) = 0 /\
  sleeps (fst (_make_api_call w scene_data)) = 0 /\
  (truthy (get_item_or r "url" PNone) = true ->
   snd (_make_api_call w scene_data) = snd (_download_image w (get_item_or r "url" PNone))) /\
  (truthy (get_item_or r "url" PNone) = false ->
   truthy (get_item_or r "image_url" PNone) = true ->
   snd (_make_api_call w scene_data)
   = snd (_download_image w (get_item_or r "image_url" PNone))) /\
  (truthy (get_item_or r "url" PNone) = false ->
   truthy (get_item_or r "image_url" PNone) = false ->
   _make_api_call w scene_data
   = ([EvPost BRIA_IMAGE_ENDPOINT (image_payload prompt "exr")], Ret None)).
Proof.
  intros P A S R.
  assert (E : _make_api_call w scene_data =
              let u := if truthy (get_item_or r "url" PNone) then get_item_or r "url" PNone
                       else get_item_or r "image_url" PNone in
              (EvPost BRIA_IMAGE_ENDPOINT (image_payload prompt "exr")
                 :: fst (fetch_image w u),
               snd (fetch_image w u))).
  { unfold _make_api_call. rewrite mbind_lift, P, try_except_eq.
    unfold make_api_call_try, post. simpl. rewrite A. simpl.
    rewrite (locate_image_url_sync w d r S R). simpl.
    match goal with |- context [fetch_image w ?u] => set (x := u) end.
    destruct (fetch_image_quiet w x) as (_ & _ & y & Y).
    destruct (fetch_image w x) as [t z]. simpl in *. now subst z. }
  rewrite E. cbv zeta. cbn [fst snd].
  match goal with |- context [fetch_image w ?u] => set (x := u) end.
  destruct (fetch_image_quiet w x) as (_ & (Q1 & Q2 & _) & _).
  split; [exact Q2|]. split; [exact Q1|].
  unfold x, fetch_image. repeat apply conj.
  - intros T. now rewrite !T.
  - intros T T'. now rewrite T, T'.
  - intros T T'. now rewrite T, T'.
Qed.

Lemma synchronous_answer_witness :
  _make_api_call
    (Samples.world_of
       (fun _ => HttpJson (PDict [ (KStr "result", PDict []);
                                   (KStr "image_url", PStr "https://cdn/b.exr") ]))
       (fun _ => HttpRaises) Fetched)
    []
  = ([EvPost BRIA_IMAGE_ENDPOINT (image_payload "A cinematic scene" "exr")], Ret None).
Proof.
  exact (proj2 (proj2 (proj2 (proj2
           (synchronous_answer
              (Samples.world_of
                 (fun _ => HttpJson (PDict [ (KStr "result", PDict []);
                                             (KStr "image_url", PStr "https://cdn/b.exr") ]))
                 (fun _ => HttpRaises) Fetched)
              [] "A cinematic scene"
              [ (KStr "result", PDict []); (KStr "image_url", PStr "https://cdn/b.exr") ] []
              eq_refl eq_refl eq_refl eq_refl)))) eq_refl eq_refl).
Defined.

(** X17. [_remove_background] slices the image URL for a log message before
    its [try]: a URL that is neither a string nor a list makes it raise
    before any request is sent.  For a string or a list it never raises, and
    it has sent exactly one request to the background-removal service when
    it returns. *)
Theorem remove_background_cases (w : world) (image_url : pyval) :
  (preview image_url = Ret tt ->
   (exists transparent_url, snd (_remove_background w image_url) = Ret transparent_url) /\
   posts_to BRIA_RMBG_ENDPOINT (fst (_remove_background w image_url)) = 1) /\
  (forall e,
      preview image_url = Raise e ->
      _remove_background w image_url = ([], Raise e)).
Proof.
  split.
  - intros P.
    assert (R : exists v, snd (_remove_background w image_url) = Ret v).
    { unfold _remove_background. rewrite mbind_lift, P, try_except_eq. cbn [snd].
      destruct (snd (remove_background_try w image_url)); now eexists. }
    split; [exact R|]. destruct R as [v R]. exact (remove_background_posted w _ _ R).
  - intros e P. unfold _remove_background. now rewrite mbind_lift, P.
Qed.

Lemma remove_background_cases_witness :
  _remove_background Samples.ready (PNum 5) = ([], Raise TypeError).
Proof.
  exact (proj2 (remove_background_cases Samples.ready (PNum 5)) TypeError eq_refl).
Defined.

End CinematographerFacts.

(* ================================================================= *)
(** ** __init__.py: what the operators do to the plugin's state *)

Section OperatorFacts.
Import Py Effects Cinematographer Addon Spec Facts.

Lemma camera_raises (json_data : pydict) (e : exc) :
  Director.apply_camera_settings json_data = Raise e -> e = AttributeError.
Proof.
  unfold Director.apply_camera_settings, py_get_or. cbn [rbind].
  destruct (match dict_lookup (KStr "field_of_view") json_data with
            | Some v => v
            | None => PStr "normal"
            end) as [| | |fov| |]; cbn [rbind Director.py_lower]; try (now intros [= <-]).
  destruct (match dict_lookup (KStr "camera_angle") json_data with
            | Some v => v
            | None => PStr "eye level"
            end) as [| | |angle| |]; cbn [rbind Director.py_lower]; try (now intros [= <-]).
  destruct (substring_of "low" _); [discriminate|].
  destruct (_ || _); discriminate.
Qed.

Lemma lighting_raises (json_data : pydict) (e : exc) :
  Director.apply_lighting_settings json_data = Raise e -> e = AttributeError.
Proof.
  unfold Director.apply_lighting_settings, py_get_or. cbn [rbind].
  destruct (match dict_lookup (KStr "lighting") json_data with
            | Some v => v
            | None => PDict []
            end) as [| | |x| |l]; try (now intros [= <-]).
  cbn [rbind].
  destruct (match dict_lookup (KStr "direction") l with
            | Some v => v
            | None => PStr "natural"
            end) as [| | |dx| |]; cbn [rbind Director.py_lower]; try (now intros [= <-]).
  destruct (match dict_lookup (KStr "quality") l with
            | Some v => v
            | None => PStr "soft"
            end) as [| | |qx| |]; cbn [rbind Director.py_lower]; now intros [= <-].
Qed.

(** Generate Scene with a script that is not blank. *)
Lemma generate_execute_eq (w : world) (st : addon) (script : string) :
  custom_script_text (props st) = Some script ->
  blank script = false ->
  exists scene_data,
    snd (SceneParser.get_scene_parameters w script) = Ret scene_data /\
    extends SceneParser.DEFAULT_PARAMETERS scene_data /\
    generate_execute w st =
    let t := [EvPost SceneParser.BRIA_ENDPOINT (SceneParser.prompt_payload script)] in
    let st1 := with_data scene_data st in
    match Director.apply_camera_settings scene_data with
    | Raise e => done st1 (Raise e) t []
    | Ret cam =>
        match Director.apply_lighting_settings scene_data with
        | Raise e => done st1 (Raise e) (t ++ [camera_op cam]) []
        | Ret sun =>
            done (with_props (with_status "⏳ Generating background..." (props st1)) st1)
                 (Ret FINISHED)
                 (t ++ [camera_op cam; sun_op sun;
                        EvHost (HSetStatus "⏳ Generating background...")])
                 [generate_background_image w scene_data (Some generate_image_ready)]
        end
    end.
Proof.
  intros S B. unfold generate_execute. rewrite S, B.
  destruct (get_scene_parameters_returns w script) as (d & Hd & E).
  pose proof (get_scene_parameters_trace w script) as Ht.
  exists d. split; [exact Hd|]. split; [exact E|].
  destruct (SceneParser.get_scene_parameters w script) as [t r]. simpl in Hd, Ht. now subst r t.
Qed.

(** Refine Scene with scene data and a request that is not blank. *)
Lemma refine_execute_eq (w : world) (st : addon) :
  _last_scene_data st <> [] ->
  blank (previz_refine_text (props st)) = false ->
  exists r,
    snd (SceneParser.refine_scene_parameters w (_last_scene_data st)
           (previz_refine_text (props st))) = Ret r /\
    extends (_last_scene_data st) (SceneParser.returned r) /\
    refine_execute w st =
    let t := [EvPost SceneParser.BRIA_ENDPOINT
                (SceneParser.prompt_payload
                   (SceneParser.combined_prompt w (_last_scene_data st)
                      (previz_refine_text (props st))))] in
    let refined_data := SceneParser.returned r in
    let st1 := with_data refined_data st in
    match Director.apply_camera_settings refined_data with
    | Raise e => done st1 (Raise e) t []
    | Ret cam =>
        match Director.apply_lighting_settings refined_data with
        | Raise e => done st1 (Raise e) (t ++ [camera_op cam]) []
        | Ret sun =>
            done (with_props {| custom_script_text := custom_script_text (props st1);
                                previz_refine_text := "";
                                previz_foreground_text := previz_foreground_text (props st1);
                                previz_status := previz_status (props st1) |} st1)
                 (Ret FINISHED)
                 (t ++ [camera_op cam; sun_op sun])
                 [generate_background_image w refined_data (Some refine_image_ready)]
        end
    end.
Proof.
  intros N B. unfold refine_execute.
  destruct (_last_scene_data st) as [|kv d0] eqn:D; [contradiction|]. rewrite B.
  destruct (refine_scene_parameters_returns w (kv :: d0) (previz_refine_text (props st)))
    as (r & Hr & E).
  pose proof (refine_scene_parameters_trace w (kv :: d0) (previz_refine_text (props st)))
    as Ht.
  exists r. split; [exact Hr|]. split; [exact E|].
  destruct (SceneParser.refine_scene_parameters w (kv :: d0) _) as [t x].
  simpl in Hr, Ht. now subst x t.
Qed.

Lemma extends_nonempty (d d' : pydict) : extends d d' -> d <> [] -> d' <> [].
Proof.
  intros [extra E] N ->. destruct d as [|kv d]; [contradiction|]. discriminate.
Qed.

(** X18. Only Generate Scene and Refine Scene can raise, and what they raise
    is the [AttributeError] of [director.py].  By then the parser's answer
    has already replaced the stored scene data; the scene's properties are
    as they were and no thread has been started. *)
Theorem step_raises (w : world) (a : action) (st : addon) (e : exc) :
  result (step w a st) = Raise e ->
  e = AttributeError /\
  threads (step w a st) = [] /\
  props (after (step w a st)) = props st /\
  (Director.apply_camera_settings (_last_scene_data (after (step w a st)))
   = Raise AttributeError \/
   Director.apply_lighting_settings (_last_scene_data (after (step w a st)))
   = Raise AttributeError) /\
  ((a = GenerateScene /\
    exists script,
      custom_script_text (props st) = Some script /\
      snd (SceneParser.get_scene_parameters w script)
      = Ret (_last_scene_data (after (step w a st)))) \/
   (a = RefineScene /\
    exists r,
      snd (SceneParser.refine_scene_parameters w (_last_scene_data st)
             (previz_refine_text (props st))) = Ret r /\
      _last_scene_data (after (step w a st)) = SceneParser.returned r)).
Proof.
  destruct a; simpl.
  - unfold paste_execute. now destruct (String.eqb clipboard "").
  - destruct (custom_script_text (props st)) as [script|] eqn:S.
    2: { unfold generate_execute. now rewrite S. }
    destruct (blank script) eqn:B.
    { unfold generate_execute. now rewrite S, B. }
    destruct (generate_execute_eq w st script S B) as (d & Hd & _ & ->). cbv zeta.
    destruct (Director.apply_camera_settings d) as [cam|x] eqn:C.
    + destruct (Director.apply_lighting_settings d) as [sun|x] eqn:L; [discriminate|].
      simpl. intros [= <-]. apply lighting_raises in L as L'. subst x.
      repeat split; auto. left. split; [reflexivity|]. now exists script.
    + simpl. intros [= <-]. apply camera_raises in C as C'. subst x.
      repeat split; auto. left. split; [reflexivity|]. now exists script.
  - destruct (_last_scene_data st) as [|kv d0] eqn:D.
    { unfold refine_execute. now rewrite D. }
    destruct (blank (previz_refine_text (props st))) eqn:B.
    { unfold refine_execute. now rewrite D, B. }
    destruct (refine_execute_eq w st) as (r & Hr & _ & ->);
      [rewrite D; discriminate | exact B |].
    rewrite D in *. cbv zeta.
    destruct (Director.apply_camera_settings (SceneParser.returned r)) as [cam|x] eqn:C.
    + destruct (Director.apply_lighting_settings (SceneParser.returned r)) as [sun|x] eqn:L;
        [discriminate|].
      simpl. intros [= <-]. apply lighting_raises in L as L'. subst x.
      repeat split; auto. right. split; [reflexivity|]. now exists r.
    + simpl. intros [= <-]. apply camera_raises in C as C'. subst x.
      repeat split; auto. right. split; [reflexivity|]. now exists r.
  - unfold export_execute. now destruct (write_json w _).
  - unfold add_foreground_execute. now destruct (String.eqb _ "").
  - discriminate.
Qed.

Lemma step_raises_witness :
  result (step (answering (PDict [(KStr "camera_angle", PNum 5)])) GenerateScene
            Samples.scripted) = Raise AttributeError /\
  threads (step (answering (PDict [(KStr "camera_angle", PNum 5)])) GenerateScene
             Samples.scripted) = [] /\
  dict_lookup (KStr "camera_angle")
    (_last_scene_data
       (after (step (answering (PDict [(KStr "camera_angle", PNum 5)])) GenerateScene
                 Samples.scripted))) = Some (PNum 5).
Proof.
  split; [reflexivity|].
  split; [|reflexivity].
  exact (proj1 (proj2 (step_raises (answering (PDict [(KStr "camera_angle", PNum 5)]))
                         GenerateScene Samples.scripted AttributeError eq_refl))).
Defined.

(** X19. An operator that is cancelled leaves the plugin as it was: the
    state is the one before, no thread was started, no request sent, no
    timer registered and nothing done to the host.  (A cancelled export may
    have opened its file.) *)
Theorem step_cancelled (w : world) (a : action) (st : addon) :
  result (step w a st) = Ret CANCELLED ->
  after (step w a st) = st /\
  threads (step w a st) = [] /\
  posts (trace (step w a st)) = 0 /\
  timers (trace (step w a st)) = [] /\
  direct (trace (step w a st)) = [].
Proof.
  destruct a; simpl.
  - unfold paste_execute. now destruct (String.eqb clipboard "").
  - destruct (custom_script_text (props st)) as [script|] eqn:S.
    2: { unfold generate_execute. now rewrite S. }
    destruct (blank script) eqn:B.
    { unfold generate_execute. now rewrite S, B. }
    destruct (generate_execute_eq w st script S B) as (d & _ & _ & ->). cbv zeta.
    destruct (Director.apply_camera_settings d); [|discriminate].
    destruct (Director.apply_lighting_settings d); discriminate.
  - destruct (_last_scene_data st) as [|kv d0] eqn:D.
    { unfold refine_execute. now rewrite D. }
    destruct (blank (previz_refine_text (props st))) eqn:B.
    { unfold refine_execute. now rewrite D, B. }
    destruct (refine_execute_eq w st) as (r & _ & _ & ->);
      [rewrite D; discriminate | exact B |].
    cbv zeta.
    destruct (Director.apply_camera_settings _); [|discriminate].
    destruct (Director.apply_lighting_settings _); discriminate.
  - unfold export_execute. now destruct (write_json w _).
  - unfold add_foreground_execute. now destruct (String.eqb _ "").
  - discriminate.
Qed.

Lemma step_cancelled_witness :
  after (step Samples.ready RefineScene Samples.scripted) = Samples.scripted /\
  threads (step Samples.ready RefineScene Samples.scripted) = [].
Proof.
  destruct (step_cancelled Samples.ready RefineScene Samples.scripted eq_refl)
    as (A & T & _).
  now split.
Defined.

(** X20. Refine Scene and Add Foreground Element empty their text field
    when they finish, so that running them again at once is cancelled;
    Generate Scene keeps the script, and running it again is not. *)
Theorem repeating_an_operator (w w' : world) (st : addon) :
  (result (refine_execute w st) = Ret FINISHED ->
   previz_refine_text (props (after (refine_execute w st))) = "" /\
   result (refine_execute w' (after (refine_execute w st))) = Ret CANCELLED) /\
  (result (add_foreground_execute w st) = Ret FINISHED ->
   previz_foreground_text (props (after (add_foreground_execute w st))) = "" /\
   result (add_foreground_execute w' (after (add_foreground_execute w st)))
   = Ret CANCELLED) /\
  (result (generate_execute w st) = Ret FINISHED ->
   custom_script_text (props (after (generate_execute w st)))
   = custom_script_text (props st) /\
   result (generate_execute w' (after (generate_execute w st))) <> Ret CANCELLED).
Proof.
  repeat apply conj.
  - destruct (_last_scene_data st) as [|kv d0] eqn:D.
    { unfold refine_execute at 1. now rewrite D. }
    destruct (blank (previz_refine_text (props st))) eqn:B.
    { unfold refine_execute at 1. now rewrite D, B. }
    destruct (refine_execute_eq w st) as (r & _ & _ & ->);
      [rewrite D; discriminate | exact B |].
    cbv zeta.
    destruct (Director.apply_camera_settings _); [|discriminate].
    destruct (Director.apply_lighting_settings _); [|discriminate].
    intros _. split; [reflexivity|].
    unfold refine_execute. simpl. now destruct (SceneParser.returned r).
  - unfold add_foreground_execute.
    destruct (String.eqb (strip (previz_foreground_text (props st))) "");
      simpl; [discriminate|].
    intros _. split; reflexivity.
  - destruct (custom_script_text (props st)) as [script|] eqn:S.
    2: { unfold generate_execute at 1. now rewrite S. }
    destruct (blank script) eqn:B.
    { unfold generate_execute at 1. now rewrite S, B. }
    destruct (generate_execute_eq w st script S B) as (d & _ & _ & ->). cbv zeta.
    destruct (Director.apply_camera_settings d); [|discriminate].
    destruct (Director.apply_lighting_settings d); [|discriminate].
    intros _. split; [exact S|].
    match goal with |- result (generate_execute w' ?x) <> _ => set (st1 := x) end.
    destruct (generate_execute_eq w' st1 script S B) as (d' & _ & _ & ->). cbv zeta.
    destruct (Director.apply_camera_settings d'); [|discriminate].
    destruct (Director.apply_lighting_settings d'); discriminate.
Qed.

Lemma repeating_an_operator_witness :
  result (add_foreground_execute Samples.ready Samples.scripted) = Ret FINISHED /\
  result (add_foreground_execute Samples.offline
            (after (add_foreground_execute Samples.ready Samples.scripted)))
  = Ret CANCELLED.
Proof.
  split; [reflexivity|].
  destruct (repeating_an_operator Samples.ready Samples.offline Samples.scripted)
    as (_ & H & _).
  exact (proj2 (H eq_refl)).
Defined.

(** *** Sessions *)

Lemma step_scene_data (w : world) (a : action) (st : addon) :
  _last_scene_data (after (step w a st)) = _last_scene_data st \/
  (a = GenerateScene /\
   extends SceneParser.DEFAULT_PARAMETERS (_last_scene_data (after (step w a st)))) \/
  (a = RefineScene /\ _last_scene_data st <> [] /\
   extends (_last_scene_data st) (_last_scene_data (after (step w a st)))).
Proof.
  destruct a; simpl.
  - left. unfold paste_execute. now destruct (String.eqb clipboard "").
  - destruct (custom_script_text (props st)) as [script|] eqn:S.
    2: { left. unfold generate_execute. now rewrite S. }
    destruct (blank script) eqn:B.
    { left. unfold generate_execute. now rewrite S, B. }
    right. left. split; [reflexivity|].
    destruct (generate_execute_eq w st script S B) as (d & _ & E & ->). cbv zeta.
    destruct (Director.apply_camera_settings d); [|exact E].
    destruct (Director.apply_lighting_settings d); exact E.
  - destruct (_last_scene_data st) as [|kv d0] eqn:D.
    { left. unfold refine_execute. now rewrite D. }
    destruct (blank (previz_refine_text (props st))) eqn:B.
    { left. unfold refine_execute. now rewrite D, B. }
    right. right. split; [reflexivity|]. split; [discriminate|].
    destruct (refine_execute_eq w st) as (r & _ & E & ->);
      [rewrite D; discriminate | exact B |].
    rewrite D in E. cbv zeta.
    destruct (Director.apply_camera_settings _); [|exact E].
    destruct (Director.apply_lighting_settings _); exact E.
  - left. unfold export_execute. now destruct (write_json w _).
  - left. unfold add_foreground_execute. now destruct (String.eqb _ "").
  - now left.
Qed.

Lemma default_parameters_nonempty : SceneParser.DEFAULT_PARAMETERS <> [].
Proof. discriminate. Qed.

Lemma session_app (steps more : list (world * action)) (st : addon) :
  session (steps ++ more) st = session more (session steps st).
Proof.
  revert st. induction steps as [|[w a] steps IH]; intros st; simpl; [reflexivity|].
  apply IH.
Qed.

Lemma session_keeps_defaults (steps : list (world * action)) (st : addon) :
  _last_scene_data st = [] \/
  extends SceneParser.DEFAULT_PARAMETERS (_last_scene_data st) ->
  _last_scene_data (session steps st) = [] \/
  extends SceneParser.DEFAULT_PARAMETERS (_last_scene_data (session steps st)).
Proof.
  revert st. induction steps as [|[w a] steps IH]; intros st H; simpl; [exact H|].
  apply IH.
  destruct (step_scene_data w a st) as [->|[[_ E]|(_ & N & E)]]; [exact H| |].
  - now right.
  - right. destruct H as [H|H]; [contradiction|]. eapply extends_trans; eassumption.
Qed.

Lemma session_keeps_data (steps : list (world * action)) (st : addon) :
  _last_scene_data st <> [] -> _last_scene_data (session steps st) <> [].
Proof.
  revert st. induction steps as [|[w a] steps IH]; intros st H; simpl; [exact H|].
  apply IH.
  destruct (step_scene_data w a st) as [->|[[_ E]|(_ & N & E)]]; [exact H| |].
  - exact (extends_nonempty _ _ E default_parameters_nonempty).
  - exact (extends_nonempty _ _ E N).
Qed.

(** X21. Whatever the operators executed since the plugin was registered,
    in whatever worlds and whether they finished, were cancelled or raised:
    the stored scene data is empty or has the four default keys, in their
    places; and once it is not empty, it never is again. *)
Theorem scene_data_invariant (steps more : list (world * action)) :
  (_last_scene_data (session steps initial) = [] \/
   (extends SceneParser.DEFAULT_PARAMETERS (_last_scene_data (session steps initial)) /\
    dict_mem (KStr "camera_angle") (_last_scene_data (session steps initial)) = true /\
    dict_mem (KStr "lighting") (_last_scene_data (session steps initial)) = true /\
    dict_mem (KStr "composition") (_last_scene_data (session steps initial)) = true /\
    dict_mem (KStr "field_of_view") (_last_scene_data (session steps initial)) = true)) /\
  (_last_scene_data (session steps initial) <> [] ->
   _last_scene_data (session (steps ++ more) initial) <> []).
Proof.
  split.
  - destruct (session_keeps_defaults steps initial (or_introl eq_refl)) as [E|E];
      [now left|right].
    split; [exact E|].
    repeat split; apply (extends_mem _ _ _ E); reflexivity.
  - rewrite session_app. apply session_keeps_data.
Qed.

Lemma scene_data_invariant_witness :
  _last_scene_data
    (session ([ (Samples.offline, PasteScript "EXT. HARBOUR - NIGHT");
                (Samples.offline, GenerateScene) ]
              ++ [ (Samples.offline, EditProperties (props Samples.scripted));
                   (Samples.offline, RefineScene) ])
       initial) <> [].
Proof.
  apply (proj2 (scene_data_invariant
                  [ (Samples.offline, PasteScript "EXT. HARBOUR - NIGHT");
                    (Samples.offline, GenerateScene) ]
                  [ (Samples.offline, EditProperties (props Samples.scripted));
                    (Samples.offline, RefineScene) ])).
  discriminate.
Defined.

(** X22. When the script is ASCII text that is not blank and the parser
    falls back to the defaults (the service is down, say), Generate Scene
    still finishes: it stores the defaults, puts the
    50 mm lens on the camera at eye level (the default field of view, 35mm,
    is no key of the lens table), turns the sun to the front with soft
    shadows, and shows that the background is being generated. *)
Theorem generate_with_defaults (w : world) (st : addon) (script : string) :
  custom_script_text (props st) = Some script ->
  isascii script = true ->
  blank script = false ->
  snd (SceneParser.get_scene_parameters w script) = Ret SceneParser.DEFAULT_PARAMETERS ->
  result (generate_execute w st) = Ret FINISHED /\
  _last_scene_data (after (generate_execute w st)) = SceneParser.DEFAULT_PARAMETERS /\
  direct (trace (generate_execute w st))
  = [ HCamera 50%Q (17 # 10)%Q 90%Q; HSun (45, 10, 0)%Q (1 # 2)%Q;
      HSetStatus "⏳ Generating background..." ] /\
  previz_status (props (after (generate_execute w st))) = "⏳ Generating background..." /\
  threads (generate_execute w st)
  = [generate_background_image w SceneParser.DEFAULT_PARAMETERS (Some generate_image_ready)].
Proof.
  intros S _ B D.
  destruct (generate_execute_eq w st script S B) as (d & Hd & _ & ->).
  rewrite D in Hd. apply Ret_inj in Hd. subst d.
  repeat split.
Qed.

Lemma generate_with_defaults_witness :
  result (generate_execute Samples.offline Samples.scripted) = Ret FINISHED /\
  direct (trace (generate_execute Samples.offline Samples.scripted))
  = [ HCamera 50%Q (17 # 10)%Q 90%Q; HSun (45, 10, 0)%Q (1 # 2)%Q;
      HSetStatus "⏳ Generating background..." ].
Proof.
  destruct (generate_with_defaults Samples.offline Samples.scripted "INT. WAREHOUSE - NIGHT"
              eq_refl eq_refl eq_refl eq_refl) as (R & _ & D & _).
  now split.
Defined.

(** X23. Refine Scene when the service cannot be reached: the stored scene
    data becomes what the keyword fallback makes of it, and when the
    operator finishes, the camera and the sun have been given exactly the
    settings [director.py] derives from that, by the operator itself, before
    the one thread for the new background is started. *)
Theorem refine_scene_offline (w : world) (st : addon) :
  _last_scene_data st <> [] ->
  blank (previz_refine_text (props st)) = false ->
  http_post w SceneParser.BRIA_ENDPOINT
    (SceneParser.prompt_payload
       (SceneParser.combined_prompt w (_last_scene_data st) (previz_refine_text (props st))))
  = HttpRaises ->
  _last_scene_data (after (refine_execute w st))
  = SceneParser.returned
      (SceneParser._fallback_refinement (_last_scene_data st)
         (previz_refine_text (props st))) /\
  (result (refine_execute w st) = Ret FINISHED ->
   exists cam sun,
     Director.apply_camera_settings (_last_scene_data (after (refine_execute w st)))
     = Ret cam /\
     Director.apply_lighting_settings (_last_scene_data (after (refine_execute w st)))
     = Ret sun /\
     direct (trace (refine_execute w st))
     = [ HCamera (Director.lens cam) (Director.location_z cam) (Director.rotation_x_deg cam);
         HSun (Director.sun_rotation_deg sun) (Director.sun_angle sun) ] /\
     threads (refine_execute w st)
     = [generate_background_image w (_last_scene_data (after (refine_execute w st)))
          (Some refine_image_ready)]).
Proof.
  intros N B H.
  destruct (refine_execute_eq w st N B) as (r & Hr & _ & ->).
  rewrite refine_scene_parameters_result, H in Hr. apply Ret_inj in Hr. subst r.
  cbv zeta.
  destruct (Director.apply_camera_settings _) as [cam|e] eqn:C.
  - destruct (Director.apply_lighting_settings _) as [sun|e] eqn:L.
    + split; [reflexivity|]. intros _. exists cam, sun.
      split; [exact C|]. split; [exact L|]. split; reflexivity.
    + split; [reflexivity | discriminate].
  - split; [reflexivity | discriminate].
Qed.

Lemma refine_scene_offline_witness :
  direct (trace (refine_execute Samples.offline
                   (with_data SceneParser.DEFAULT_PARAMETERS Samples.scripted)))
  = [ HCamera 50%Q (17 # 10)%Q 90%Q; HSun (45, 10, 0)%Q (1 # 2)%Q ].
Proof.
  assert (N : _last_scene_data (with_data SceneParser.DEFAULT_PARAMETERS Samples.scripted)
              <> []) by discriminate.
  destruct (refine_scene_offline Samples.offline
              (with_data SceneParser.DEFAULT_PARAMETERS Samples.scripted)
              N eq_refl eq_refl) as (_ & H).
  destruct (H eq_refl) as (cam & sun & C & L & D & _).
  rewrite D. apply Ret_inj in C. apply Ret_inj in L. now rewrite <- C, <- L.
Defined.

(** *** Text fields *)

Lemma lstrip_blank (s : string) : blank s = true -> lstrip s = "".
Proof.
  induction s as [|c s IH]; simpl; [reflexivity|].
  destruct (is_space c); [exact IH | discriminate].
Qed.

Lemma lstrip_first (s : string) :
  blank s = false -> first_is_space (lstrip s) = false /\ blank (lstrip s) = false.
Proof.
  induction s as [|c s IH]; simpl; [discriminate|].
  destruct (is_space c) eqn:C; [exact IH|].
  intros _. simpl. now rewrite C.
Qed.

Lemma rstrip_blank (s : string) : rstrip s = "" <-> blank s = true.
Proof.
  induction s as [|c s IH]; simpl; [tauto|].
  destruct (is_space c); simpl; [|split; discriminate].
  destruct (String.eqb_spec (rstrip s) ""); [tauto|].
  split; [discriminate|]. intros B. now apply IH in B.
Qed.

Lemma rstrip_first (s : string) :
  first_is_space s = false -> first_is_space (rstrip s) = false.
Proof.
  destruct s as [|c s]; simpl; [reflexivity|].
  intros C. rewrite C. simpl. exact C.
Qed.

Lemma rstrip_last (s : string) : last_is_space (rstrip s) = false.
Proof.
  induction s as [|c s IH]; simpl; [reflexivity|].
  destruct (is_space c) eqn:C; simpl.
  - destruct (String.eqb_spec (rstrip s) ""); [reflexivity|].
    simpl. now destruct (rstrip s).
  - destruct (rstrip s); [exact C | exact IH].
Qed.

Lemma strip_empty (s : string) : strip s = "" <-> blank s = true.
Proof.
  unfold strip. rewrite rstrip_blank. split.
  - intros B. destruct (blank s) eqn:E; [reflexivity|].
    destruct (lstrip_first s E) as [_ N]. congruence.
  - intros B. now rewrite (lstrip_blank s B).
Qed.

(** X24. Add Foreground Element is cancelled when its text field is blank.
    When the field holds ASCII text that is not blank, it starts one
    generation, for the text without the white space around it: a
    description that is not empty and neither begins nor ends with white
    space. *)
Theorem add_foreground_description (w : world) (st : addon) :
  (blank (previz_foreground_text (props st)) = true ->
   add_foreground_execute w st = done st (Ret CANCELLED) [] []) /\
  (isascii (previz_foreground_text (props st)) = true ->
   blank (previz_foreground_text (props st)) = false ->
   result (add_foreground_execute w st) = Ret FINISHED /\
   threads (add_foreground_execute w st)
   = [generate_foreground_element w (strip (previz_foreground_text (props st)))
        (Some (on_complete w))] /\
   strip (previz_foreground_text (props st)) <> "" /\
   first_is_space (strip (previz_foreground_text (props st))) = false /\
   last_is_space (strip (previz_foreground_text (props st))) = false).
Proof.
  unfold add_foreground_execute.
  destruct (String.eqb_spec (strip (previz_foreground_text (props st))) "") as [E|E].
  - apply strip_empty in E. rewrite E. split; [reflexivity | intros _; discriminate].
  - split.
    + intros B. apply strip_empty in B. contradiction.
    + intros _ B. repeat split; try exact E.
      * unfold strip. apply rstrip_first. now apply lstrip_first.
      * apply rstrip_last.
Qed.

Lemma add_foreground_description_witness :
  threads (add_foreground_execute Samples.ready Samples.scripted)
  = [generate_foreground_element Samples.ready "burning car"
       (Some (on_complete Samples.ready))].
Proof.
  exact (proj1 (proj2 (proj2 (add_foreground_description Samples.ready Samples.scripted)
                         eq_refl eq_refl))).
Defined.

(** X25. Paste Script followed by Generate Scene: a clipboard that is not
    empty is always accepted; if it holds only white space, Generate Scene
    is then cancelled; if it holds ASCII text that is not blank, Generate
    Scene sends exactly one request, first of all, and its prompt is the
    clipboard's text. *)
Theorem paste_then_generate (w : world) (clipboard : string) (st : addon) :
  clipboard <> "" ->
  result (paste_execute clipboard st) = Ret FINISHED /\
  (blank clipboard = true ->
   result (generate_execute w (after (paste_execute clipboard st))) = Ret CANCELLED) /\
  (isascii clipboard = true -> blank clipboard = false ->
   posts (trace (generate_execute w (after (paste_execute clipboard st)))) = 1 /\
   exists rest,
     trace (generate_execute w (after (paste_execute clipboard st)))
     = EvPost SceneParser.BRIA_ENDPOINT (SceneParser.prompt_payload clipboard) :: rest).
Proof.
  intros N. apply String.eqb_neq in N. unfold paste_execute. rewrite N. cbn [after result done].
  split; [reflexivity|]. split; [intros B | intros _ B].
  - unfold generate_execute. simpl. now rewrite B.
  - match goal with |- context [generate_execute w ?x] => set (st1 := x) end.
    destruct (generate_execute_eq w st1 clipboard eq_refl B) as (d & _ & _ & ->). cbv zeta.
    destruct (Director.apply_camera_settings d).
    + destruct (Director.apply_lighting_settings d); split; try reflexivity; now eexists.
    + split; [reflexivity | now eexists].
Qed.

Lemma paste_then_generate_witness :
  posts (trace (generate_execute Samples.offline
                  (after (paste_execute "EXT. HARBOUR - NIGHT" initial)))) = 1 /\
  result (generate_execute Samples.offline (after (paste_execute "   " initial)))
  = Ret CANCELLED.
Proof.
  split.
  - assert (N : "EXT. HARBOUR - NIGHT" <> "") by discriminate.
    destruct (paste_then_generate Samples.offline "EXT. HARBOUR - NIGHT" initial N)
      as (_ & _ & H).
    exact (proj1 (H eq_refl eq_refl)).
  - assert (N : "   " <> "") by discriminate.
    destruct (paste_then_generate Samples.offline "   " initial N) as (_ & H & _).
    exact (H eq_refl).
Defined.

End OperatorFacts.

(* ================================================================= *)
(** ** __init__.py: the script preview of the panel *)

Section PanelFacts.
Import Py Addon Panel.

Lemma split_lines_nonempty (s : string) : split_lines s <> [].
Proof.
  induction s as [|c s IH]; simpl; [discriminate|].
  destruct (is_newline c); [discriminate|].
  now destruct (split_lines s).
Qed.

Lemma length_append (a b : string) :
  String.length (a ++ b) = String.length a + String.length b.
Proof. induction a as [|c a IH]; simpl; [reflexivity | now rewrite IH]. Qed.

Lemma substring_length (m : nat) (s : string) : String.length (substring 0 m s) <= m.
Proof.
  revert s. induction m as [|m IH]; intros [|c s]; simpl; try lia.
  specialize (IH s). lia.
Qed.

Lemma preview_line_nonempty (line : string) : preview_line line <> "".
Proof.
  unfold preview_line.
  destruct (40 <? String.length line)%nat.
  - destruct (blank (substring 0 40 line ++ "...")) eqn:B; [discriminate|].
    intros E. now rewrite E in B.
  - destruct (blank line) eqn:B; [discriminate|].
    intros E. now rewrite E in B.
Qed.

Lemma preview_line_length (line : string) : String.length (preview_line line) <= 43.
Proof.
  unfold preview_line.
  destruct (Nat.ltb_spec 40 (String.length line)).
  - destruct (blank _); [simpl; lia|].
    rewrite length_append. pose proof (substring_length 40 line). simpl. lia.
  - destruct (blank line); [simpl; lia | lia].
Qed.

Lemma Forall_firstn {A} (P : A -> Prop) (n : nat) (l : list A) :
  Forall P l -> Forall P (firstn n l).
Proof.
  revert l. induction n as [|n IH]; intros [|x l] H; simpl; try constructor.
  - now inversion H.
  - apply IH. now inversion H.
Qed.

Lemma isascii_app (a b : string) : isascii (a ++ b) = isascii a && isascii b.
Proof.
  induction a as [|c a IH]; simpl; [reflexivity|]. now rewrite IH, andb_assoc.
Qed.

Lemma substring_ascii (n m : nat) (s : string) :
  isascii s = true -> isascii (substring n m s) = true.
Proof.
  revert n m. induction s as [|c s IH]; intros [|n] [|m]; simpl; try reflexivity.
  - intros H. apply andb_true_iff in H as [C H]. rewrite C. now apply IH.
  - intros H. apply andb_true_iff in H as [_ H]. now apply IH.
  - intros H. apply andb_true_iff in H as [_ H]. now apply IH.
Qed.

Lemma split_lines_ascii (s : string) :
  isascii s = true -> Forall (fun line => isascii line = true) (split_lines s).
Proof.
  induction s as [|c s IH]; simpl; [now repeat constructor|].
  intros H. apply andb_true_iff in H as [C H]. specialize (IH H).
  destruct (is_newline c); [now constructor|].
  destruct (split_lines s) as [|line lines]; [repeat constructor; simpl; now rewrite C|].
  inversion IH as [|? ? HL HT]; subst. constructor; [simpl; now rewrite C, HL | exact HT].
Qed.

Lemma preview_line_ascii (line : string) :
  isascii line = true -> isascii (preview_line line) = true.
Proof.
  intros H. unfold preview_line.
  destruct (40 <? String.length line)%nat.
  - destruct (blank _); [reflexivity|].
    rewrite isascii_app, (substring_ascii 0 40 line H). reflexivity.
  - now destruct (blank line).
Qed.

Lemma string_of_uint_ascii (d : Decimal.uint) : isascii (NilEmpty.string_of_uint d) = true.
Proof. induction d; simpl; auto. Qed.

Lemma decimal_ascii (n : nat) : isascii (decimal n) = true.
Proof.
  unfold decimal, NilZero.string_of_uint.
  destruct (Nat.to_uint n) eqn:E; [reflexivity | rewrite <- E; apply string_of_uint_ascii ..].
Qed.

(** X26. For a script in ASCII text, the script preview of the panel shows
    at least one and at most six labels, none of them empty and all of them
    ASCII text: "(empty)" alone for a blank script; otherwise one label for
    each of the first five lines, of at most 43 characters (40 of the line
    and an ellipsis), and a sixth label exactly when the script has more than
    five lines.  These labels are drawn whenever a text block is chosen. *)
Theorem script_preview_bounds (script_content : string) :
  isascii script_content = true ->
  1 <= List.length (script_preview script_content) <= 6 /\
  Forall (fun label => label <> "") (script_preview script_content) /\
  Forall (fun label => String.length label <= 43) (firstn 5 (script_preview script_content)) /\
  (blank script_content = true -> script_preview script_content = ["(empty)"]) /\
  (blank script_content = false ->
   firstn 5 (script_preview script_content)
   = map preview_line (firstn 5 (split_lines script_content)) /\
   (List.length (script_preview script_content) = 6 <->
    5 < List.length (split_lines script_content))) /\
  (forall st label,
      custom_script_text (props st) = Some script_content ->
      In label (script_preview script_content) -> In (Label label) (draw st)) /\
  Forall (fun label => isascii label = true) (script_preview script_content).
Proof.
  intros A. unfold script_preview.
  pose proof (split_lines_ascii script_content A) as AL.
  pose proof (split_lines_nonempty script_content) as N.
  set (lines := split_lines script_content) in *.
  assert (L : List.length (map preview_line (firstn 5 lines)) = Nat.min 5 (List.length lines))
    by now rewrite length_map, length_firstn.
  assert (P : 1 <= List.length lines) by (destruct lines; [contradiction | simpl; lia]).
  assert (F : firstn 5 (map preview_line (firstn 5 lines)
                        ++ (if (5 <? List.length lines)%nat
                            then [("... (" ++ decimal (List.length lines - 5)
                                   ++ " more lines)")%string]
                            else []))
              = map preview_line (firstn 5 lines)).
  { destruct (Nat.ltb_spec 5 (List.length lines)).
    - rewrite firstn_app, L, firstn_all2 by lia.
      replace (5 - Nat.min 5 (List.length lines)) with 0 by lia. simpl. apply app_nil_r.
    - rewrite app_nil_r. apply firstn_all2. lia. }
  repeat apply conj.
  - destruct (blank script_content); [simpl; lia|].
    rewrite length_app, L. destruct (5 <? List.length lines)%nat; cbn [List.length]; lia.
  - destruct (blank script_content); [simpl; lia|].
    rewrite length_app, L. destruct (5 <? List.length lines)%nat; cbn [List.length]; lia.
  - destruct (blank script_content); [now repeat constructor|].
    apply Forall_app. split.
    + apply Forall_forall. intros label H. apply in_map_iff in H as (line & <- & _).
      apply preview_line_nonempty.
    + destruct (5 <? List.length lines)%nat; now repeat constructor.
  - destruct (blank script_content); [repeat constructor; simpl; lia|].
    rewrite F. apply Forall_forall. intros label H. apply in_map_iff in H as (line & <- & _).
    apply preview_line_length.
  - now intros ->.
  - intros ->. split; [exact F|].
    rewrite length_app, L.
    destruct (Nat.ltb_spec 5 (List.length lines)); cbn [List.length]; lia.
  - intros st label S H. unfold draw. rewrite S.
    apply in_or_app. right. apply in_or_app. left. right.
    apply in_map. exact H.
  - destruct (blank script_content); [now repeat constructor|].
    apply Forall_app. split.
    + apply Forall_forall. intros label H. apply in_map_iff in H as (line & <- & H).
      apply preview_line_ascii.
      revert line H. apply Forall_forall. now apply Forall_firstn.
    + destruct (5 <? List.length lines)%nat; [|constructor].
      repeat constructor. rewrite !isascii_app, decimal_ascii. reflexivity.
Qed.

Lemma script_preview_bounds_witness :
  script_preview "   " = ["(empty)"].
Proof.
  exact (proj1 (proj2 (proj2 (proj2 (script_preview_bounds "   " eq_refl)))) eq_refl).
Defined.

End PanelFacts.

(* ================================================================= *)
(** ** __init__.py: which sun is exported *)

Section SunChoice.
Import SunExport.
Variable round : R -> nat -> R.

Lemma find_sun_none (objects : list scene_object) :
  find is_sun objects = None <-> forallb (fun obj => negb (is_sun obj)) objects = true.
Proof.
  induction objects as [|obj objects IH]; simpl; [tauto|].
  destruct (is_sun obj); simpl; [split; discriminate | exact IH].
Qed.

(** X27. [_get_sun_data] reports "No sun light found" exactly when no object
    of the scene is a light of type SUN; otherwise it exports the first such
    object, whatever comes after it. *)
Theorem get_sun_data_first_sun (objects : list scene_object) :
  (_get_sun_data round objects = SunError "No sun light found" <->
   forallb (fun obj => negb (is_sun obj)) objects = true) /\
  (forall before sun_light after,
      objects = before ++ sun_light :: after ->
      forallb (fun obj => negb (is_sun obj)) before = true ->
      is_sun sun_light = true ->
      _get_sun_data round objects = _get_sun_data round [sun_light]).
Proof.
  split.
  - rewrite <- find_sun_none. unfold _get_sun_data.
    destruct (find is_sun objects); split; try reflexivity; discriminate.
  - intros before sun_light after -> B S. unfold _get_sun_data.
    assert (F : find is_sun (before ++ sun_light :: after) = Some sun_light).
    { induction before as [|obj before IH]; simpl in *; [now rewrite S|].
      apply andb_true_iff in B as [B1 B2]. apply negb_true_iff in B1. rewrite B1.
      now apply IH. }
    rewrite F. simpl. now rewrite S.
Qed.

End SunChoice.

Lemma get_sun_data_first_sun_witness :
  SunExport._get_sun_data (fun r _ => r) Samples.objects
  = SunExport._get_sun_data (fun r _ => r) [Samples.sun].
Proof.
  exact (proj2 (get_sun_data_first_sun (fun r _ => r) Samples.objects)
           [Samples.camera] Samples.sun [] eq_refl eq_refl eq_refl).
Defined.
